(** * Change-detection and adaptive-notification pipeline of the monitoring bot

    A shallow embedding of the core of [src/main.py]:
    - [DatabaseManager]: the SQLite tables as finite maps and row lists, and
      the non-reentrant lock that [get_connection] takes;
    - [UserPreferenceManager]: preferences, feedback learning, weight
      adjustment and the notification threshold;
    - [AINotificationFilter]: the local size heuristic;
    - [NotificationGrouper]: the per-user pending queue and its flush;
    - [SmartMonitoringSystem.check_site]: the per-site check.

    Python [float] is IEEE-754 binary64.  It is modelled bit-exactly by
    [spec_float] at precision 53 and maximal exponent 1024, whose operations
    are executable, so that every evaluation below is the value the Python
    interpreter computes. *)

From Stdlib Require Import ZArith Lia Bool List Ascii String.
From Stdlib Require Import SpecFloat.
From stdpp Require Import gmap strings list fin_maps pretty.

Local Open Scope Z_scope.

(** ** Binary64 arithmetic, as Python's [float] *)

Module F64.

Definition prec : Z := 53.
Definition emax : Z := 1024.

Definition t := spec_float.

Definition add : t -> t -> t := SFadd prec emax.
Definition sub : t -> t -> t := SFsub prec emax.
Definition mul : t -> t -> t := SFmul prec emax.
Definition div : t -> t -> t := SFdiv prec emax.
Definition ltb : t -> t -> bool := SFltb.
Definition leb : t -> t -> bool := SFleb.
Definition valid : t -> bool := valid_binary prec emax.

(** An integer as an exact operand of [div]: mantissa [|z|] and exponent 0,
    not rounded to 53 bits. *)
Definition of_Z (z : Z) : t :=
  match z with
  | Z0 => S754_zero false
  | Zpos p => S754_finite false p 0
  | Zneg p => S754_finite true p 0
  end.

(** A decimal literal [n/d] denotes the binary64 nearest to the quotient;
    [div] rounds the exact quotient of the two integers once. *)
Definition lit (n d : Z) : t := div (of_Z n) (of_Z d).

(** The literals of [main.py]. *)
Definition c1_0 : t := S754_finite false 4503599627370496 (-52).
Definition c0_5 : t := S754_finite false 4503599627370496 (-53).
Definition c0_2 : t := S754_finite false 7205759403792794 (-55).
Definition c0_1 : t := S754_finite false 7205759403792794 (-56).
Definition c0_3 : t := S754_finite false 5404319552844595 (-54).
Definition c0_7 : t := S754_finite false 6305039478318694 (-53).

(** Python's [a / b] on two [int]s (true division): the exact quotient
    rounded once to binary64.  [None] is [ZeroDivisionError]. *)
Definition truediv (a b : Z) : option t :=
  if Z.eqb b 0 then None else Some (div (of_Z a) (of_Z b)).

(** Python's two-argument [min] and [max]: the first argument is kept
    unless the second is strictly smaller (resp. larger). *)
Definition py_min (a b : t) : t := if ltb b a then b else a.
Definition py_max (a b : t) : t := if ltb a b then b else a.

End F64.

(** ** Python strings and dictionaries *)

Module Py.

(** [s.split(sep)] for a one-character separator: never empty. *)
Fixpoint split_on (sep : ascii) (s : string) : list string :=
  match s with
  | EmptyString => [EmptyString]
  | String c s' =>
      if Ascii.eqb c sep then EmptyString :: split_on sep s'
      else match split_on sep s' with
           | h :: t => String c h :: t
           | [] => [String c EmptyString]
           end
  end.

(** [sep.join(l)]. *)
Fixpoint join (sep : string) (l : list string) : string :=
  match l with
  | [] => EmptyString
  | [x] => x
  | x :: rest => x +:+ sep +:+ join sep rest
  end.

(** [str(v)] (as an f-string renders it) for a value that is a string or
    [None]. *)
Definition str (v : option string) : string :=
  match v with
  | Some s => s
  | None => "None"
  end.

(** [v in l] for a list of strings and a value that is a string or [None]. *)
Definition mem (v : option string) (l : list string) : bool :=
  match v with
  | Some s => bool_decide (s ∈ l)
  | None => false
  end.

(** A Python string is held as its UTF-8 encoding, one element per
    byte.  A byte of the form [10xxxxxx] continues the code point that an
    earlier byte started; every other byte starts one. *)
Definition is_continuation (c : ascii) : bool :=
  match c with
  | Ascii _ _ _ _ _ _ b6 b7 => b7 && negb b6
  end.

(** [len(s)]: the number of code points. *)
Fixpoint len (s : string) : nat :=
  match s with
  | EmptyString => O
  | String c s' => if is_continuation c then len s' else S (len s')
  end.

(** [s[:n]] for a bound [n >= 0]: the first [n] code points, each with
    its continuation bytes. *)
Fixpoint take_nat (n : nat) (s : string) : string :=
  match s with
  | EmptyString => EmptyString
  | String c s' =>
      if is_continuation c then String c (take_nat n s')
      else match n with
           | O => EmptyString
           | S n' => String c (take_nat n' s')
           end
  end.

Definition take (n : Z) (s : string) : string := take_nat (Z.to_nat n) s.

(** An insertion-ordered dictionary with string keys. *)
Section Dict.
Context {V : Type}.

Fixpoint get (k : string) (d : list (string * V)) : option V :=
  match d with
  | [] => None
  | (k', v) :: rest => if String.eqb k k' then Some v else get k rest
  end.

(** [d[k] = v]: in place when the key exists, appended otherwise. *)
Fixpoint set (k : string) (v : V) (d : list (string * V)) : list (string * V) :=
  match d with
  | [] => [(k, v)]
  | (k', v') :: rest =>
      if String.eqb k k' then (k', v) :: rest else (k', v') :: set k v rest
  end.
End Dict.

(** The exceptions that the modelled code can raise. *)
Inductive exn :=
| KeyError (k : string)
| IndexError
| ZeroDivisionError.

End Py.

(** ** The store: [DatabaseManager] *)

Module Db.

(** A row of [user_feedback]. *)
Record feedback_row := {
  fb_user_id : Z;
  fb_notification_id : string;
  fb_feedback_type : string;
  fb_change_category : option string;
  fb_importance_level : option string
}.

(** A row of [notification_history]. *)
Record history_row := {
  nh_user_id : Z;
  nh_notification_id : string;
  nh_site_name : string;
  nh_change_category : option string;
  nh_importance_level : option string;
  nh_feedback_received : bool
}.

(** A row of [check_errors]. *)
Record error_row := {
  ce_site_id : Z;
  ce_error_type : string;
  ce_error_message : string
}.

(** A row of [users]. *)
Record user_row := {
  u_username : string;
  u_first_name : string;
  u_subscribed : bool
}.

(** A row of [monitored_sites]; timestamps are seconds. *)
Record site_row := {
  ms_id : Z;
  ms_user_id : Z;
  ms_url : string;
  ms_site_name : string;
  ms_css_selector : option string;
  ms_last_hash : option string;
  ms_last_content : option string;
  ms_check_interval : Z;
  ms_enabled : bool;
  ms_last_checked : option Z
}.

(** The learned like/dislike tally of one [category_importance] key. *)
Record tally := { likes : Z; dislikes : Z }.

(** The [learning_data] JSON object. *)
Record learning := {
  positive_feedback : Z;
  negative_feedback : Z;
  learned_patterns : list (string * tally)
}.

(** A row of [user_preferences]: the four columns that the program
    reads.  The two JSON columns hold the value that [json.loads] returns
    for them: [json.dumps] followed by [json.loads] is the identity on
    string-keyed objects of floats and integers.  The columns
    [created_at] and [updated_at], which every [INSERT OR REPLACE] sets
    anew and nothing reads, are left out. *)
Record prefs_row := {
  pr_preferred_categories : string;
  pr_importance_weights : gmap string F64.t;
  pr_notification_frequency : string;
  pr_learning_data : learning
}.

(** The database file together with the [threading.Lock] of the
    manager.  The model follows one thread: [lock_held] tells that this
    thread is inside a connection block. *)
Record t := {
  lock_held : bool;
  users : gmap Z user_row;
  monitored_sites : gmap Z site_row;
  user_preferences : gmap Z prefs_row;
  user_feedback : list feedback_row;
  notification_history : list history_row;
  check_errors : list error_row
}.

Definition set_lock (b : bool) (d : t) : t :=
  {| lock_held := b; users := users d; monitored_sites := monitored_sites d;
     user_preferences := user_preferences d; user_feedback := user_feedback d;
     notification_history := notification_history d;
     check_errors := check_errors d |}.

Definition set_user_preferences (p : gmap Z prefs_row) (d : t) : t :=
  {| lock_held := lock_held d; users := users d;
     monitored_sites := monitored_sites d;
     user_preferences := p; user_feedback := user_feedback d;
     notification_history := notification_history d;
     check_errors := check_errors d |}.

Definition set_user_feedback (f : list feedback_row) (d : t) : t :=
  {| lock_held := lock_held d; users := users d;
     monitored_sites := monitored_sites d;
     user_preferences := user_preferences d; user_feedback := f;
     notification_history := notification_history d;
     check_errors := check_errors d |}.

Definition set_notification_history (h : list history_row) (d : t) : t :=
  {| lock_held := lock_held d; users := users d;
     monitored_sites := monitored_sites d;
     user_preferences := user_preferences d; user_feedback := user_feedback d;
     notification_history := h;
     check_errors := check_errors d |}.

Definition set_monitored_sites (m : gmap Z site_row) (d : t) : t :=
  {| lock_held := lock_held d; users := users d;
     monitored_sites := m;
     user_preferences := user_preferences d; user_feedback := user_feedback d;
     notification_history := notification_history d;
     check_errors := check_errors d |}.

Definition set_check_errors (c : list error_row) (d : t) : t :=
  {| lock_held := lock_held d; users := users d;
     monitored_sites := monitored_sites d;
     user_preferences := user_preferences d; user_feedback := user_feedback d;
     notification_history := notification_history d;
     check_errors := c |}.

(** The outcome of a call: a value, an exception, or a thread blocked for
    ever on the lock it already holds. *)
Inductive result (A : Type) :=
| Ok (a : A) (d : t)
| Raise (e : Py.exn) (d : t)
| Hang.
Arguments Ok {A} a d.
Arguments Raise {A} e d.
Arguments Hang {A}.

Definition M (A : Type) : Type := t -> result A.

Definition ret {A} (a : A) : M A := fun d => Ok a d.
Definition raise {A} (e : Py.exn) : M A := fun d => Raise e d.
Definition bind {A B} (m : M A) (k : A -> M B) : M B :=
  fun d =>
    match m d with
    | Ok a d' => k a d'
    | Raise e d' => Raise e d'
    | Hang => Hang
    end.

(** [with self.get_connection() as conn: body].  The lock is a plain
    [threading.Lock]: taking it while it is held blocks.  The body's
    statements are committed when it ends normally and rolled back when it
    raises; the lock is released either way. *)
Definition get_connection {A} (body : M A) : M A :=
  fun d =>
    if lock_held d then Hang
    else match body (set_lock true d) with
         | Ok a d' => Ok a (set_lock false d')
         | Raise e _ => Raise e d
         | Hang => Hang
         end.

End Db.

Notation "'do' x <~ m ; k" := (Db.bind m (fun x => k))
  (at level 10, x name, m at level 100, k at level 200).
Notation "'exec' m ; k" := (Db.bind m (fun _ => k))
  (at level 10, m at level 100, k at level 200).

(** ** [UserPreferenceManager] *)

Module Prefs.
Import Db.

(** The dictionary that [get_user_preferences] returns. *)
Record preferences := {
  preferred_categories : list string;
  importance_weights : gmap string F64.t;
  notification_frequency : string;
  learning_data : learning
}.

(** The [change_data] of a feedback event and the [change_analysis] of a
    change: [category] and [importance] are a string, or [None] when the
    key is absent ([dict.get]). *)
Record change_data := {
  cd_category : option string;
  cd_importance : option string
}.

Definition default_prefs : preferences :=
  {| preferred_categories := ["content"; "design"; "technical"]%string;
     importance_weights :=
       <["content"%string := F64.c1_0]>
         (<["design"%string := F64.c0_7]>
            (<["technical"%string := F64.c0_3]> ∅));
     notification_frequency := "immediate";
     learning_data :=
       {| positive_feedback := 0; negative_feedback := 0;
          learned_patterns := [] |} |}.

Definition prefs_of_row (row : prefs_row) : preferences :=
  {| preferred_categories := Py.split_on "," (pr_preferred_categories row);
     importance_weights := pr_importance_weights row;
     notification_frequency := pr_notification_frequency row;
     learning_data := pr_learning_data row |}.

Definition row_of_prefs (p : preferences) : prefs_row :=
  {| pr_preferred_categories := Py.join "," (preferred_categories p);
     pr_importance_weights := importance_weights p;
     pr_notification_frequency := notification_frequency p;
     pr_learning_data := learning_data p |}.

Definition with_weights (w : gmap string F64.t) (p : preferences) : preferences :=
  {| preferred_categories := preferred_categories p;
     importance_weights := w;
     notification_frequency := notification_frequency p;
     learning_data := learning_data p |}.

Definition with_learning (l : learning) (p : preferences) : preferences :=
  {| preferred_categories := preferred_categories p;
     importance_weights := importance_weights p;
     notification_frequency := notification_frequency p;
     learning_data := l |}.

(** [INSERT OR REPLACE INTO user_preferences]. *)
Definition update_user_preferences (user_id : Z) (p : preferences) : M unit :=
  get_connection (fun d =>
    Ok tt (set_user_preferences
             (<[user_id := row_of_prefs p]> (user_preferences d)) d)).

(** The row is read inside the connection block; when it is absent the
    defaults are written by [update_user_preferences] from inside that
    same block, that is, while the lock is still held. *)
Definition get_user_preferences (user_id : Z) : M preferences :=
  get_connection (fun d =>
    match user_preferences d !! user_id with
    | Some row => Ok (prefs_of_row row) d
    | None =>
        (exec update_user_preferences user_id default_prefs;
         ret default_prefs) d
    end).

Definition is_like (feedback_type : string) : bool :=
  String.eqb feedback_type "like".
Definition is_negative (feedback_type : string) : bool :=
  String.eqb feedback_type "dislike" || String.eqb feedback_type "dismiss".

Definition pattern_key (cd : change_data) : string :=
  Py.str (cd_category cd) +:+ "_" +:+ Py.str (cd_importance cd).

(** The in-place edits of [learning_data] in [update_learning_model]. *)
Definition count_feedback (feedback_type : string) (l : learning) : learning :=
  if is_like feedback_type then
    {| positive_feedback := positive_feedback l + 1;
       negative_feedback := negative_feedback l;
       learned_patterns := learned_patterns l |}
  else if is_negative feedback_type then
    {| positive_feedback := positive_feedback l;
       negative_feedback := negative_feedback l + 1;
       learned_patterns := learned_patterns l |}
  else l.

Definition ensure_pattern (key : string) (l : learning) : learning :=
  match Py.get key (learned_patterns l) with
  | Some _ => l
  | None =>
      {| positive_feedback := positive_feedback l;
         negative_feedback := negative_feedback l;
         learned_patterns :=
           Py.set key {| likes := 0; dislikes := 0 |} (learned_patterns l) |}
  end.

Definition bump_tally (feedback_type : string) (c : tally) : tally :=
  if is_like feedback_type then
    {| likes := likes c + 1; dislikes := dislikes c |}
  else if is_negative feedback_type then
    {| likes := likes c; dislikes := dislikes c + 1 |}
  else c.

Definition count_pattern (feedback_type key : string) (l : learning) : learning :=
  match Py.get key (learned_patterns l) with
  | Some c =>
      {| positive_feedback := positive_feedback l;
         negative_feedback := negative_feedback l;
         learned_patterns :=
           Py.set key (bump_tally feedback_type c) (learned_patterns l) |}
  | None => l
  end.

Definition learn (feedback_type : string) (cd : change_data) (l : learning) : learning :=
  let key := pattern_key cd in
  count_pattern feedback_type key
    (ensure_pattern key (count_feedback feedback_type l)).

(** [pattern_key.split('_')[0]]. *)
Definition key_category (key : string) : string :=
  match Py.split_on "_" key with
  | c :: _ => c
  | [] => EmptyString
  end.

(** One iteration of the loop of [adjust_importance_weights]. *)
Definition adjust_one (weights : gmap string F64.t) (entry : string * tally)
  : Py.exn + gmap string F64.t :=
  let category := key_category (fst entry) in
  let total_feedback := likes (snd entry) + dislikes (snd entry) in
  if 3 <=? total_feedback then
    match F64.truediv (likes (snd entry)) total_feedback with
    | None => inl Py.ZeroDivisionError
    | Some like_ratio =>
        if F64.ltb F64.c0_7 like_ratio then
          match weights !! category with
          | Some w =>
              inr (<[category := F64.py_min F64.c1_0 (F64.add w F64.c0_1)]> weights)
          | None => inl (Py.KeyError category)
          end
        else if F64.ltb like_ratio F64.c0_3 then
          match weights !! category with
          | Some w =>
              inr (<[category := F64.py_max F64.c0_1 (F64.sub w F64.c0_1)]> weights)
          | None => inl (Py.KeyError category)
          end
        else inr weights
    end
  else inr weights.

(** The loop over [learned_patterns], in insertion order. *)
Fixpoint adjust_all (weights : gmap string F64.t) (patterns : list (string * tally))
  : Py.exn + gmap string F64.t :=
  match patterns with
  | [] => inr weights
  | entry :: rest =>
      match adjust_one weights entry with
      | inl e => inl e
      | inr weights' => adjust_all weights' rest
      end
  end.

Definition adjust_importance_weights (user_id : Z) (l : learning) : M unit :=
  do prefs <~ get_user_preferences user_id;
  match adjust_all (importance_weights prefs) (learned_patterns l) with
  | inl e => raise e
  | inr weights => update_user_preferences user_id (with_weights weights prefs)
  end.

Definition update_learning_model (user_id : Z) (feedback_type : string)
    (cd : change_data) : M unit :=
  do prefs <~ get_user_preferences user_id;
  let l := learn feedback_type cd (learning_data prefs) in
  exec adjust_importance_weights user_id l;
  update_user_preferences user_id (with_learning l prefs).

Definition mark_feedback_received (notification_id : string) (user_id : Z)
    (h : history_row) : history_row :=
  if String.eqb (nh_notification_id h) notification_id && Z.eqb (nh_user_id h) user_id
  then {| nh_user_id := nh_user_id h; nh_notification_id := nh_notification_id h;
          nh_site_name := nh_site_name h;
          nh_change_category := nh_change_category h;
          nh_importance_level := nh_importance_level h;
          nh_feedback_received := true |}
  else h.

(** The two statements of the connection block of [record_feedback]. *)
Definition logged (user_id : Z) (notification_id feedback_type : string)
    (cd : change_data) (d : Db.t) : Db.t :=
  set_notification_history
    (map (mark_feedback_received notification_id user_id)
       (notification_history d))
    (set_user_feedback
       (user_feedback d ++
          [{| fb_user_id := user_id; fb_notification_id := notification_id;
              fb_feedback_type := feedback_type;
              fb_change_category := cd_category cd;
              fb_importance_level := cd_importance cd |}]) d).

Definition record_feedback (user_id : Z) (notification_id feedback_type : string)
    (cd : change_data) : M unit :=
  exec get_connection (fun d =>
    Ok tt (logged user_id notification_id feedback_type cd d));
  update_learning_model user_id feedback_type cd.

(** The literal dictionary [{'high': 1.0, 'medium': 0.5, 'low': 0.2}]. *)
Definition base_importance_score (importance : string) : option F64.t :=
  if String.eqb importance "high" then Some F64.c1_0
  else if String.eqb importance "medium" then Some F64.c0_5
  else if String.eqb importance "low" then Some F64.c0_2
  else None.

Definition threshold : F64.t := F64.c0_3.

(** [weights.get(category, 0.5)]. *)
Definition weight_of (weights : gmap string F64.t) (category : option string)
  : F64.t :=
  match category with
  | Some c => default F64.c0_5 (weights !! c)
  | None => F64.c0_5
  end.

Definition should_send_notification (user_id : Z) (analysis : change_data)
  : M bool :=
  do prefs <~ get_user_preferences user_id;
  let category := cd_category analysis in
  if negb (Py.mem category (preferred_categories prefs)) then ret false
  else
    let importance := default "medium"%string (cd_importance analysis) in
    match base_importance_score importance with
    | None => raise (Py.KeyError importance)
    | Some base_importance_score =>
        let user_weight := weight_of (importance_weights prefs) category in
        let final_score := F64.mul base_importance_score user_weight in
        ret (F64.leb threshold final_score)
    end.

End Prefs.

(** ** [AINotificationFilter] *)

Module Filter.

(** The dictionary handed to [analyze_change_importance]: each key is
    present with a string value, or absent ([None]). *)
Record change_record := {
  cr_site_name : option string;
  cr_url : option string;
  cr_diff : option string;
  cr_change_type : option string;
  cr_old_content : option string;
  cr_new_content : option string
}.

(** The dictionary that the analysis returns. *)
Record analysis := {
  category : string;
  importance : string;
  personal_importance_score : F64.t;
  key_aspects : list string;
  should_notify : bool;
  reasoning : string;
  personalized_summary : string
}.

Definition basic_analysis (cd : change_record) : Py.exn + analysis :=
  match cr_diff cd with
  | None => inl (Py.KeyError "diff")
  | Some diff =>
      let change_size := Z.of_nat (Py.len diff) in
      let '(importance, category) :=
        if 2000 <? change_size then ("high", "content")
        else if 500 <? change_size then ("medium", "design")
        else ("low", "technical") in
      match cr_site_name cd with
      | None => inl (Py.KeyError "site_name")
      | Some site_name =>
          inr {| category := category;
                 importance := importance;
                 personal_importance_score := F64.c0_5;
                 key_aspects :=
                   ["Изменения размером " +:+ pretty change_size +:+ " символов"];
                 should_notify := true;
                 reasoning := "Базовый анализ на основе размера изменений";
                 personalized_summary :=
                   "Обнаружены изменения на сайте " +:+ site_name |}
      end
  end.

(** [not self.api_key]: the key is [None] or the empty string. *)
Definition no_api_key (api_key : option string) : bool :=
  match api_key with
  | None => true
  | Some k => String.eqb k ""
  end.

(** [remote] is what the [try] block produces when credentials are
    configured: the parsed reply of the enrichment service, or [None] when
    anything in the block raised. *)
Definition analyze_change_importance (api_key : option string)
    (remote : option analysis) (cd : change_record) : Py.exn + analysis :=
  if no_api_key api_key then basic_analysis cd
  else match remote with
       | Some a => inr a
       | None => basic_analysis cd
       end.

End Filter.

(** ** [NotificationGrouper] *)

Module Grouper.

(** A notification dictionary.  [personalized_summary] is absent from the
    summaries that the grouper builds; [is_summary] and
    [detailed_changes] are absent from the others. *)
Record notification := {
  notification_id : string;
  site_name : string;
  category : string;
  importance : string;
  title : string;
  message : string;
  personalized_summary : option string;
  is_summary : bool;
  detailed_changes : list string;
  timestamp : Z
}.

(** [defaultdict(list)] keyed by user. *)
Definition pending := gmap Z (list notification).

Definition add_notification (user_id : Z) (n : notification) (p : pending)
  : pending :=
  <[user_id := default [] (p !! user_id) ++ [n]]> p.

Definition group_key (n : notification) : string :=
  category n +:+ "_" +:+ site_name n.

(** [grouped[key].append(notification)] on a [defaultdict(list)]. *)
Definition group_append (grouped : list (string * list notification))
    (n : notification) : list (string * list notification) :=
  let key := group_key n in
  Py.set key (default [] (Py.get key grouped) ++ [n]) grouped.

Definition group_all (notifications : list notification)
  : list (string * list notification) :=
  fold_left group_append notifications [].

(** Python's [x > y] on strings is the lexicographic order of the
    characters; [max] keeps the first of the largest elements. *)
Definition str_max (current item : string) : string :=
  if String.ltb current item then item else current.

Definition max_importance (notifications : list notification) : string :=
  match notifications with
  | [] => EmptyString
  | n :: rest => fold_left str_max (map importance rest) (importance n)
  end.

(** [[n['personalized_summary'] for n in notifications]]. *)
Fixpoint summaries (notifications : list notification) : Py.exn + list string :=
  match notifications with
  | [] => inr []
  | n :: rest =>
      match personalized_summary n with
      | None => inl (Py.KeyError "personalized_summary")
      | Some s =>
          match summaries rest with
          | inl e => inl e
          | inr l => inr (s :: l)
          end
      end
  end.

(** [stamp] is the rendering of [datetime.now().timestamp()] and [now]
    the value of [datetime.now()]. *)
Definition create_summary_notification (stamp : string) (now : Z)
    (notifications : list notification) : Py.exn + notification :=
  match notifications with
  | [] => inl Py.IndexError
  | main_notification :: _ =>
      match summaries notifications with
      | inl e => inl e
      | inr details =>
          inr {| notification_id := "summary_" +:+ stamp;
                 site_name := site_name main_notification;
                 category := category main_notification;
                 importance := max_importance notifications;
                 title :=
                   "🔔 " +:+ pretty (length notifications)
                     +:+ " обновлений на " +:+ site_name main_notification;
                 message :=
                   "За последнее время произошло "
                     +:+ pretty (length notifications)
                     +:+ " изменений в категории "
                     +:+ category main_notification +:+ ".";
                 personalized_summary := None;
                 is_summary := true;
                 detailed_changes := details;
                 timestamp := now |}
      end
  end.

(** The loop over [grouped.items()]. *)
Fixpoint summarize (stamp : string) (now : Z)
    (groups : list (string * list notification)) : Py.exn + list notification :=
  match groups with
  | [] => inr []
  | (_, group) :: rest =>
      let head :=
        match group with
        | [single] => inr single
        | _ => create_summary_notification stamp now group
        end in
      match head with
      | inl e => inl e
      | inr n =>
          match summarize stamp now rest with
          | inl e => inl e
          | inr l => inr (n :: l)
          end
      end
  end.

(** The flush: the result and the pending queues afterwards.  The queue
    of the user is cleared only when the loop has ended normally. *)
Definition get_grouped_notifications (stamp : string) (now : Z) (user_id : Z)
    (p : pending) : (Py.exn + list notification) * pending :=
  match default [] (p !! user_id) with
  | [] => (inr [], p)
  | notifications =>
      match summarize stamp now (group_all notifications) with
      | inl e => (inl e, p)
      | inr l => (inr l, <[user_id := []]> p)
      end
  end.

End Grouper.

(** ** [SmartMonitoringSystem] and the site table *)

Module Monitor.
Import Db.

(** What one check observes of the outside world: the exception that the
    fetch or the parser raised, or the normalized text of the page. *)
Inductive observation :=
| HTTPError (status : string)
| Timeout
| ConnectionError
| OtherError (msg : string)
| TextError (msg : string)
| PageText (text : string).

(** The arguments of the [process_change] call that a check schedules. *)
Record change_event := {
  ev_user_id : Z;
  ev_site_name : string;
  ev_url : string;
  ev_diff : string;
  ev_old_content : string;
  ev_new_content : string;
  ev_change_type : string
}.

(** The [WHERE] clause of [get_all_monitored_sites] at time [now], in
    seconds.  For a negative interval the modifier ['+-N minutes'] is
    not one that [datetime] accepts: it answers [NULL], the comparison is
    [NULL] and the row is not selected. *)
Definition due (d : Db.t) (now : Z) (site : site_row) : bool :=
  match users d !! ms_user_id site with
  | Some u =>
      u_subscribed u && ms_enabled site
      && match ms_last_checked site with
         | None => true
         | Some checked =>
             (0 <=? ms_check_interval site)
             && (checked + 60 * ms_check_interval site <? now)
         end
  | None => false
  end.

Definition get_all_monitored_sites (now : Z) : M (list site_row) :=
  get_connection (fun d =>
    Ok (filter (fun site => Is_true (due d now site))
          (snd <$> map_to_list (monitored_sites d))) d).

Definition set_site_state (current_hash content : string) (now : Z)
    (site : site_row) : site_row :=
  {| ms_id := ms_id site; ms_user_id := ms_user_id site; ms_url := ms_url site;
     ms_site_name := ms_site_name site; ms_css_selector := ms_css_selector site;
     ms_last_hash := Some current_hash;
     ms_last_content := Some (Py.take 100000 content);
     ms_check_interval := ms_check_interval site;
     ms_enabled := ms_enabled site;
     ms_last_checked := Some now |}.

(** [UPDATE monitored_sites SET ... WHERE id = ?] at time [now]. *)
Definition update_site_hash (site_id : Z) (current_hash content : string)
    (now : Z) : M unit :=
  get_connection (fun d =>
    Ok tt (set_monitored_sites
             (alter (set_site_state current_hash content now) site_id
                (monitored_sites d)) d)).

Definition record_error (site_id : Z) (error_type error_message : string)
  : M unit :=
  get_connection (fun d =>
    Ok tt (set_check_errors
             (check_errors d ++
                [{| ce_site_id := site_id; ce_error_type := error_type;
                    ce_error_message := Py.take 500 error_message |}]) d)).

(** A value of a [TEXT] column is true when it is neither [NULL] nor
    empty. *)
Definition truthy (v : option string) : bool :=
  match v with
  | Some s => negb (String.eqb s "")
  | None => false
  end.

Section Check.
(** [hashlib.md5(text.encode(...)).hexdigest()]. *)
Variable md5 : string -> string.
(** The joined lines of [difflib.unified_diff] with two lines of
    context, or [None] when computing it raised. *)
Variable unified_diff : string -> string -> option string.

Definition changes_diff (old_content text : string) : string :=
  match unified_diff old_content text with
  | Some diff => Py.take 5000 diff
  | None => "Изменения обнаружены, но не могут быть отображены"
  end.

(** One check of [site] (the row as the scan selected it) at time
    [now]; the result lists the changes handed to [process_change]. *)
Definition check_site (site : site_row) (obs : observation) (now : Z)
  : M (list change_event) :=
  match obs with
  | HTTPError status =>
      exec record_error (ms_id site) "http_error" ("HTTP " +:+ status);
      ret []
  | Timeout =>
      exec record_error (ms_id site) "timeout" "Timeout"; ret []
  | ConnectionError =>
      exec record_error (ms_id site) "connection_error" "Connection error";
      ret []
  | OtherError msg =>
      exec record_error (ms_id site) "general_error" msg; ret []
  | TextError msg =>
      exec record_error (ms_id site) "parsing_error" msg; ret []
  | PageText text =>
      if String.eqb text "" || (Py.len text <? 50)%nat then ret []
      else
        let current_hash := md5 text in
        let events :=
          if truthy (ms_last_hash site)
             && negb (String.eqb current_hash (default ""%string (ms_last_hash site)))
          then
            let old_content := default ""%string (ms_last_content site) in
            [{| ev_user_id := ms_user_id site;
                ev_site_name := ms_site_name site;
                ev_url := ms_url site;
                ev_diff := changes_diff old_content text;
                ev_old_content := old_content;
                ev_new_content := text;
                ev_change_type := "content_update" |}]
          else [] in
        exec update_site_hash (ms_id site) current_hash text now;
        ret events
  end.
End Check.

End Monitor.

(** ** Rounding to nearest, ties to even, in closed form

    [round_mantissa M n] is the mantissa [M] shifted right by [n] bits and
    rounded: it goes up when the dropped bits exceed half a unit, or equal
    it while the kept mantissa is odd. *)
Definition round_up (M n : Z) : bool :=
  (2 ^ n <? 2 * (M mod 2 ^ n)) || ((2 * (M mod 2 ^ n) =? 2 ^ n) && Z.odd (M / 2 ^ n)).
Definition round_mantissa (M n : Z) : Z :=
  if round_up M n then M / 2 ^ n + 1 else M / 2 ^ n.

(** The value that rounding an exact positive mantissa returns at
    precision 53 and maximal exponent 1024. *)
Definition round_model (s : bool) (M : positive) (E : Z) : spec_float :=
  let e1 := Z.max (Zpos (digits2_pos M) + E - 53) (-1074) in
  let q := round_mantissa (Zpos M) (e1 - E) in
  if q =? 2 ^ 53 then
    if e1 + 1 <=? 971 then S754_finite s (2 ^ 52)%positive (e1 + 1)
    else S754_infinity s
  else
    match q with
    | Z0 => S754_zero s
    | Zpos m => if e1 <=? 971 then S754_finite s m e1 else S754_infinity s
    | Zneg _ => S754_nan
    end.

(** The exact value [M * 2^E] lies above the midpoint between the binary64
    value [mc * 2^ec] and its predecessor, or on it when [mc] is even (the
    tie then rounds to [mc]).  Both sides are scaled by [2^1201]. *)
Definition exceeds (mc ec M E : Z) : Prop :=
  if Z.odd mc
  then (2 * mc - 1) * 2 ^ (ec + 1200) < 2 * M * 2 ^ (E + 1200)
  else (2 * mc - 1) * 2 ^ (ec + 1200) <= 2 * M * 2 ^ (E + 1200).

(** ** Definitions used by the statements *)

(** The table [base_importance] of the specification. *)
Definition spec_base_importance (importance : string) : F64.t :=
  if String.eqb importance "high" then F64.c1_0
  else if String.eqb importance "medium" then F64.c0_5
  else F64.c0_2.

(** A weight lies in [[0.1, 1.0]]. *)
Definition in_range (w : F64.t) : Prop :=
  F64.leb F64.c0_1 w = true /\ F64.leb w F64.c1_0 = true.

(** A stored weight: a binary64 value in [[0.1, 1.0]]. *)
Definition weight_ok (w : F64.t) : Prop := F64.valid w = true /\ in_range w.

(** The [like_ratio] of a tally, as [adjust_importance_weights] computes
    it. *)
Definition like_ratio (c : Db.tally) : F64.t :=
  F64.div (F64.of_Z (Db.likes c)) (F64.of_Z (Db.likes c + Db.dislikes c)).

(** One feedback event: the arguments of [record_feedback] after the
    user. *)
Record feedback_event := {
  fe_notification_id : string;
  fe_feedback_type : string;
  fe_change_data : Prefs.change_data
}.

(** The store after a feedback event.  [handle_feedback] catches what
    [record_feedback] raises, so that the next event finds the store as the
    exception left it; a call that never returns leaves no store. *)
Definition feed (user_id : Z) (ev : feedback_event) (d : Db.t) : option Db.t :=
  match Prefs.record_feedback user_id (fe_notification_id ev)
          (fe_feedback_type ev) (fe_change_data ev) d with
  | Db.Ok _ d' => Some d'
  | Db.Raise _ d' => Some d'
  | Db.Hang => None
  end.

Fixpoint feed_all (user_id : Z) (evs : list feedback_event) (d : Db.t)
  : option Db.t :=
  match evs with
  | [] => Some d
  | ev :: rest =>
      match feed user_id ev d with
      | Some d' => feed_all user_id rest d'
      | None => None
      end
  end.

(** The row with the weight of one category replaced. *)
Definition with_row_weight (category : string) (w : F64.t) (row : Db.prefs_row)
  : Db.prefs_row :=
  {| Db.pr_preferred_categories := Db.pr_preferred_categories row;
     Db.pr_importance_weights := <[category := w]> (Db.pr_importance_weights row);
     Db.pr_notification_frequency := Db.pr_notification_frequency row;
     Db.pr_learning_data := Db.pr_learning_data row |}.

(** The persisted weight of a category. *)
Definition stored_weight (d : Db.t) (user_id : Z) (category : string)
  : option F64.t :=
  match Db.user_preferences d !! user_id with
  | Some row => Db.pr_importance_weights row !! category
  | None => None
  end.

(** Sample data: a user whose row holds the default preferences, and one
    whose content weight is 0.7. *)
Module Sample.

Definition empty_learning : Db.learning :=
  {| Db.positive_feedback := 0; Db.negative_feedback := 0;
     Db.learned_patterns := [] |}.

Definition default_row : Db.prefs_row := Prefs.row_of_prefs Prefs.default_prefs.

Definition row_0_7 : Db.prefs_row :=
  {| Db.pr_preferred_categories := "content,design,technical";
     Db.pr_importance_weights :=
       <["content"%string := F64.c0_7]>
         (<["design"%string := F64.c0_7]>
            (<["technical"%string := F64.c0_3]> ∅));
     Db.pr_notification_frequency := "immediate";
     Db.pr_learning_data := empty_learning |}.

Definition store (row : Db.prefs_row) : Db.t :=
  {| Db.lock_held := false;
     Db.users :=
       {[ 1 := {| Db.u_username := "user"; Db.u_first_name := "User";
                  Db.u_subscribed := true |} ]};
     Db.monitored_sites := ∅;
     Db.user_preferences := {[ 1 := row ]};
     Db.user_feedback := [];
     Db.notification_history := [];
     Db.check_errors := [] |}.

Definition content_high : Prefs.change_data :=
  {| Prefs.cd_category := Some "content"%string;
     Prefs.cd_importance := Some "high"%string |}.

Definition design_medium : Prefs.change_data :=
  {| Prefs.cd_category := Some "design"%string;
     Prefs.cd_importance := Some "medium"%string |}.

Definition commerce_high : Prefs.change_data :=
  {| Prefs.cd_category := Some "commerce"%string;
     Prefs.cd_importance := Some "high"%string |}.

(** The default preferences after two likes on (commerce, high). *)
Definition commerce_row : Db.prefs_row :=
  {| Db.pr_preferred_categories := "content,design,technical";
     Db.pr_importance_weights := Db.pr_importance_weights default_row;
     Db.pr_notification_frequency := "immediate";
     Db.pr_learning_data :=
       {| Db.positive_feedback := 2; Db.negative_feedback := 0;
          Db.learned_patterns :=
            [("commerce_high"%string,
              {| Db.likes := 2; Db.dislikes := 0 |})] |} |}.

Definition like (cd : Prefs.change_data) : feedback_event :=
  {| fe_notification_id := "1_1700000000.0"; fe_feedback_type := "like";
     fe_change_data := cd |}.

(** A pending notification as [process_change] builds it. *)
Definition notice (id importance summary : string) : Grouper.notification :=
  {| Grouper.notification_id := id;
     Grouper.site_name := "example.com";
     Grouper.category := "content";
     Grouper.importance := importance;
     Grouper.title := "Обновление Контент";
     Grouper.message := "Обнаружены изменения на сайте.";
     Grouper.personalized_summary := Some summary;
     Grouper.is_summary := false;
     Grouper.detailed_changes := [];
     Grouper.timestamp := 1700000000 |}.

(** The queue of user 1 after a high and then a low notification for
    the same category and site. *)
Definition queue_high_low : Grouper.pending :=
  Grouper.add_notification 1 (notice "1_2" "low" "second change")
    (Grouper.add_notification 1 (notice "1_1" "high" "first change") ∅).

(** A site that was never checked, and a store that holds it. *)
Definition site : Db.site_row :=
  {| Db.ms_id := 7; Db.ms_user_id := 1;
     Db.ms_url := "https://example.com"; Db.ms_site_name := "example.com";
     Db.ms_css_selector := None; Db.ms_last_hash := None;
     Db.ms_last_content := None; Db.ms_check_interval := 10;
     Db.ms_enabled := true; Db.ms_last_checked := None |}.

Definition site_store : Db.t :=
  Db.set_monitored_sites {[ 7 := site ]} (store default_row).

Definition page : string :=
  "Hello world, welcome to the example page of this site.".

(** A page of 32 Cyrillic characters, and a text of [n] Cyrillic
    letters. *)
Definition cyrillic_page : string := "Страница сайта временно закрыта.".

Fixpoint letters (n : nat) : string :=
  match n with
  | O => EmptyString
  | S n' => "я" +:+ letters n'
  end.

Definition digest (text : string) : string :=
  "0cc175b9c0f1b6a831c399e269772661".

Definition no_diff (old_content text : string) : option string := None.

End Sample.

(** ** Further parts of the program *)

(** [c in s] for a character and a string. *)
Fixpoint contains_char (c : ascii) (s : string) : bool :=
  match s with
  | EmptyString => false
  | String a s' => Ascii.eqb a c || contains_char c s'
  end.

(** [s.split(sep, 1)] for a one-character separator: the text before the
    first separator and the text after it, or the text alone. *)
Fixpoint split_once (sep : ascii) (s : string) : list string :=
  match s with
  | EmptyString => [EmptyString]
  | String c s' =>
      if Ascii.eqb c sep then [EmptyString; s']
      else match split_once sep s' with
           | h :: t => String c h :: t
           | [] => [String c EmptyString]
           end
  end.

(** The tally of a pattern that was never seen. *)
Definition zero_tally : Db.tally := {| Db.likes := 0; Db.dislikes := 0 |}.

(** The sums of the likes and of the dislikes over the learned patterns. *)
Definition sum_likes (patterns : list (string * Db.tally)) : Z :=
  fold_right (fun entry acc => Db.likes (snd entry) + acc) 0 patterns.
Definition sum_dislikes (patterns : list (string * Db.tally)) : Z :=
  fold_right (fun entry acc => Db.dislikes (snd entry) + acc) 0 patterns.

(** The learning data keeps its two counters equal to the sums of the
    tallies. *)
Definition counters_agree (l : Db.learning) : Prop :=
  Db.positive_feedback l = sum_likes (Db.learned_patterns l)
  /\ Db.negative_feedback l = sum_dislikes (Db.learned_patterns l).

(** The store that a call leaves when it returns or raises. *)
Definition final_store {A} (r : Db.result A) : option Db.t :=
  match r with
  | Db.Ok _ d => Some d
  | Db.Raise _ d => Some d
  | Db.Hang => None
  end.

(** The observations on which a check gives up: every one but a page
    text. *)
Definition failed (obs : Monitor.observation) : bool :=
  match obs with
  | Monitor.PageText _ => false
  | _ => true
  end.

(** *** The user and site tables of [DatabaseManager] *)

Module Registry.
Import Db.

Definition set_users (u : gmap Z user_row) (d : t) : t :=
  {| lock_held := lock_held d; users := u;
     monitored_sites := monitored_sites d;
     user_preferences := user_preferences d; user_feedback := user_feedback d;
     notification_history := notification_history d;
     check_errors := check_errors d |}.

(** [INSERT OR IGNORE INTO users]: an existing row is kept; a new row has
    the default [subscribed = 0]. *)
Definition create_user (user_id : Z) (username first_name : string) : M unit :=
  get_connection (fun d =>
    match users d !! user_id with
    | Some _ => Ok tt d
    | None =>
        Ok tt (set_users
                 (<[user_id := {| u_username := username;
                                  u_first_name := first_name;
                                  u_subscribed := false |}]> (users d)) d)
    end).

Definition set_subscribed (b : bool) (u : user_row) : user_row :=
  {| u_username := u_username u; u_first_name := u_first_name u;
     u_subscribed := b |}.

(** [UPDATE users SET subscribed = 1 WHERE user_id = ?]. *)
Definition subscribe_user (user_id : Z) : M unit :=
  get_connection (fun d =>
    Ok tt (set_users (alter (set_subscribed true) user_id (users d)) d)).

Definition unsubscribe_user (user_id : Z) : M unit :=
  get_connection (fun d =>
    Ok tt (set_users (alter (set_subscribed false) user_id (users d)) d)).

(** Some row of the table has this owner and this URL: the [UNIQUE]
    constraint of [monitored_sites]. *)
Definition site_exists (d : t) (user_id : Z) (url : string) : Prop :=
  exists id site,
    monitored_sites d !! id = Some site
    /\ ms_user_id site = user_id /\ ms_url site = url.

Definition new_site (id user_id : Z) (url site_name : string)
    (css_selector : option string) : site_row :=
  {| ms_id := id; ms_user_id := user_id; ms_url := url;
     ms_site_name := site_name; ms_css_selector := css_selector;
     ms_last_hash := None; ms_last_content := None;
     ms_check_interval := 10; ms_enabled := true;
     ms_last_checked := None |}.

Definition same_site (user_id : Z) (url : string) (site : site_row) : bool :=
  Z.eqb (ms_user_id site) user_id && String.eqb (ms_url site) url.

(** [INSERT INTO monitored_sites]; [new_id] is the id that
    [AUTOINCREMENT] assigns, one never used in the table.  The
    [IntegrityError] of the [UNIQUE(user_id, url)] constraint is caught
    inside the connection block and answered with [False]. *)
Definition add_monitored_site (new_id : Z) (user_id : Z) (url site_name : string)
    (css_selector : option string) : M bool :=
  get_connection (fun d =>
    if existsb (same_site user_id url) (snd <$> map_to_list (monitored_sites d))
    then Ok false d
    else Ok true (set_monitored_sites
                    (<[new_id := new_site new_id user_id url site_name css_selector]>
                       (monitored_sites d)) d)).

(** [SELECT * FROM monitored_sites WHERE user_id = ? AND enabled = 1]. *)
Definition get_user_sites (user_id : Z) : M (list site_row) :=
  get_connection (fun d =>
    Ok (filter (fun site => Is_true (Z.eqb (ms_user_id site) user_id
                                      && ms_enabled site))
          (snd <$> map_to_list (monitored_sites d))) d).

(** [DELETE FROM monitored_sites WHERE id = ? AND user_id = ?]; the
    answer is [conn.total_changes > 0]. *)
Definition delete_site (user_id site_id : Z) : M bool :=
  get_connection (fun d =>
    match monitored_sites d !! site_id with
    | Some site =>
        if Z.eqb (ms_user_id site) user_id
        then Ok true (set_monitored_sites (delete site_id (monitored_sites d)) d)
        else Ok false d
    | None => Ok false d
    end).

(** The handlers of [/start], [/subscribe] and [/monitor] in a row, up to
    the database calls. *)
Definition start_subscribe_monitor (new_id user_id : Z)
    (username first_name url site_name : string) : M bool :=
  exec create_user user_id username first_name;
  exec subscribe_user user_id;
  add_monitored_site new_id user_id url site_name None.

(** The handlers of [/subscribe] and [/monitor] without [/start]. *)
Definition subscribe_monitor (new_id user_id : Z) (url site_name : string)
  : M bool :=
  exec subscribe_user user_id;
  add_monitored_site new_id user_id url site_name None.

End Registry.

(** *** [check_all_sites] *)

Module Scan.
Import Db Monitor.

Section Scan.
Variable md5 : string -> string.
Variable unified_diff : string -> string -> option string.
(** What the check of a site observes, and the time at which it writes. *)
Variable observe : site_row -> observation.
Variable clock : site_row -> Z.

(** The loop over the selected rows: each site is checked with the row as
    the scan selected it; an exception of a check is logged and the loop
    goes on. *)
Fixpoint check_each (sites : list site_row) : M (list change_event) :=
  match sites with
  | [] => ret []
  | site :: rest =>
      fun d =>
        match check_site md5 unified_diff site (observe site) (clock site) d with
        | Ok events d1 =>
            match check_each rest d1 with
            | Ok events' d2 => Ok (events ++ events') d2
            | r => r
            end
        | Raise _ d1 => check_each rest d1
        | Hang => Hang
        end
  end.

(** [check_all_sites] at time [now]; an exception of the selection is
    logged. *)
Definition check_all_sites (active : bool) (now : Z) : M (list change_event) :=
  if negb active then ret []
  else
    fun d =>
      match get_all_monitored_sites now d with
      | Ok sites d1 => check_each sites d1
      | Raise _ d1 => Ok [] d1
      | Hang => Hang
      end.

End Scan.
End Scan.

(** *** [SmartNotificationSystem] *)

Module System.
Import Db.

(** The [stats] dictionary. *)
Record stats := {
  notifications_sent : Z;
  notifications_filtered : Z;
  feedback_likes : Z;
  feedback_dislikes : Z
}.

(** The notification system: its database, its grouper and its
    counters. *)
Record t := {
  db : Db.t;
  grouper : Grouper.pending;
  counters : stats
}.

(** A call of [bot.send_message]: the chat, the text, the callback data of
    the three buttons, and whether the call returned ([false]: it
    raised). *)
Record sent_message := {
  chat_id : Z;
  text : string;
  buttons : list string;
  delivered : bool
}.

(** What a call of [process_change] takes from outside: the credentials,
    the parsed reply of the enrichment service to the analysis request and
    its reply to the message request ([None]: the [try] block raised), and
    the clock readings for the notification and for the flush.  A parsed
    analysis is taken to hold all its keys. *)
Record env := {
  api_key : option string;
  remote_analysis : option Filter.analysis;
  remote_message : option string;
  stamp : string;
  now : Z;
  flush_stamp : string;
  flush_now : Z
}.

Definition newline : string := String "010"%char EmptyString.

(** The dictionary [{**site_info, **change_data}]. *)
Definition record_of_event (ev : Monitor.change_event) : Filter.change_record :=
  {| Filter.cr_site_name := Some (Monitor.ev_site_name ev);
     Filter.cr_url := Some (Monitor.ev_url ev);
     Filter.cr_diff := Some (Monitor.ev_diff ev);
     Filter.cr_change_type := Some (Monitor.ev_change_type ev);
     Filter.cr_old_content := Some (Monitor.ev_old_content ev);
     Filter.cr_new_content := Some (Monitor.ev_new_content ev) |}.

(** What [should_send_notification] reads of an analysis. *)
Definition analysis_view (a : Filter.analysis) : Prefs.change_data :=
  {| Prefs.cd_category := Some (Filter.category a);
     Prefs.cd_importance := Some (Filter.importance a) |}.

Definition basic_message (a : Filter.analysis) : string :=
  "Обнаружены изменения на сайте. Категория: " +:+ Filter.category a
    +:+ ", Важность: " +:+ Filter.importance a.

Definition generate_personalized_message (api_key : option string)
    (remote : option string) (a : Filter.analysis) : string :=
  if Filter.no_api_key api_key then basic_message a
  else match remote with
       | Some m => m
       | None => basic_message a
       end.

Definition get_notification_title (a : Filter.analysis) : string :=
  let emoji :=
    if String.eqb (Filter.importance a) "high" then "🔴"
    else if String.eqb (Filter.importance a) "medium" then "🟡"
    else if String.eqb (Filter.importance a) "low" then "🔵"
    else "⚪" in
  let name :=
    if String.eqb (Filter.category a) "content" then "Контент"
    else if String.eqb (Filter.category a) "design" then "Дизайн"
    else if String.eqb (Filter.category a) "technical" then "Техническое"
    else if String.eqb (Filter.category a) "commerce" then "Коммерция"
    else if String.eqb (Filter.category a) "news" then "Новости"
    else "" in
  emoji +:+ " Обновление " +:+ name.

(** [f"{kind}_{notification_id}"], the callback data of a button. *)
Definition callback_data (kind notification_id : string) : string :=
  kind +:+ "_" +:+ notification_id.

(** The [elif] branch of [handle_callback]: the data does not start with
    [delete_] and starts with one of the three feedback prefixes; it is
    split at its first underscore into the feedback type and the
    notification id. *)
Definition parse_feedback_callback (data : string) : option (string * string) :=
  if String.prefix "delete_" data then None
  else if String.prefix "like_" data || String.prefix "dislike_" data
          || String.prefix "dismiss_" data
  then match split_once "_" data with
       | [feedback_type; notification_id] => Some (feedback_type, notification_id)
       | _ => None
       end
  else None.

Definition with_db (d : Db.t) (s : t) : t :=
  {| db := d; grouper := grouper s; counters := counters s |}.

Definition count_filtered (c : stats) : stats :=
  {| notifications_sent := notifications_sent c;
     notifications_filtered := notifications_filtered c + 1;
     feedback_likes := feedback_likes c;
     feedback_dislikes := feedback_dislikes c |}.

Definition count_sent (c : stats) : stats :=
  {| notifications_sent := notifications_sent c + 1;
     notifications_filtered := notifications_filtered c;
     feedback_likes := feedback_likes c;
     feedback_dislikes := feedback_dislikes c |}.

Definition count_feedback (feedback_type : string) (c : stats) : stats :=
  if Prefs.is_like feedback_type then
    {| notifications_sent := notifications_sent c;
       notifications_filtered := notifications_filtered c;
       feedback_likes := feedback_likes c + 1;
       feedback_dislikes := feedback_dislikes c |}
  else if Prefs.is_negative feedback_type then
    {| notifications_sent := notifications_sent c;
       notifications_filtered := notifications_filtered c;
       feedback_likes := feedback_likes c;
       feedback_dislikes := feedback_dislikes c + 1 |}
  else c.

(** [INSERT INTO notification_history]; [feedback_received] takes its
    default [FALSE]. *)
Definition save_notification_history (user_id : Z) (n : Grouper.notification)
  : M unit :=
  get_connection (fun d =>
    Ok tt (set_notification_history
             (notification_history d ++
                [{| nh_user_id := user_id;
                    nh_notification_id := Grouper.notification_id n;
                    nh_site_name := Grouper.site_name n;
                    nh_change_category := Some (Grouper.category n);
                    nh_importance_level := Some (Grouper.importance n);
                    nh_feedback_received := false |}]) d)).

(** The first row of [notification_history] with this id and user
    ([fetchone]). *)
Definition find_notification (notification_id : string) (user_id : Z)
  : M (option history_row) :=
  get_connection (fun d =>
    Ok (List.find
          (fun h => String.eqb (nh_notification_id h) notification_id
                    && Z.eqb (nh_user_id h) user_id)
          (notification_history d)) d).

Section Delivery.
(** [timestamp.strftime('%H:%M %d.%m.%Y')]. *)
Variable strftime : Z -> string.
(** Whether [bot.send_message] returns for this chat and text. *)
Variable deliver : Z -> string -> bool.

Definition format_notification_message (n : Grouper.notification) : string :=
  (if Grouper.is_summary n then
     "*" +:+ Grouper.title n +:+ "*" +:+ newline +:+ newline
       +:+ Grouper.message n +:+ newline +:+ newline
       +:+ "*Детали изменений:*" +:+ newline
       +:+ fold_left (fun acc change => acc +:+ "• " +:+ change +:+ newline)
             (Grouper.detailed_changes n) EmptyString
   else
     "*" +:+ Grouper.title n +:+ "*" +:+ newline +:+ newline
       +:+ Grouper.message n)
  +:+ newline +:+ "_Время: " +:+ strftime (Grouper.timestamp n) +:+ "_".

(** [_send_single_notification]: the history row is written only when the
    message went out; an exception of the send is logged and dropped. *)
Definition send_single_notification (user_id : Z) (n : Grouper.notification)
  : M sent_message :=
  let message := format_notification_message n in
  let id := Grouper.notification_id n in
  let sent ok :=
    {| chat_id := user_id; text := message;
       buttons := [callback_data "like" id; callback_data "dislike" id;
                   callback_data "dismiss" id];
       delivered := ok |} in
  if deliver user_id message then
    exec save_notification_history user_id n; ret (sent true)
  else ret (sent false).

Fixpoint send_all (user_id : Z) (ns : list Grouper.notification)
  : M (list sent_message) :=
  match ns with
  | [] => ret []
  | n :: rest =>
      do m <~ send_single_notification user_id n;
      do ms <~ send_all user_id rest;
      ret (m :: ms)
  end.

(** The notification that [process_change] builds. *)
Definition make_notification (e : env) (ev : Monitor.change_event)
    (a : Filter.analysis) : Grouper.notification :=
  {| Grouper.notification_id :=
       pretty (Monitor.ev_user_id ev) +:+ "_" +:+ stamp e;
     Grouper.site_name := Monitor.ev_site_name ev;
     Grouper.category := Filter.category a;
     Grouper.importance := Filter.importance a;
     Grouper.title := get_notification_title a;
     Grouper.message :=
       generate_personalized_message (api_key e) (remote_message e) a;
     Grouper.personalized_summary := Some (Filter.personalized_summary a);
     Grouper.is_summary := false;
     Grouper.detailed_changes := [];
     Grouper.timestamp := now e |}.

(** [process_change]: every exception is caught and logged at the end of
    the function; a call that blocks on the lock returns nothing. *)
Definition process_change (e : env) (ev : Monitor.change_event) (s : t)
  : option (t * list sent_message) :=
  let user_id := Monitor.ev_user_id ev in
  match Prefs.get_user_preferences user_id (db s) with
  | Hang => None
  | Raise _ d1 => Some (with_db d1 s, [])
  | Ok _ d1 =>
      match Filter.analyze_change_importance (api_key e) (remote_analysis e)
              (record_of_event ev) with
      | inl _ => Some (with_db d1 s, [])
      | inr change_analysis =>
          match Prefs.should_send_notification user_id
                  (analysis_view change_analysis) d1 with
          | Hang => None
          | Raise _ d2 => Some (with_db d2 s, [])
          | Ok false d2 =>
              Some ({| db := d2; grouper := grouper s;
                       counters := count_filtered (counters s) |}, [])
          | Ok true d2 =>
              let notification := make_notification e ev change_analysis in
              let queued :=
                Grouper.add_notification user_id notification (grouper s) in
              match Grouper.get_grouped_notifications (flush_stamp e)
                      (flush_now e) user_id queued with
              | (inl _, pending) =>
                  Some ({| db := d2; grouper := pending;
                           counters := counters s |}, [])
              | (inr grouped, pending) =>
                  match send_all user_id grouped d2 with
                  | Hang => None
                  | Raise _ d3 =>
                      Some ({| db := d3; grouper := pending;
                               counters := counters s |}, [])
                  | Ok out d3 =>
                      Some ({| db := d3; grouper := pending;
                               counters := count_sent (counters s) |}, out)
                  end
              end
          end
      end
  end.

End Delivery.

(** [handle_feedback]: the feedback is recorded when the notification is
    found in the history; what [record_feedback] raises is logged and the
    counters stay. *)
Definition handle_feedback (user_id : Z) (notification_id feedback_type : string)
    (s : t) : option t :=
  match find_notification notification_id user_id (db s) with
  | Hang => None
  | Raise _ d1 => Some (with_db d1 s)
  | Ok None d1 => Some (with_db d1 s)
  | Ok (Some notification) d1 =>
      match Prefs.record_feedback user_id notification_id feedback_type
              {| Prefs.cd_category := nh_change_category notification;
                 Prefs.cd_importance := nh_importance_level notification |} d1 with
      | Hang => None
      | Raise _ d2 => Some (with_db d2 s)
      | Ok _ d2 =>
          Some {| db := d2; grouper := grouper s;
                  counters := count_feedback feedback_type (counters s) |}
      end
  end.

End System.

(** More sample data. *)
Module Fixtures.

(** A row that prefers three categories and weighs none. *)
Definition row_without_weights : Db.prefs_row :=
  {| Db.pr_preferred_categories := "content,design,technical";
     Db.pr_importance_weights := ∅;
     Db.pr_notification_frequency := "immediate";
     Db.pr_learning_data := Sample.empty_learning |}.

(** A change of nine characters on the sample site. *)
Definition small_change : Monitor.change_event :=
  {| Monitor.ev_user_id := 1;
     Monitor.ev_site_name := "example.com";
     Monitor.ev_url := "https://example.com";
     Monitor.ev_diff := "+new line";
     Monitor.ev_old_content := "";
     Monitor.ev_new_content := "new line";
     Monitor.ev_change_type := "content_update" |}.

(** A change of 300 Cyrillic letters (600 bytes) on the sample site. *)
Definition cyrillic_change : Monitor.change_event :=
  {| Monitor.ev_user_id := 1;
     Monitor.ev_site_name := "example.com";
     Monitor.ev_url := "https://example.com";
     Monitor.ev_diff := Sample.letters 300;
     Monitor.ev_old_content := "";
     Monitor.ev_new_content := Sample.letters 300;
     Monitor.ev_change_type := "content_update" |}.

(** A design notification on the sample site, and the queue of user 1
    after a content and then a design notification. *)
Definition design_notice : Grouper.notification :=
  {| Grouper.notification_id := "1_3";
     Grouper.site_name := "example.com";
     Grouper.category := "design";
     Grouper.importance := "medium";
     Grouper.title := "Обновление Дизайн";
     Grouper.message := "Обнаружены изменения на сайте.";
     Grouper.personalized_summary := None;
     Grouper.is_summary := false;
     Grouper.detailed_changes := [];
     Grouper.timestamp := 1700000000 |}.

Definition queue_content_design : Grouper.pending :=
  Grouper.add_notification 1 design_notice
    (Grouper.add_notification 1
       (Sample.notice "1_1" "high" "first change") ∅).

(** The sample site after an earlier check of another page, and a store
    that holds it. *)
Definition checked_site : Db.site_row :=
  {| Db.ms_id := 7; Db.ms_user_id := 1;
     Db.ms_url := "https://example.com"; Db.ms_site_name := "example.com";
     Db.ms_css_selector := None;
     Db.ms_last_hash := Some "d41d8cd98f00b204e9800998ecf8427e"%string;
     Db.ms_last_content := Some "An older text of the example page of this site."%string;
     Db.ms_check_interval := 10;
     Db.ms_enabled := true; Db.ms_last_checked := Some 1699990000 |}.

Definition checked_store : Db.t :=
  Db.set_monitored_sites {[ 7 := checked_site ]}
    (Sample.store Sample.default_row).

(** The store right after [init_database]. *)
Definition empty_store : Db.t :=
  {| Db.lock_held := false; Db.users := ∅; Db.monitored_sites := ∅;
     Db.user_preferences := ∅; Db.user_feedback := [];
     Db.notification_history := []; Db.check_errors := [] |}.

(** A notification system right after its construction, over a given
    database. *)
Definition system (d : Db.t) : System.t :=
  {| System.db := d; System.grouper := ∅;
     System.counters :=
       {| System.notifications_sent := 0; System.notifications_filtered := 0;
          System.feedback_likes := 0; System.feedback_dislikes := 0 |} |}.

(** A reply of the enrichment service, and a call of [process_change]
    that receives it. *)
Definition remote_reply : Filter.analysis :=
  {| Filter.category := "content"; Filter.importance := "high";
     Filter.personal_importance_score := F64.c1_0;
     Filter.key_aspects := ["new article"];
     Filter.should_notify := true;
     Filter.reasoning := "a new article";
     Filter.personalized_summary := "A new article was published" |}.

Definition remote_env : System.env :=
  {| System.api_key := Some "key"%string;
     System.remote_analysis := Some remote_reply;
     System.remote_message := Some "A new article on example.com"%string;
     System.stamp := "1700000000.5";
     System.now := 1700000000;
     System.flush_stamp := "1700000000.6";
     System.flush_now := 1700000000 |}.

Definition clock (t : Z) : string := "22:13 14.11.2023".

Definition online (chat : Z) (text : string) : bool := true.
Definition offline (chat : Z) (text : string) : bool := false.

(** A scan in which every page reads as the sample page. *)
Definition sample_page (site : Db.site_row) : Monitor.observation :=
  Monitor.PageText Sample.page.

Definition at_noon (site : Db.site_row) : Z := 1700000000.

End Fixtures.

(** * Properties *)

(** ** The literals and the string helpers *)

Example lit_1_0 : F64.lit 1 1 = F64.c1_0.
Proof. vm_compute. reflexivity. Qed.
Example lit_0_5 : F64.lit 5 10 = F64.c0_5.
Proof. vm_compute. reflexivity. Qed.
Example lit_0_2 : F64.lit 2 10 = F64.c0_2.
Proof. vm_compute. reflexivity. Qed.
Example lit_0_1 : F64.lit 1 10 = F64.c0_1.
Proof. vm_compute. reflexivity. Qed.
Example lit_0_3 : F64.lit 3 10 = F64.c0_3.
Proof. vm_compute. reflexivity. Qed.
Example lit_0_7 : F64.lit 7 10 = F64.c0_7.
Proof. vm_compute. reflexivity. Qed.

Example len_code_points :
  Py.len "Привет, мир" = 11%nat /\ String.length "Привет, мир" = 20%nat.
Proof. split; reflexivity. Qed.
Example take_code_points : Py.take 6 "Привет, мир" = "Привет"%string.
Proof. reflexivity. Qed.

Example take_error_message :
  Py.take 500 (Sample.letters 600) = Sample.letters 500
  /\ String.length (Sample.letters 500) = 1000%nat.
Proof. split; vm_compute; reflexivity. Qed.

Example split_categories :
  Py.split_on "," "content,design,technical" = ["content"; "design"; "technical"]%string.
Proof. reflexivity. Qed.
Example split_empty : Py.split_on "," "" = [""]%string.
Proof. reflexivity. Qed.
Example join_categories :
  Py.join "," ["content"; "design"; "technical"] = "content,design,technical"%string.
Proof. reflexivity. Qed.

(** ** Binary64 rounding *)

Section Shr.

Lemma digits2_pos_size p : digits2_pos p = Pos.size p.
Proof. induction p; simpl; congruence. Qed.

Lemma digits2_bounds p :
  2 ^ (Zpos (digits2_pos p) - 1) <= Zpos p < 2 ^ Zpos (digits2_pos p).
Proof.
  rewrite digits2_pos_size. split.
  - pose proof (Pos.size_le p) as H.
    assert (H' : (2 ^ Pos.size p <= 2 * p)%positive) by exact H.
    apply Pos2Z.pos_le_pos in H'. rewrite Pos2Z.inj_mul, Pos2Z.inj_pow in H'.
    replace (Zpos (Pos.size p)) with (Z.succ (Zpos (Pos.size p) - 1)) in H' by lia.
    rewrite Z.pow_succ_r in H' by lia. lia.
  - pose proof (Pos.size_gt p) as H.
    apply Pos2Z.pos_lt_pos in H. rewrite Pos2Z.inj_pow in H. exact H.
Qed.

Lemma iter_pos_nat {A} (f : A -> A) p x :
  SpecFloat.iter_pos f p x = Nat.iter (Pos.to_nat p) f x.
Proof.
  revert x. induction p as [p IH|p IH|]; intros x; cbn [SpecFloat.iter_pos].
  - rewrite !IH, Pos2Nat.inj_xI, Nat.iter_succ_r.
    replace (2 * Pos.to_nat p)%nat with (Pos.to_nat p + Pos.to_nat p)%nat by lia.
    rewrite Nat.iter_add. reflexivity.
  - rewrite !IH, Pos2Nat.inj_xO.
    replace (2 * Pos.to_nat p)%nat with (Pos.to_nat p + Pos.to_nat p)%nat by lia.
    rewrite Nat.iter_add. reflexivity.
  - reflexivity.
Qed.

Lemma shr_1_spec m r s :
  0 <= m ->
  shr_1 {| shr_m := m; shr_r := r; shr_s := s |}
  = {| shr_m := m / 2; shr_r := Z.odd m; shr_s := r || s |}.
Proof.
  intros Hm. rewrite <- Z.div2_div.
  destruct m as [|p|p]; [reflexivity| |lia].
  destruct p as [p|p|]; reflexivity.
Qed.

(** The record after [k+1] one-bit shifts of an exact mantissa. *)
Lemma iter_shr_1 M k :
  0 <= M ->
  Nat.iter (S k) shr_1 {| shr_m := M; shr_r := false; shr_s := false |}
  = {| shr_m := M / 2 ^ Z.of_nat (S k);
       shr_r := Z.odd (M / 2 ^ Z.of_nat k);
       shr_s := negb (M mod 2 ^ Z.of_nat k =? 0) |}.
Proof.
  intros HM. induction k as [|k IH].
  - unfold Nat.iter; cbn [nat_rect]. rewrite shr_1_spec by exact HM.
    change (2 ^ Z.of_nat 1) with 2. change (2 ^ Z.of_nat 0) with 1.
    rewrite Z.div_1_r, Z.mod_1_r. reflexivity.
  - rewrite Nat.iter_succ. rewrite IH.
    assert (Hp : 0 < 2 ^ Z.of_nat k) by (apply Z.pow_pos_nonneg; lia).
    assert (Hp1 : 0 < 2 ^ Z.of_nat (S k)) by (apply Z.pow_pos_nonneg; lia).
    rewrite shr_1_spec by (apply Z.div_pos; lia).
    f_equal.
    + rewrite Z.div_div by lia.
      replace (Z.of_nat (S (S k))) with (Z.succ (Z.of_nat (S k))) by lia.
      rewrite Z.pow_succ_r by lia. f_equal. lia.
    + (* sticky *)
      assert (E2 : 2 ^ Z.of_nat (S k) = 2 ^ Z.of_nat k * 2).
      { replace (Z.of_nat (S k)) with (Z.succ (Z.of_nat k)) by lia.
        rewrite Z.pow_succ_r by lia. lia. }
      rewrite E2. rewrite Z.rem_mul_r by lia.
      pose proof (Z.mod_pos_bound M (2 ^ Z.of_nat k) Hp) as Hb.
      pose proof (Z.mod_pos_bound (M / 2 ^ Z.of_nat k) 2 ltac:(lia)) as Hb2.
      rewrite Zodd_mod.
      destruct (Z.eqb_spec ((M / 2 ^ Z.of_nat k) mod 2) 1) as [H1|H1];
      destruct (Z.eqb_spec (M mod 2 ^ Z.of_nat k) 0) as [H0|H0]; simpl;
      symmetry; try (apply negb_true_iff); try (apply negb_false_iff);
        try (apply Z.eqb_neq); try (apply Z.eqb_eq); nia.
Qed.

Lemma shr_exact M E n :
  0 <= M -> 0 < n ->
  shr {| shr_m := M; shr_r := false; shr_s := false |} E n
  = ({| shr_m := M / 2 ^ n;
        shr_r := Z.odd (M / 2 ^ (n - 1));
        shr_s := negb (M mod 2 ^ (n - 1) =? 0) |}, E + n).
Proof.
  intros HM Hn. destruct n as [|p|p]; try lia.
  unfold shr. rewrite iter_pos_nat.
  destruct (Pos.to_nat p) as [|k] eqn:Hk; [lia|].
  rewrite iter_shr_1 by exact HM.
  replace (Z.of_nat (S k)) with (Zpos p) by lia.
  replace (Z.of_nat k) with (Zpos p - 1) by lia. reflexivity.
Qed.

Lemma round_mantissa_0 M : round_mantissa M 0 = M.
Proof.
  unfold round_mantissa, round_up. change (2 ^ 0) with 1.
  rewrite Z.mod_1_r, Z.div_1_r. reflexivity.
Qed.

Lemma rne_round_mantissa M n :
  0 <= M -> 0 < n ->
  round_nearest_even (M / 2 ^ n)
    (loc_of_shr_record
       {| shr_m := M / 2 ^ n;
          shr_r := Z.odd (M / 2 ^ (n - 1));
          shr_s := negb (M mod 2 ^ (n - 1) =? 0) |})
  = round_mantissa M n.
Proof.
  intros HM Hn. unfold round_mantissa, round_up.
  assert (Hp : 0 < 2 ^ (n - 1)) by (apply Z.pow_pos_nonneg; lia).
  assert (E2 : 2 ^ n = 2 ^ (n - 1) * 2).
  { replace n with (Z.succ (n - 1)) at 1 by lia.
    rewrite Z.pow_succ_r by lia. lia. }
  assert (Hr : M mod 2 ^ n
               = M mod 2 ^ (n - 1) + 2 ^ (n - 1) * ((M / 2 ^ (n - 1)) mod 2)).
  { rewrite E2. apply Z.rem_mul_r; lia. }
  pose proof (Z.mod_pos_bound M (2 ^ (n - 1)) Hp) as Hb.
  rewrite Hr. rewrite Zodd_mod.
  pose proof (Z.mod_pos_bound (M / 2 ^ (n - 1)) 2 ltac:(lia)) as Hb2.
  destruct (Z.eqb_spec ((M / 2 ^ (n - 1)) mod 2) 1) as [H1|H1];
    destruct (Z.eqb_spec (M mod 2 ^ (n - 1)) 0) as [H0|H0]; cbn [negb loc_of_shr_record round_nearest_even].
  - rewrite H1, H0.
    replace (2 ^ n <? 2 * (0 + 2 ^ (n - 1) * 1)) with false
      by (symmetry; apply Z.ltb_ge; lia).
    replace (2 * (0 + 2 ^ (n - 1) * 1) =? 2 ^ n) with true
      by (symmetry; apply Z.eqb_eq; lia).
    cbn [orb andb]. rewrite <- Z.negb_odd.
    destruct (Z.odd (M / 2 ^ n)); reflexivity.
  - rewrite H1.
    replace (2 ^ n <? 2 * (M mod 2 ^ (n - 1) + 2 ^ (n - 1) * 1)) with true
      by (symmetry; apply Z.ltb_lt; lia).
    reflexivity.
  - replace ((M / 2 ^ (n - 1)) mod 2) with 0 by lia. rewrite H0.
    replace (2 ^ n <? 2 * (0 + 2 ^ (n - 1) * 0)) with false
      by (symmetry; apply Z.ltb_ge; lia).
    replace (2 * (0 + 2 ^ (n - 1) * 0) =? 2 ^ n) with false
      by (symmetry; apply Z.eqb_neq; lia).
    reflexivity.
  - replace ((M / 2 ^ (n - 1)) mod 2) with 0 by lia.
    replace (2 ^ n <? 2 * (M mod 2 ^ (n - 1) + 2 ^ (n - 1) * 0)) with false
      by (symmetry; apply Z.ltb_ge; lia).
    replace (2 * (M mod 2 ^ (n - 1) + 2 ^ (n - 1) * 0) =? 2 ^ n) with false
      by (symmetry; apply Z.eqb_neq; lia).
    reflexivity.
Qed.

End Shr.

Section Round.

Lemma Zdigits2_small q : 0 <= q < 2 ^ 53 -> Zdigits2 q <= 53.
Proof.
  intros [H0 H1]. destruct q as [|p|p]; simpl; try lia.
  pose proof (digits2_bounds p) as [Hlo _].
  assert (H : 2 ^ (Zpos (digits2_pos p) - 1) < 2 ^ 53) by lia.
  apply Z.pow_lt_mono_r_iff in H; lia.
Qed.

Lemma fexp_64 x : fexp 53 1024 x = Z.max (x - 53) (-1074).
Proof. reflexivity. Qed.

Lemma second_shift q e1 :
  0 <= q <= 2 ^ 53 -> -1074 <= e1 ->
  shr_fexp 53 1024 q e1 loc_Exact
  = if q =? 2 ^ 53
    then ({| shr_m := 2 ^ 52; shr_r := false; shr_s := false |}, e1 + 1)
    else ({| shr_m := q; shr_r := false; shr_s := false |}, e1).
Proof.
  intros Hq He. unfold shr_fexp. rewrite fexp_64.
  destruct (Z.eqb_spec q (2 ^ 53)) as [->|Hne].
  - change (Zdigits2 (2 ^ 53)) with 54.
    replace (Z.max (54 + e1 - 53) (-1074) - e1) with 1 by lia.
    reflexivity.
  - pose proof (Zdigits2_small q ltac:(lia)) as Hd.
    cbn [shr_record_of_loc].
    destruct (Z.max (Zdigits2 q + e1 - 53) (-1074) - e1) eqn:Hn;
      try reflexivity. lia.
Qed.

Lemma first_shift M E :
  E <= Z.max (Zpos (digits2_pos M) + E - 53) (-1074) ->
  let e1 := Z.max (Zpos (digits2_pos M) + E - 53) (-1074) in
  exists mrs,
    shr_fexp 53 1024 (Zpos M) E loc_Exact = (mrs, e1)
    /\ round_nearest_even (shr_m mrs) (loc_of_shr_record mrs)
       = round_mantissa (Zpos M) (e1 - E).
Proof.
  intros Hd e1. unfold shr_fexp. rewrite fexp_64.
  cbn [Zdigits2 shr_record_of_loc]. fold e1.
  assert (Hn : 0 <= e1 - E) by (unfold e1; lia).
  destruct (Z.eq_dec (e1 - E) 0) as [H0|H0].
  - rewrite H0. eexists. split.
    + cbn [shr]. f_equal. lia.
    + rewrite round_mantissa_0. reflexivity.
  - rewrite shr_exact by lia. eexists. split.
    + f_equal. lia.
    + cbn [shr_m]. apply rne_round_mantissa; lia.
Qed.

Lemma round_mantissa_bounds M n :
  0 <= n -> Zpos (digits2_pos M) - 53 <= n ->
  0 <= round_mantissa (Zpos M) n <= 2 ^ 53.
Proof.
  intros Hn Hd. pose proof (digits2_bounds M) as [_ Hhi].
  assert (Hp : 0 < 2 ^ n) by (apply Z.pow_pos_nonneg; lia).
  assert (Hq : 0 <= Zpos M / 2 ^ n < 2 ^ 53).
  { split; [apply Z.div_pos; lia|].
    apply Z.div_lt_upper_bound; [lia|].
    rewrite <- Z.pow_add_r by lia.
    eapply Z.lt_le_trans; [exact Hhi|].
    apply Z.pow_le_mono_r; lia. }
  unfold round_mantissa. destruct (round_up _ _); lia.
Qed.

Theorem binary_round_aux_exact s M E :
  E <= Z.max (Zpos (digits2_pos M) + E - 53) (-1074) ->
  binary_round_aux 53 1024 s (Zpos M) E loc_Exact = round_model s M E.
Proof.
  intros Hd. unfold binary_round_aux, round_model.
  destruct (first_shift M E Hd) as (mrs & -> & ->).
  set (e1 := Z.max (Zpos (digits2_pos M) + E - 53) (-1074)).
  pose proof (round_mantissa_bounds M (e1 - E) ltac:(unfold e1; lia)
                ltac:(unfold e1; lia)) as Hb.
  rewrite second_shift by (try exact Hb; unfold e1; lia).
  destruct (round_mantissa (Z.pos M) (e1 - E) =? 2 ^ 53); reflexivity.
Qed.

End Round.

Section Threshold.

Lemma SFleb_finite_pos mc ec m e :
  SFleb (S754_finite false mc ec) (S754_finite false m e)
  = (ec <? e) || ((ec =? e) && (Zpos mc <=? Zpos m)).
Proof.
  unfold SFleb, SFcompare. rewrite Z.ltb_compare, Z.eqb_compare.
  destruct (ec ?= e); reflexivity.
Qed.

Lemma pow2_split a b : 0 <= a -> 0 <= b -> 2 ^ (a + b) = 2 ^ a * 2 ^ b.
Proof. intros. apply Z.pow_add_r; assumption. Qed.

Theorem leb_round_model mc ec M E :
  2 ^ 52 < Zpos mc < 2 ^ 53 ->
  -1074 < ec <= 971 ->
  E <= Z.max (Zpos (digits2_pos M) + E - 53) (-1074) ->
  -1200 <= E ->
  SFleb (S754_finite false mc ec) (round_model false M E) = true
  <-> exceeds (Zpos mc) ec (Zpos M) E.
Proof.
  intros Hmc Hec Hd HE.
  pose proof (digits2_bounds M) as [Hlo Hhi].
  set (d := Zpos (digits2_pos M)) in *.
  unfold round_model. fold d.
  set (e1 := Z.max (d + E - 53) (-1074)).
  assert (Hn : 0 <= e1 - E) by (unfold e1; lia).
  pose proof (round_mantissa_bounds M (e1 - E) Hn ltac:(unfold e1; fold d; lia)) as Hq'.
  set (n := e1 - E) in *.
  assert (Hpn : 0 < 2 ^ n) by (apply Z.pow_pos_nonneg; lia).
  pose proof (Z.div_mod (Zpos M) (2 ^ n) ltac:(lia)) as HM.
  pose proof (Z.mod_pos_bound (Zpos M) (2 ^ n) Hpn) as Hr.
  assert (HA : 0 < 2 ^ (E + 1200)) by (apply Z.pow_pos_nonneg; lia).
  assert (HB : 0 < 2 ^ (ec + 1200)) by (apply Z.pow_pos_nonneg; lia).
  destruct (Z.lt_trichotomy e1 ec) as [Hlt | [Heq | Hgt]].
  - (* below the binade of the threshold *)
    assert (HRHS : 2 * Zpos M * 2 ^ (E + 1200) < (2 * Zpos mc - 1) * 2 ^ (ec + 1200)).
    { assert (H1 : Zpos M * 2 ^ (E + 1200) < 2 ^ 52 * 2 ^ (ec + 1200)).
      { rewrite <- pow2_split by lia.
        eapply Z.lt_le_trans.
        - apply Z.mul_lt_mono_pos_r; [exact HA | exact Hhi].
        - rewrite <- pow2_split by lia. apply Z.pow_le_mono_r; unfold e1 in Hlt; lia. }
      nia. }
    split.
    + intros H. exfalso.
      destruct (Z.eqb_spec (round_mantissa (Zpos M) n) (2 ^ 53)) as [Hq|Hq].
      * replace (e1 + 1 <=? 971) with true in H by (symmetry; apply Z.leb_le; lia).
        rewrite SFleb_finite_pos in H.
        apply orb_true_iff in H. destruct H as [H|H].
        -- apply Z.ltb_lt in H. lia.
        -- apply andb_true_iff in H. destruct H as [_ H]. apply Z.leb_le in H.
           change (Zpos (2 ^ 52)) with (2 ^ 52) in H. lia.
      * destruct (round_mantissa (Zpos M) n) as [|m|m] eqn:Hm; try discriminate.
        replace (e1 <=? 971) with true in H by (symmetry; apply Z.leb_le; lia).
        rewrite SFleb_finite_pos in H.
        apply orb_true_iff in H. destruct H as [H|H].
        -- apply Z.ltb_lt in H. lia.
        -- apply andb_true_iff in H. destruct H as [H _]. apply Z.eqb_eq in H. lia.
    + unfold exceeds. destruct (Z.odd (Zpos mc)); lia.
  - (* in the binade of the threshold *)
    assert (Hnd : n = d - 53) by (unfold n, e1 in *; lia).
    assert (HAB : 2 ^ (ec + 1200) = 2 ^ n * 2 ^ (E + 1200)).
    { rewrite <- pow2_split by lia. f_equal. unfold n. lia. }
    assert (Hq : 2 ^ 52 <= Zpos M / 2 ^ n < 2 ^ 53).
    { split.
      - apply Z.div_le_lower_bound; [lia|].
        rewrite <- pow2_split by lia.
        replace (n + 52) with (d - 1) by lia. exact Hlo.
      - apply Z.div_lt_upper_bound; [lia|].
        rewrite <- pow2_split by lia.
        replace (n + 53) with d by lia. exact Hhi. }
    set (q := Zpos M / 2 ^ n) in *. set (r := Zpos M mod 2 ^ n) in *.
    assert (Hex : exceeds (Zpos mc) ec (Zpos M) E
                  <-> Zpos mc <= round_mantissa (Zpos M) n).
    { unfold exceeds, round_mantissa, round_up. fold q r. rewrite HAB, HM.
      destruct (Z.lt_trichotomy q (Zpos mc - 1)) as [Hc | [Hc | Hc]].
      - assert (2 * (2 ^ n * q + r) * 2 ^ (E + 1200)
                < (2 * Zpos mc - 1) * (2 ^ n * 2 ^ (E + 1200))) by nia.
        destruct (Z.odd (Zpos mc)), ((2 ^ n <? 2 * r) || (2 * r =? 2 ^ n) && Z.odd q);
          split; intros; lia.
      - assert (Hodd : Z.odd q = negb (Z.odd (Zpos mc))).
        { rewrite Hc. replace (Zpos mc - 1) with (Z.pred (Zpos mc)) by lia.
          rewrite Z.odd_pred. rewrite <- Z.negb_odd. reflexivity. }
        rewrite Hodd.
        destruct (Z.ltb_spec (2 ^ n) (2 * r)) as [Hr1|Hr1];
          destruct (Z.eqb_spec (2 * r) (2 ^ n)) as [Hr2|Hr2];
          destruct (Z.odd (Zpos mc)); cbn [orb andb negb];
            split; intros; try lia; try nia.
      - assert ((2 * Zpos mc - 1) * (2 ^ n * 2 ^ (E + 1200))
                < 2 * (2 ^ n * q + r) * 2 ^ (E + 1200)) by nia.
        destruct (Z.odd (Zpos mc)), ((2 ^ n <? 2 * r) || (2 * r =? 2 ^ n) && Z.odd q);
          split; intros; lia. }
    rewrite Hex. rewrite Heq.
    destruct (Z.eqb_spec (round_mantissa (Zpos M) n) (2 ^ 53)) as [Hq1|Hq1].
    + split; [intros _; lia|intros _].
      destruct (ec + 1 <=? 971); [|reflexivity].
      rewrite SFleb_finite_pos. apply orb_true_iff. left. apply Z.ltb_lt. lia.
    + assert (Hpos : 2 ^ 52 <= round_mantissa (Zpos M) n).
      { unfold round_mantissa. fold q. destruct (round_up _ _); lia. }
      destruct (round_mantissa (Zpos M) n) as [|m|m] eqn:Hm; try lia.
      replace (ec <=? 971) with true by (symmetry; apply Z.leb_le; lia).
      rewrite SFleb_finite_pos. rewrite Z.ltb_irrefl, Z.eqb_refl. cbn [orb andb].
      apply Z.leb_le.
  - (* above the binade of the threshold *)
    assert (Hnd : n = d - 53) by (unfold n, e1 in *; lia).
    assert (Hq : 2 ^ 52 <= Zpos M / 2 ^ n).
    { apply Z.div_le_lower_bound; [lia|].
      rewrite <- pow2_split by lia.
      replace (n + 52) with (d - 1) by lia. exact Hlo. }
    assert (Hpos : 2 ^ 52 <= round_mantissa (Zpos M) n).
    { unfold round_mantissa. destruct (round_up _ _); lia. }
    split.
    + intros _.
      assert (H1 : 2 ^ 53 * 2 ^ (ec + 1200) <= Zpos M * 2 ^ (E + 1200)).
      { rewrite <- pow2_split by lia.
        eapply Z.le_trans; [|apply Z.mul_le_mono_pos_r; [exact HA | exact Hlo]].
        rewrite <- pow2_split by lia. apply Z.pow_le_mono_r; unfold e1 in Hgt; lia. }
      unfold exceeds. destruct (Z.odd (Zpos mc)); nia.
    + intros _.
      destruct (Z.eqb_spec (round_mantissa (Zpos M) n) (2 ^ 53)) as [Hq1|Hq1].
      * destruct (e1 + 1 <=? 971); [|reflexivity].
        rewrite SFleb_finite_pos. apply orb_true_iff. left. apply Z.ltb_lt. lia.
      * destruct (round_mantissa (Zpos M) n) as [|m|m] eqn:Hm; try lia.
        destruct (e1 <=? 971); [|reflexivity].
        rewrite SFleb_finite_pos. apply orb_true_iff. left. apply Z.ltb_lt. lia.
Qed.

End Threshold.

Section MulMonotone.

Lemma valid_finite s m e :
  valid_binary 53 1024 (S754_finite s m e) = true ->
  -1074 <= e <= 971
  /\ Zpos (digits2_pos m) <= 53
  /\ (-1074 < e -> Zpos (digits2_pos m) = 53).
Proof.
  cbn [valid_binary]. unfold bounded, canonical_mantissa. rewrite fexp_64.
  intros H. apply andb_true_iff in H. destruct H as [H1 H2].
  apply Z.eqb_eq in H1. apply Z.leb_le in H2. change (1024 - 53) with 971 in H2.
  lia.
Qed.

(** The order of two valid positive finite values is the order of what
    they denote. *)
Lemma ltb_value m e m' e' :
  valid_binary 53 1024 (S754_finite false m e) = true ->
  valid_binary 53 1024 (S754_finite false m' e') = true ->
  SFltb (S754_finite false m e) (S754_finite false m' e') = true ->
  Zpos m * 2 ^ (e + 1074) < Zpos m' * 2 ^ (e' + 1074).
Proof.
  intros Hv Hv' Hlt.
  destruct (valid_finite _ _ _ Hv) as (He & Hd & _).
  destruct (valid_finite _ _ _ Hv') as (He' & _ & Hd').
  unfold SFltb, SFcompare in Hlt.
  destruct (Z.compare_spec e e') as [Heq|Hl|Hg]; try discriminate.
  - subst e'. assert (Hm : (m < m')%positive).
    { unfold Pos.lt, Pos.compare. destruct (Pos.compare_cont Eq m m'); congruence. }
    apply Z.mul_lt_mono_pos_r; [apply Z.pow_pos_nonneg; lia|].
    apply Pos2Z.pos_lt_pos. exact Hm.
  - pose proof (digits2_bounds m) as [_ Hhi].
    pose proof (digits2_bounds m') as [Hlo' _].
    rewrite Hd' in Hlo' by lia. change (2 ^ (53 - 1)) with (2 ^ 52) in Hlo'.
    assert (H53 : Zpos m < 2 ^ 53).
    { eapply Z.lt_le_trans; [exact Hhi|]. apply Z.pow_le_mono_r; lia. }
    assert (HA : 0 < 2 ^ (e + 1074)) by (apply Z.pow_pos_nonneg; lia).
    assert (Hstep : 2 * 2 ^ (e + 1074) <= 2 ^ (e' + 1074)).
    { rewrite <- Z.pow_succ_r by lia. apply Z.pow_le_mono_r; lia. }
    assert (HB : 0 < 2 ^ (e' + 1074)) by (apply Z.pow_pos_nonneg; lia).
    change (2 ^ 53) with (2 * 2 ^ 52) in H53. nia.
Qed.

Lemma digits2_large M : 2 ^ 52 <= Zpos M -> 53 <= Zpos (digits2_pos M).
Proof.
  intros H. pose proof (digits2_bounds M) as [_ Hhi].
  assert (H1 : 2 ^ 52 < 2 ^ Zpos (digits2_pos M)) by lia.
  apply Z.pow_lt_mono_r_iff in H1; lia.
Qed.

Lemma round_model_negative M E mc ec :
  SFleb (S754_finite false mc ec) (round_model true M E) = false.
Proof.
  unfold round_model.
  destruct (_ =? _); [destruct (_ <=? _); reflexivity|].
  destruct (round_mantissa _ _); try reflexivity.
  destruct (_ <=? _); reflexivity.
Qed.

Section Fixed.
(** A positive multiplier with a full mantissa, and a normal positive
    threshold that is not a power of two. *)
Variables (mb : positive) (eb : Z) (mc : positive) (ec : Z).
Hypothesis Hmb : 2 ^ 52 <= Zpos mb.
Hypothesis Heb : -126 <= eb.
Hypothesis Hmc : 2 ^ 52 < Zpos mc < 2 ^ 53.
Hypothesis Hec : -1074 < ec <= 971.

Let b := S754_finite false mb eb.
Let c := S754_finite false mc ec.

Lemma mul_finite s m e :
  valid_binary 53 1024 (S754_finite s m e) = true ->
  SFmul 53 1024 b (S754_finite s m e) = round_model s (mb * m) (eb + e).
Proof.
  intros Hv. cbn [SFmul b xorb].
  apply binary_round_aux_exact.
  assert (53 <= Zpos (digits2_pos (mb * m)))
    by (apply digits2_large; rewrite Pos2Z.inj_mul; nia).
  lia.
Qed.

Lemma leb_mul_finite m e :
  valid_binary 53 1024 (S754_finite false m e) = true ->
  SFleb c (SFmul 53 1024 b (S754_finite false m e)) = true
  <-> exceeds (Zpos mc) ec (Zpos (mb * m)) (eb + e).
Proof.
  intros Hv. rewrite (mul_finite false m e Hv).
  destruct (valid_finite _ _ _ Hv) as (He & _).
  assert (53 <= Zpos (digits2_pos (mb * m)))
    by (apply digits2_large; rewrite Pos2Z.inj_mul; nia).
  apply leb_round_model; try assumption; lia.
Qed.

Theorem leb_mul_monotone w w' :
  valid_binary 53 1024 w = true ->
  valid_binary 53 1024 w' = true ->
  SFltb w w' = true ->
  SFleb c (SFmul 53 1024 b w) = true ->
  SFleb c (SFmul 53 1024 b w') = true.
Proof.
  intros Hv Hv' Hlt Hacc.
  destruct w as [s|s| |s m e].
  - discriminate Hacc.
  - destruct s; [discriminate Hacc|].
    destruct w' as [s'|s'| |s' m' e']; try discriminate Hlt.
    all: destruct s'; discriminate Hlt.
  - discriminate Hacc.
  - destruct s.
    { rewrite (mul_finite true m e Hv) in Hacc.
      unfold c in Hacc. rewrite round_model_negative in Hacc. discriminate. }
    destruct w' as [s'|s'| |s' m' e'].
    + discriminate Hlt.
    + destruct s'; [discriminate Hlt | reflexivity].
    + discriminate Hlt.
    + destruct s'; [discriminate Hlt|].
      apply (leb_mul_finite m' e' Hv').
      apply (leb_mul_finite m e Hv) in Hacc.
      pose proof (ltb_value m e m' e' Hv Hv' Hlt) as Hval.
      destruct (valid_finite _ _ _ Hv) as (He & _).
      destruct (valid_finite _ _ _ Hv') as (He' & _).
      assert (Hs : forall x, -1074 <= x ->
                     2 ^ (eb + x + 1200) = 2 ^ (eb + 126) * 2 ^ (x + 1074)).
      { intros x Hx. rewrite <- Z.pow_add_r by lia. f_equal. lia. }
      assert (HP : 0 < 2 ^ (eb + 126)) by (apply Z.pow_pos_nonneg; lia).
      unfold exceeds in *. rewrite !Pos2Z.inj_mul in *.
      rewrite (Hs e) in Hacc by lia. rewrite (Hs e') by lia.
      destruct (Z.odd (Zpos mc)); nia.
Qed.
End Fixed.

End MulMonotone.

(** *** Order facts on binary64 values *)

Section CompareLemmas.

Lemma SFcompare_antisym x y :
  SFcompare y x = option_map CompOpp (SFcompare x y).
Proof.
  destruct x as [sx|sx| |sx mx ex], y as [sy|sy| |sy my ey]; simpl;
    try reflexivity;
    try (destruct sx; reflexivity); try (destruct sy; reflexivity);
    try (destruct sx, sy; reflexivity).
  destruct sx, sy; simpl; try reflexivity;
    rewrite (Z.compare_antisym ey ex);
    destruct (ey ?= ex); simpl; try reflexivity;
    rewrite (Pos.compare_cont_antisym mx my Eq); simpl;
    try rewrite CompOpp_involutive; reflexivity.
Qed.

Lemma leb_not_ltb x y : F64.leb x y = true -> F64.ltb y x = false.
Proof.
  unfold F64.leb, F64.ltb, SFleb, SFltb. rewrite (SFcompare_antisym y x).
  destruct (SFcompare y x) as [[]|]; simpl; congruence.
Qed.

End CompareLemmas.

(** *** Sums and differences with 0.1 *)

Section Sums.

Lemma digits2_exact m k :
  0 <= k -> 2 ^ k <= Zpos m < 2 ^ (k + 1) -> Zpos (digits2_pos m) = k + 1.
Proof.
  intros Hk [Hlo Hhi]. pose proof (digits2_bounds m) as [Hlo' Hhi'].
  assert (H1 : 2 ^ k < 2 ^ Zpos (digits2_pos m)) by lia.
  assert (H2 : 2 ^ (Zpos (digits2_pos m) - 1) < 2 ^ (k + 1)) by lia.
  apply Z.pow_lt_mono_r_iff in H1; [|lia|lia].
  apply Z.pow_lt_mono_r_iff in H2; lia.
Qed.

Lemma Pos_iter_xO m k : Zpos (Pos.iter xO m k) = Zpos m * 2 ^ Zpos k.
Proof.
  assert (H : Pos.iter xO m k = (m * 2 ^ k)%positive).
  { induction k using Pos.peano_ind.
    - simpl. lia.
    - rewrite Pos.iter_succ, IHk, Pos.pow_succ_r. lia. }
  rewrite H, Pos2Z.inj_mul, Pos2Z.inj_pow. reflexivity.
Qed.

Lemma shl_align_value m e ez :
  ez <= e ->
  Zpos (fst (shl_align m e ez)) = Zpos m * 2 ^ (e - ez)
  /\ snd (shl_align m e ez) = ez.
Proof.
  intros H. unfold shl_align.
  destruct (ez - e) as [|p|p] eqn:Hd; try lia.
  - replace (e - ez) with 0 by lia. simpl. split; lia.
  - cbn [fst snd]. rewrite Pos_iter_xO. split; [|reflexivity].
    f_equal. f_equal. lia.
Qed.

(** The canonical form of a positive mantissa keeps its value and can be
    rounded by [round_model]. *)
Lemma binary_round_exact s M E :
  -1200 <= E ->
  exists M2 E2,
    binary_round 53 1024 s M E = round_model s M2 E2
    /\ -1200 <= E2
    /\ Zpos M2 * 2 ^ (E2 + 1200) = Zpos M * 2 ^ (E + 1200)
    /\ E2 <= Z.max (Zpos (digits2_pos M2) + E2 - 53) (-1074).
Proof.
  intros HE. unfold binary_round. rewrite fexp_64.
  set (f := Z.max (Zpos (digits2_pos M) + E - 53) (-1074)).
  destruct (Z_le_gt_dec E f) as [Hle|Hgt].
  - exists M, E.
    assert (Hs : shl_align M E f = (M, E)).
    { unfold shl_align. destruct (f - E) eqn:Hd; try reflexivity. lia. }
    rewrite Hs. split; [apply binary_round_aux_exact; exact Hle|].
    split; [exact HE|]. split; [reflexivity | exact Hle].
  - destruct (shl_align_value M E f ltac:(lia)) as [Hv He].
    destruct (shl_align M E f) as [M2 E2]. cbn [fst snd] in *. subst E2.
    exists M2, f.
    assert (Hd2 : Zpos (digits2_pos M2) = Zpos (digits2_pos M) + (E - f)).
    { pose proof (digits2_bounds M) as [Hlo Hhi].
      assert (Hp : 0 < 2 ^ (E - f)) by (apply Z.pow_pos_nonneg; lia).
      replace (Zpos (digits2_pos M) + (E - f))
        with ((Zpos (digits2_pos M) - 1 + (E - f)) + 1) by lia.
      apply digits2_exact; [lia|]. rewrite Hv.
      replace (Zpos (digits2_pos M) - 1 + (E - f) + 1)
        with (Zpos (digits2_pos M) + (E - f)) by lia.
      rewrite !Z.pow_add_r by lia. nia. }
    assert (Hcan : f <= Z.max (Zpos (digits2_pos M2) + f - 53) (-1074)).
    { rewrite Hd2. unfold f. lia. }
    split; [apply binary_round_aux_exact; exact Hcan|].
    split; [unfold f; lia|]. split; [|exact Hcan].
    rewrite Hv. rewrite <- Z.mul_assoc. f_equal.
    rewrite <- Z.pow_add_r by (unfold f; lia). f_equal. lia.
Qed.

Lemma round_mantissa_lower M n :
  0 <= n -> n = Zpos (digits2_pos M) - 53 ->
  2 ^ 52 <= round_mantissa (Zpos M) n.
Proof.
  intros Hn Hd. pose proof (digits2_bounds M) as [Hlo _].
  assert (Hp : 0 < 2 ^ n) by (apply Z.pow_pos_nonneg; lia).
  assert (Hq : 2 ^ 52 <= Zpos M / 2 ^ n).
  { apply Z.div_le_lower_bound; [lia|].
    rewrite <- Z.pow_add_r by lia.
    replace (n + 52) with (Zpos (digits2_pos M) - 1) by lia. exact Hlo. }
  unfold round_mantissa. destruct (round_up _ _); lia.
Qed.

Lemma round_model_valid s M E :
  E <= Z.max (Zpos (digits2_pos M) + E - 53) (-1074) ->
  valid_binary 53 1024 (round_model s M E) = true.
Proof.
  intros Hn. unfold round_model.
  set (e1 := Z.max (Zpos (digits2_pos M) + E - 53) (-1074)) in *.
  pose proof (round_mantissa_bounds M (e1 - E) ltac:(lia)
                ltac:(unfold e1; lia)) as Hb.
  destruct (Z.eqb_spec (round_mantissa (Zpos M) (e1 - E)) (2 ^ 53)) as [Hq|Hq].
  - destruct (Z.leb_spec (e1 + 1) 971) as [Hle|Hgt]; [|reflexivity].
    cbn [valid_binary]. unfold bounded, canonical_mantissa. rewrite fexp_64.
    change (Zpos (digits2_pos (2 ^ 52))) with 53.
    apply andb_true_iff. split; [apply Z.eqb_eq; unfold e1; lia|].
    apply Z.leb_le. change (1024 - 53) with 971. exact Hle.
  - destruct (round_mantissa (Zpos M) (e1 - E)) as [|m|m] eqn:Hm;
      [reflexivity| |lia].
    destruct (Z.leb_spec e1 971) as [Hle|Hgt]; [|reflexivity].
    cbn [valid_binary]. unfold bounded, canonical_mantissa. rewrite fexp_64.
    pose proof (Zdigits2_small (Zpos m) ltac:(lia)) as Hs. cbn [Zdigits2] in Hs.
    apply andb_true_iff. split; [|apply Z.leb_le; change (1024 - 53) with 971; exact Hle].
    apply Z.eqb_eq.
    destruct (Z_le_gt_dec e1 (-1074)) as [Hsub|Hnorm]; [unfold e1 in *; lia|].
    pose proof (round_mantissa_lower M (e1 - E) ltac:(lia)
                  ltac:(unfold e1 in *; lia)) as Hlow.
    rewrite Hm in Hlow.
    rewrite (digits2_exact m 52) by lia. unfold e1 in *. lia.
Qed.

Lemma ltb_leb x y : SFltb x y = true -> SFleb x y = true.
Proof. unfold SFltb, SFleb. destruct (SFcompare x y) as [[]|]; congruence. Qed.

(** Beyond a finite positive value starts its successor. *)
Lemma ltb_succ mc ec x :
  SFltb (S754_finite false mc ec) x
  = SFleb (S754_finite false (Pos.succ mc) ec) x.
Proof.
  destruct x as [s|s| |s m e]; try (destruct s; reflexivity); try reflexivity.
  destruct s; [reflexivity|].
  unfold SFltb, SFleb, SFcompare.
  destruct (ec ?= e); try reflexivity.
  change (Pos.compare_cont Eq mc m) with (Pos.compare mc m).
  change (Pos.compare_cont Eq (Pos.succ mc) m) with (Pos.compare (Pos.succ mc) m).
  destruct (Pos.compare_spec mc m) as [H|H|H];
    destruct (Pos.compare_spec (Pos.succ mc) m) as [H'|H'|H']; try reflexivity; lia.
Qed.

Lemma leb_negb_ltb x y :
  x <> S754_nan -> y <> S754_nan -> SFleb x y = negb (SFltb y x).
Proof.
  intros Hx Hy. unfold SFleb, SFltb. rewrite (SFcompare_antisym x y).
  destruct x as [s|s| |s m e], y as [s'|s'| |s' m' e']; try congruence;
    destruct (SFcompare _ _) as [[]|] eqn:Hc; try reflexivity;
    simpl in Hc; repeat (match goal with b : bool |- _ => destruct b end);
    discriminate.
Qed.

(** The shape of a valid weight in [[0.1, 1.0]]. *)
Lemma in_range_shape w :
  F64.valid w = true -> in_range w ->
  exists m e,
    w = S754_finite false m e
    /\ -56 <= e <= -52
    /\ 2 ^ 52 <= Zpos m < 2 ^ 53
    /\ 7205759403792794 <= Zpos m * 2 ^ (e + 56) <= 2 ^ 56.
Proof.
  intros Hv [Hlo Hhi]. unfold F64.leb, F64.c0_1, F64.c1_0 in *.
  destruct w as [s|s| |s m e]; try discriminate;
    try (destruct s; discriminate).
  destruct s; [discriminate|].
  rewrite SFleb_finite_pos in Hlo, Hhi.
  destruct (valid_finite false m e Hv) as (He & Hd & Hn).
  assert (He2 : -56 <= e <= -52).
  { apply orb_true_iff in Hlo, Hhi. split.
    - destruct Hlo as [H|H]; [apply Z.ltb_lt in H; lia|].
      apply andb_true_iff in H. destruct H as [H _]. apply Z.eqb_eq in H. lia.
    - destruct Hhi as [H|H]; [apply Z.ltb_lt in H; lia|].
      apply andb_true_iff in H. destruct H as [H _]. apply Z.eqb_eq in H. lia. }
  pose proof (digits2_bounds m) as Hb. rewrite Hn in Hb by lia.
  change (2 ^ (53 - 1)) with (2 ^ 52) in Hb.
  exists m, e. split; [reflexivity|]. split; [exact He2|]. split; [exact Hb|].
  assert (Hlo' : -56 < e \/ e = -56 /\ 7205759403792794 <= Zpos m).
  { apply orb_true_iff in Hlo. destruct Hlo as [H|H]; [left; apply Z.ltb_lt in H; lia|].
    apply andb_true_iff in H. destruct H as [H1 H2].
    apply Z.eqb_eq in H1. apply Z.leb_le in H2. right. lia. }
  assert (Hhi' : e < -52 \/ e = -52 /\ Zpos m <= 4503599627370496).
  { apply orb_true_iff in Hhi. destruct Hhi as [H|H]; [left; apply Z.ltb_lt in H; lia|].
    apply andb_true_iff in H. destruct H as [H1 H2].
    apply Z.eqb_eq in H1. apply Z.leb_le in H2. right. lia. }
  clear Hlo Hhi Hv.
  change (2 ^ 52) with 4503599627370496 in *.
  change (2 ^ 53) with 9007199254740992 in *.
  change (2 ^ 56) with 72057594037927936.
  assert (Hcases : e = -56 \/ e = -55 \/ e = -54 \/ e = -53 \/ e = -52) by lia.
  destruct Hcases as [-> | [-> | [-> | [-> | ->]]]].
  - change (2 ^ (-56 + 56)) with 1. lia.
  - change (2 ^ (-55 + 56)) with 2. lia.
  - change (2 ^ (-54 + 56)) with 4. lia.
  - change (2 ^ (-53 + 56)) with 8. lia.
  - change (2 ^ (-52 + 56)) with 16. lia.
Qed.

Lemma add_c0_1 m e :
  -56 <= e ->
  exists M,
    Zpos M = Zpos m * 2 ^ (e + 56) + 7205759403792794
    /\ F64.add (S754_finite false m e) F64.c0_1
       = binary_round 53 1024 false M (-56).
Proof.
  intros He. unfold F64.add, F64.c0_1, SFadd.
  rewrite (Z.min_r e (-56)) by lia.
  destruct (shl_align_value m e (-56) He) as [Hv _].
  replace (e - -56) with (e + 56) in Hv by lia.
  change (fst (shl_align 7205759403792794 (-56) (-56))) with 7205759403792794%positive.
  cbn [cond_Zopp].
  exists (fst (shl_align m e (-56)) + 7205759403792794)%positive.
  split; [rewrite Pos2Z.inj_add, Hv; reflexivity | reflexivity].
Qed.

Lemma sub_c0_1 m e :
  -56 <= e ->
  7205759403792794 <= Zpos m * 2 ^ (e + 56) ->
  F64.sub (S754_finite false m e) F64.c0_1 = S754_zero false
  \/ exists M,
       Zpos M = Zpos m * 2 ^ (e + 56) - 7205759403792794
       /\ F64.sub (S754_finite false m e) F64.c0_1
          = binary_round 53 1024 false M (-56).
Proof.
  intros He Hge. unfold F64.sub, F64.c0_1, SFsub.
  rewrite (Z.min_r e (-56)) by lia.
  destruct (shl_align_value m e (-56) He) as [Hv _].
  replace (e - -56) with (e + 56) in Hv by lia.
  change (fst (shl_align 7205759403792794 (-56) (-56))) with 7205759403792794%positive.
  cbn [cond_Zopp]. rewrite Hv.
  destruct (Zpos m * 2 ^ (e + 56) - 7205759403792794) as [|M|M] eqn:HM.
  - left. reflexivity.
  - right. exists M. split; reflexivity.
  - lia.
Qed.

Lemma pow2_1144 : 2 ^ (-52 + 1200) = 16 * 2 ^ (-56 + 1200).
Proof. change (-52 + 1200) with (4 + (-56 + 1200)). rewrite Z.pow_add_r by lia. reflexivity. Qed.

Lemma step_up w :
  weight_ok w -> weight_ok (F64.py_min F64.c1_0 (F64.add w F64.c0_1)).
Proof.
  intros [Hv Hr].
  destruct (in_range_shape w Hv Hr) as (m & e & -> & He & Hm & Hval).
  destruct (add_c0_1 m e ltac:(lia)) as (M & HM & ->).
  destruct (binary_round_exact false M (-56) ltac:(lia))
    as (M2 & E2 & -> & HE2 & Hv2 & Hc2).
  assert (Hlow : F64.leb F64.c0_1 (round_model false M2 E2) = true).
  { unfold F64.leb, F64.c0_1.
    apply leb_round_model; [vm_compute; split; reflexivity | lia | exact Hc2 | exact HE2 |].
    unfold exceeds. change (Z.odd 7205759403792794) with false. cbv iota.
    rewrite <- Z.mul_assoc, Hv2, HM.
    assert (0 < 2 ^ (-56 + 1200)) by (apply Z.pow_pos_nonneg; lia). nia. }
  unfold F64.py_min.
  destruct (F64.ltb (round_model false M2 E2) F64.c1_0) eqn:Hlt.
  - split; [apply round_model_valid; exact Hc2|].
    split; [exact Hlow | apply ltb_leb; exact Hlt].
  - split; [reflexivity | split; reflexivity].
Qed.

Lemma step_down w :
  weight_ok w -> weight_ok (F64.py_max F64.c0_1 (F64.sub w F64.c0_1)).
Proof.
  intros [Hv Hr].
  destruct (in_range_shape w Hv Hr) as (m & e & -> & He & Hm & Hval).
  destruct (sub_c0_1 m e ltac:(lia) ltac:(lia)) as [-> | (M & HM & ->)].
  { split; [reflexivity | split; reflexivity]. }
  destruct (binary_round_exact false M (-56) ltac:(lia))
    as (M2 & E2 & -> & HE2 & Hv2 & Hc2).
  unfold F64.py_max.
  destruct (F64.ltb F64.c0_1 (round_model false M2 E2)) eqn:Hlt;
    [|split; [reflexivity | split; reflexivity]].
  split; [apply round_model_valid; exact Hc2|].
  split; [apply ltb_leb; exact Hlt|].
  unfold F64.leb. rewrite leb_negb_ltb;
    [|intros Hnan; rewrite Hnan in Hlt; discriminate Hlt | discriminate].
  apply negb_true_iff. unfold F64.c1_0. rewrite ltb_succ.
  apply not_true_is_false. intros Habove.
  apply leb_round_model in Habove;
    [|vm_compute; split; reflexivity | lia | exact Hc2 | exact HE2].
  unfold exceeds in Habove.
  change (Z.odd (Zpos (Pos.succ 4503599627370496))) with true in Habove.
  cbv iota in Habove.
  rewrite <- (Z.mul_assoc 2 (Zpos M2)), Hv2, HM, pow2_1144 in Habove.
  change (Zpos (Pos.succ 4503599627370496)) with 4503599627370497 in Habove.
  change (2 ^ 56) with 72057594037927936 in Hval.
  assert (0 < 2 ^ (-56 + 1200)) by (apply Z.pow_pos_nonneg; lia). nia.
Qed.

End Sums.


Section StoreLemmas.
Import Db Prefs.

Lemma set_lock_idle d : lock_held d = false -> set_lock false (set_lock true d) = d.
Proof. destruct d; simpl; intros ->; reflexivity. Qed.

Lemma get_connection_idle {A} (body : M A) d :
  lock_held d = false ->
  get_connection body d =
    match body (set_lock true d) with
    | Ok a d' => Ok a (set_lock false d')
    | Raise e _ => Raise e d
    | Hang => Hang
    end.
Proof. intros H. unfold get_connection. rewrite H. reflexivity. Qed.

Lemma get_user_preferences_row d user_id row :
  lock_held d = false ->
  user_preferences d !! user_id = Some row ->
  get_user_preferences user_id d = Ok (prefs_of_row row) d.
Proof.
  intros Hl Hr. unfold get_user_preferences.
  rewrite get_connection_idle by assumption. simpl.
  rewrite Hr. rewrite set_lock_idle by assumption. reflexivity.
Qed.

Lemma get_user_preferences_absent d user_id :
  lock_held d = false ->
  user_preferences d !! user_id = None ->
  get_user_preferences user_id d = Hang.
Proof.
  intros Hl Hr. unfold get_user_preferences.
  rewrite get_connection_idle by assumption. simpl.
  rewrite Hr. reflexivity.
Qed.

Lemma update_user_preferences_idle d user_id p :
  lock_held d = false ->
  update_user_preferences user_id p d =
    Ok tt (set_user_preferences
             (<[user_id := row_of_prefs p]> (user_preferences d)) d).
Proof.
  intros Hl. unfold update_user_preferences.
  rewrite get_connection_idle by assumption.
  destruct d; simpl in *; subst; reflexivity.
Qed.
End StoreLemmas.

(** *** The local heuristic *)

Section FilterLemmas.
Import Filter.

Lemma basic_analysis_total cd diff site :
  cr_diff cd = Some diff -> cr_site_name cd = Some site ->
  exists a, basic_analysis cd = inr a
    /\ (2000 < Z.of_nat (Py.len diff) ->
        category a = "content"%string /\ importance a = "high"%string)
    /\ (500 < Z.of_nat (Py.len diff) <= 2000 ->
        category a = "design"%string /\ importance a = "medium"%string)
    /\ (Z.of_nat (Py.len diff) <= 500 ->
        category a = "technical"%string /\ importance a = "low"%string).
Proof.
  intros Hd Hs. unfold basic_analysis. rewrite Hd.
  destruct (2000 <? Z.of_nat (Py.len diff)) eqn:H1;
    [|destruct (500 <? Z.of_nat (Py.len diff)) eqn:H2];
    rewrite Hs; eexists; (split; [reflexivity|]); simpl;
    repeat split; intros; try reflexivity; lia.
Qed.
End FilterLemmas.

(** C5, as stated, fails: a change record as [check_site] builds it (a diff
    but no site name) makes the heuristic raise [KeyError]. *)
Lemma C5_counterexample :
  let cd := {| Filter.cr_site_name := None; Filter.cr_url := None;
               Filter.cr_diff := Some "+new line"%string;
               Filter.cr_change_type := Some "content_update"%string;
               Filter.cr_old_content := Some ""%string;
               Filter.cr_new_content := Some "new line"%string |} in
  Filter.cr_diff cd <> None
  /\ Filter.analyze_change_importance None None cd = inl (Py.KeyError "site_name").
Proof. split; [discriminate | reflexivity]. Qed.

(** C5 (amended): without credentials, a change record that holds a diff
    and a site name is analysed without an exception, and the result is the
    size heuristic. *)
Theorem C5_local_heuristic (api_key : option string) (remote : option Filter.analysis)
    (cd : Filter.change_record) (diff site : string) :
  Filter.no_api_key api_key = true ->
  Filter.cr_diff cd = Some diff ->
  Filter.cr_site_name cd = Some site ->
  exists a,
    Filter.analyze_change_importance api_key remote cd = inr a
    /\ Filter.basic_analysis cd = inr a
    /\ (2000 < Z.of_nat (Py.len diff) ->
        Filter.category a = "content"%string /\ Filter.importance a = "high"%string)
    /\ (500 < Z.of_nat (Py.len diff) <= 2000 ->
        Filter.category a = "design"%string /\ Filter.importance a = "medium"%string)
    /\ (Z.of_nat (Py.len diff) <= 500 ->
        Filter.category a = "technical"%string /\ Filter.importance a = "low"%string).
Proof.
  intros Hk Hd Hs.
  destruct (basic_analysis_total cd diff site Hd Hs) as (a & Ha & H1 & H2 & H3).
  exists a. unfold Filter.analyze_change_importance. rewrite Hk.
  repeat split; try assumption; try (apply H1; assumption);
    try (apply H2; assumption); try (apply H3; assumption).
Qed.

Lemma C5_local_heuristic_witness :
  exists a,
    Filter.analyze_change_importance (Some ""%string) None
      {| Filter.cr_site_name := Some "example.com"%string;
         Filter.cr_url := Some "https://example.com"%string;
         Filter.cr_diff := Some (Sample.letters 1500);
         Filter.cr_change_type := Some "content_update"%string;
         Filter.cr_old_content := Some ""%string;
         Filter.cr_new_content := Some (Sample.letters 1500) |} = inr a
    /\ Filter.category a = "design"%string
    /\ Filter.importance a = "medium"%string.
Proof.
  destruct (C5_local_heuristic (Some ""%string) None
     {| Filter.cr_site_name := Some "example.com"%string;
         Filter.cr_url := Some "https://example.com"%string;
         Filter.cr_diff := Some (Sample.letters 1500);
         Filter.cr_change_type := Some "content_update"%string;
         Filter.cr_old_content := Some ""%string;
         Filter.cr_new_content := Some (Sample.letters 1500) |}
     (Sample.letters 1500) "example.com"%string eq_refl eq_refl eq_refl)
    as (a & Ha & _ & _ & H2 & _).
  exists a. split; [exact Ha|]. apply H2. vm_compute. split; [reflexivity|].
  discriminate.
Defined.

(** *** The notification threshold *)

Section ThresholdLemmas.
Import Db Prefs.

Lemma should_send_notification_row d user_id row analysis category :
  lock_held d = false ->
  user_preferences d !! user_id = Some row ->
  cd_category analysis = Some category ->
  should_send_notification user_id analysis d =
    if negb (bool_decide (category ∈ Py.split_on "," (pr_preferred_categories row)))
    then Ok false d
    else
      let importance := default "medium"%string (cd_importance analysis) in
      match base_importance_score importance with
      | None => Raise (Py.KeyError importance) d
      | Some base =>
          Ok (F64.leb threshold
                (F64.mul base
                   (default F64.c0_5 (pr_importance_weights row !! category)))) d
      end.
Proof.
  intros Hl Hr Hc. unfold should_send_notification, bind.
  rewrite (get_user_preferences_row d user_id row Hl Hr). rewrite Hc.
  cbn [Py.mem weight_of prefs_of_row preferred_categories importance_weights].
  destruct (negb _); [reflexivity|].
  destruct (base_importance_score _); reflexivity.
Qed.
End ThresholdLemmas.

(** The threshold rule for a user who has a stored row: for an analysis
    whose importance is high, medium or low and whose category has a
    weight, [should_send_notification] answers [False] when the category
    is not preferred, and otherwise answers whether
    [base_importance[importance] * weight[category] >= 0.3]. *)
Theorem should_notify_rule (d : Db.t) (user_id : Z) (row : Db.prefs_row)
    (analysis : Prefs.change_data) (category importance : string) (w : F64.t) :
  Db.lock_held d = false ->
  Db.user_preferences d !! user_id = Some row ->
  Prefs.cd_category analysis = Some category ->
  Prefs.cd_importance analysis = Some importance ->
  importance ∈ ["high"; "medium"; "low"]%string ->
  Db.pr_importance_weights row !! category = Some w ->
  (category ∉ Py.split_on "," (Db.pr_preferred_categories row) ->
   Prefs.should_send_notification user_id analysis d = Db.Ok false d)
  /\ (category ∈ Py.split_on "," (Db.pr_preferred_categories row) ->
      Prefs.should_send_notification user_id analysis d =
        Db.Ok (F64.leb F64.c0_3 (F64.mul (spec_base_importance importance) w)) d).
Proof.
  intros Hl Hr Hc Hi Himp Hw.
  rewrite (should_send_notification_row d user_id row analysis category Hl Hr Hc).
  rewrite Hi, Hw. simpl.
  split; intros Hin.
  - rewrite bool_decide_eq_false_2 by assumption. reflexivity.
  - rewrite bool_decide_eq_true_2 by assumption. simpl.
    repeat (apply elem_of_cons in Himp; destruct Himp as [-> | Himp]);
      [reflexivity | reflexivity | reflexivity |].
    apply elem_of_nil in Himp. destruct Himp.
Qed.

Lemma should_notify_rule_witness :
  Prefs.should_send_notification 1 Sample.content_high
    (Sample.store Sample.default_row)
  = Db.Ok true (Sample.store Sample.default_row).
Proof.
  destruct (should_notify_rule (Sample.store Sample.default_row) 1
              Sample.default_row Sample.content_high "content" "high" F64.c1_0
              eq_refl eq_refl eq_refl eq_refl
              (list_elem_of_here _ _) eq_refl) as [_ H].
  rewrite H.
  - reflexivity.
  - apply list_elem_of_here.
Defined.

(** C3: the rule does not hold for every user.  For the default
    preferences an analysis of category design and importance medium
    scores 0.5 * 0.7 >= 0.3, and user 1, who has a stored row with these
    defaults, gets [True]; user 2, who has no row and for whom
    [get_user_preferences] is to store these same defaults, gets no
    answer: the call blocks on the lock that it already holds. *)
Theorem C3_no_row_never_answers :
  Prefs.should_send_notification 1 Sample.design_medium
    (Sample.store Sample.default_row)
  = Db.Ok true (Sample.store Sample.default_row)
  /\ Db.user_preferences (Sample.store Sample.default_row) !! 2 = None
  /\ Prefs.should_send_notification 2 Sample.design_medium
       (Sample.store Sample.default_row)
     = Db.Hang.
Proof.
  split; [|split].
  - rewrite (should_send_notification_row (Sample.store Sample.default_row) 1
               Sample.default_row Sample.design_medium "design"
               eq_refl eq_refl eq_refl).
    vm_compute. reflexivity.
  - reflexivity.
  - unfold Prefs.should_send_notification, Db.bind.
    rewrite get_user_preferences_absent; reflexivity.
Qed.

(** *** The per-site check *)

Section MonitorLemmas.
Import Db Monitor.

Lemma update_site_hash_idle d site_id current_hash content now :
  lock_held d = false ->
  update_site_hash site_id current_hash content now d =
    Ok tt (set_monitored_sites
             (alter (set_site_state current_hash content now) site_id
                (monitored_sites d)) d).
Proof.
  intros Hl. unfold update_site_hash.
  rewrite get_connection_idle by assumption.
  destruct d; simpl in *; subst; reflexivity.
Qed.

Lemma get_all_monitored_sites_idle d now :
  lock_held d = false ->
  get_all_monitored_sites now d =
    Ok (filter (fun site => Is_true (due d now site))
          (snd <$> map_to_list (monitored_sites d))) d.
Proof.
  intros Hl. unfold get_all_monitored_sites.
  rewrite get_connection_idle by assumption.
  destruct d; simpl in *; subst; reflexivity.
Qed.

Lemma due_later d t t' site :
  due d t site = true -> t <= t' -> due d t' site = true.
Proof.
  unfold due. intros H Hle.
  destruct (users d !! ms_user_id site); [|discriminate].
  destruct (u_subscribed u && ms_enabled site); [|discriminate]. simpl in *.
  destruct (ms_last_checked site); [|reflexivity].
  apply andb_true_iff in H. destruct H as [Hi H].
  apply andb_true_iff. split; [exact Hi|].
  apply Z.ltb_lt in H. apply Z.ltb_lt. lia.
Qed.

Lemma long_text_not_short text :
  (50 <= Py.len text)%nat ->
  (String.eqb text "" || (Py.len text <? 50)%nat) = false.
Proof.
  intros H. apply orb_false_iff. split.
  - destruct text; [simpl in H; lia | reflexivity].
  - apply Nat.ltb_ge. exact H.
Qed.
End MonitorLemmas.

(** C4: the first check of a site (no stored fingerprint) that yields at
    least 50 characters of text hands no change to [process_change] and
    records no error; afterwards the stored row holds the digest of the
    text as [last_hash] and the time of the check as [last_checked]. *)
Theorem C4_first_check_baseline (md5 : string -> string)
    (unified_diff : string -> string -> option string)
    (d : Db.t) (site : Db.site_row) (text : string) (now : Z) :
  Db.lock_held d = false ->
  Db.monitored_sites d !! Db.ms_id site = Some site ->
  Db.ms_last_hash site = None ->
  (50 <= Py.len text)%nat ->
  exists d' site',
    Monitor.check_site md5 unified_diff site (Monitor.PageText text) now d
      = Db.Ok [] d'
    /\ Db.check_errors d' = Db.check_errors d
    /\ Db.monitored_sites d' !! Db.ms_id site = Some site'
    /\ Db.ms_last_hash site' = Some (md5 text)
    /\ Db.ms_last_checked site' = Some now.
Proof.
  intros Hl Hs Hh Hlen.
  unfold Monitor.check_site. rewrite (long_text_not_short text Hlen).
  rewrite Hh. simpl. unfold Db.bind.
  rewrite (update_site_hash_idle d _ _ _ _ Hl). simpl.
  eexists. exists (Monitor.set_site_state (md5 text) text now site).
  split; [reflexivity|]. simpl.
  split; [reflexivity|].
  split; [|split; reflexivity].
  rewrite lookup_alter_eq. rewrite Hs. reflexivity.
Qed.

(** C10: a check whose page normalizes to fewer than 50 characters returns
    with the whole store unchanged (the row of the site, with its
    [last_checked], and the error table); a site that was due stays due at
    every later scan. *)
Theorem C10_short_text_frame (md5 : string -> string)
    (unified_diff : string -> string -> option string)
    (d : Db.t) (site : Db.site_row) (text : string) (now : Z) :
  (Py.len text < 50)%nat ->
  Monitor.check_site md5 unified_diff site (Monitor.PageText text) now d
    = Db.Ok [] d
  /\ forall t t' : Z,
       Db.lock_held d = false ->
       Db.monitored_sites d !! Db.ms_id site = Some site ->
       Monitor.due d t site = true ->
       t <= t' ->
       exists sites,
         Monitor.get_all_monitored_sites t' d = Db.Ok sites d /\ site ∈ sites.
Proof.
  intros Hlen. split.
  - unfold Monitor.check_site.
    replace (Py.len text <? 50)%nat with true
      by (symmetry; apply Nat.ltb_lt; exact Hlen).
    rewrite orb_true_r. reflexivity.
  - intros t t' Hl Hs Hdue Hle.
    rewrite (get_all_monitored_sites_idle d t' Hl).
    eexists. split; [reflexivity|].
    apply list_elem_of_filter. split.
    + rewrite (due_later d t t' site Hdue Hle). exact I.
    + apply list_elem_of_fmap. exists (Db.ms_id site, site).
      split; [reflexivity|]. apply elem_of_map_to_list. exact Hs.
Qed.



(** *** Feedback learning *)

Section LearningLemmas.
Import Db Prefs.

Lemma adjust_importance_weights_row d user_id row l :
  lock_held d = false ->
  user_preferences d !! user_id = Some row ->
  adjust_importance_weights user_id l d =
    match adjust_all (pr_importance_weights row) (learned_patterns l) with
    | inl e => Raise e d
    | inr weights =>
        Ok tt (set_user_preferences
                 (<[user_id := row_of_prefs (with_weights weights (prefs_of_row row))]>
                    (user_preferences d)) d)
    end.
Proof.
  intros Hl Hr. unfold adjust_importance_weights, bind.
  rewrite (get_user_preferences_row d user_id row Hl Hr). simpl.
  destruct (adjust_all _ _); [reflexivity|].
  apply update_user_preferences_idle. exact Hl.
Qed.

Lemma update_learning_model_row d user_id row feedback_type cd :
  lock_held d = false ->
  user_preferences d !! user_id = Some row ->
  update_learning_model user_id feedback_type cd d =
    let l := learn feedback_type cd (pr_learning_data row) in
    match adjust_all (pr_importance_weights row) (learned_patterns l) with
    | inl e => Raise e d
    | inr _ =>
        Ok tt (set_user_preferences
                 (<[user_id := row_of_prefs (with_learning l (prefs_of_row row))]>
                    (user_preferences d)) d)
    end.
Proof.
  intros Hl Hr. unfold update_learning_model, bind.
  rewrite (get_user_preferences_row d user_id row Hl Hr). simpl.
  rewrite (adjust_importance_weights_row d user_id row _ Hl Hr).
  destruct (adjust_all _ _); [reflexivity|].
  rewrite update_user_preferences_idle by exact Hl. simpl.
  rewrite insert_insert_eq. reflexivity.
Qed.

Lemma record_feedback_row d user_id row notification_id feedback_type cd :
  lock_held d = false ->
  user_preferences d !! user_id = Some row ->
  record_feedback user_id notification_id feedback_type cd d =
    let d1 := logged user_id notification_id feedback_type cd d in
    let l := learn feedback_type cd (pr_learning_data row) in
    match adjust_all (pr_importance_weights row) (learned_patterns l) with
    | inl e => Raise e d1
    | inr _ =>
        Ok tt (set_user_preferences
                 (<[user_id := row_of_prefs (with_learning l (prefs_of_row row))]>
                    (user_preferences d1)) d1)
    end.
Proof.
  intros Hl Hr. unfold record_feedback, bind.
  rewrite get_connection_idle by exact Hl.
  replace (set_lock false _)
    with (logged user_id notification_id feedback_type cd d)
    by (destruct d; simpl in *; subst; reflexivity).
  apply update_learning_model_row; [exact Hl | exact Hr].
Qed.

(** A feedback event never changes the persisted weights. *)
Lemma record_feedback_weights d user_id row notification_id feedback_type cd :
  lock_held d = false ->
  user_preferences d !! user_id = Some row ->
  exists d' row',
    (record_feedback user_id notification_id feedback_type cd d = Ok tt d'
     \/ exists e, record_feedback user_id notification_id feedback_type cd d
                  = Raise e d')
    /\ lock_held d' = false
    /\ user_preferences d' !! user_id = Some row'
    /\ pr_importance_weights row' = pr_importance_weights row.
Proof.
  intros Hl Hr.
  rewrite (record_feedback_row d user_id row _ _ _ Hl Hr). simpl.
  destruct (adjust_all _ _) as [e|w].
  - eexists. exists row. split; [right; eexists; reflexivity|].
    simpl. auto.
  - eexists. eexists. split; [left; reflexivity|]. simpl.
    split; [exact Hl|]. rewrite lookup_insert_eq. split; reflexivity.
Qed.

Lemma adjust_one_dead_zone weights key c :
  (3 <= likes c + dislikes c ->
   F64.leb F64.c0_3 (like_ratio c) = true
   /\ F64.leb (like_ratio c) F64.c0_7 = true) ->
  adjust_one weights (key, c) = inr weights.
Proof.
  intros H. unfold adjust_one. simpl.
  destruct (3 <=? likes c + dislikes c) eqn:Ht; [|reflexivity].
  apply Z.leb_le in Ht. destruct (H Ht) as [H3 H7].
  unfold F64.truediv.
  replace (likes c + dislikes c =? 0) with false
    by (symmetry; apply Z.eqb_neq; lia).
  fold (like_ratio c).
  rewrite (leb_not_ltb _ _ H7), (leb_not_ltb _ _ H3). reflexivity.
Qed.

Lemma adjust_all_dead_zone weights patterns :
  (forall key c, (key, c) ∈ patterns ->
     3 <= likes c + dislikes c ->
     F64.leb F64.c0_3 (like_ratio c) = true
     /\ F64.leb (like_ratio c) F64.c0_7 = true) ->
  adjust_all weights patterns = inr weights.
Proof.
  induction patterns as [|[key c] rest IH]; intros H; [reflexivity|].
  cbn [adjust_all]. rewrite (adjust_one_dead_zone weights key c).
  - apply IH. intros k c' Hin. apply (H k c'). apply elem_of_cons. right. exact Hin.
  - apply (H key c). apply list_elem_of_here.
Qed.

Lemma adjust_one_keys weights entry :
  (3 <= likes (snd entry) + dislikes (snd entry) ->
   is_Some (weights !! key_category (fst entry))) ->
  exists weights',
    adjust_one weights entry = inr weights'
    /\ forall k, is_Some (weights' !! k) <-> is_Some (weights !! k).
Proof.
  intros H. unfold adjust_one.
  destruct (3 <=? _) eqn:Ht; [|exists weights; split; [reflexivity|tauto]].
  apply Z.leb_le in Ht. destruct (H Ht) as [w Hw].
  unfold F64.truediv.
  replace (likes entry.2 + dislikes entry.2 =? 0) with false
    by (symmetry; apply Z.eqb_neq; lia).
  rewrite Hw.
  assert (Hins : forall v k,
             is_Some (<[key_category entry.1 := v]> weights !! k)
             <-> is_Some (weights !! k)).
  { intros v k. destruct (decide (key_category entry.1 = k)) as [<-|Hne].
    - rewrite lookup_insert_eq, Hw. split; eauto.
    - rewrite lookup_insert_ne by exact Hne. tauto. }
  destruct (F64.ltb F64.c0_7 _); [eexists; split; [reflexivity|apply Hins]|].
  destruct (F64.ltb _ F64.c0_3); [eexists; split; [reflexivity|apply Hins]|].
  exists weights; split; [reflexivity|tauto].
Qed.

Lemma adjust_all_keys patterns : forall weights,
  (forall key c, (key, c) ∈ patterns ->
     3 <= likes c + dislikes c -> is_Some (weights !! key_category key)) ->
  exists weights', adjust_all weights patterns = inr weights'.
Proof.
  induction patterns as [|[key c] rest IH]; intros weights H.
  - exists weights. reflexivity.
  - cbn [adjust_all].
    destruct (adjust_one_keys weights (key, c)) as (w1 & -> & Hk).
    { simpl. apply H. apply list_elem_of_here. }
    apply IH. intros k c' Hin Ht. apply Hk. apply (H k c'); [|exact Ht].
    apply elem_of_cons. right. exact Hin.
Qed.
End LearningLemmas.

(** C8: when every learned pattern with at least 3 feedback events has its
    like-ratio in [[0.3, 0.7]], the weight-adjustment pass returns and
    every persisted importance weight is what it was. *)
Theorem C8_dead_zone_noop (d : Db.t) (user_id : Z) (row : Db.prefs_row)
    (l : Db.learning) :
  Db.lock_held d = false ->
  Db.user_preferences d !! user_id = Some row ->
  (forall key c, (key, c) ∈ Db.learned_patterns l ->
     3 <= Db.likes c + Db.dislikes c ->
     F64.leb F64.c0_3 (like_ratio c) = true
     /\ F64.leb (like_ratio c) F64.c0_7 = true) ->
  exists d',
    Prefs.adjust_importance_weights user_id l d = Db.Ok tt d'
    /\ forall category,
         stored_weight d' user_id category = stored_weight d user_id category.
Proof.
  intros Hl Hr Hz.
  rewrite (adjust_importance_weights_row d user_id row l Hl Hr).
  rewrite (adjust_all_dead_zone _ _ Hz).
  eexists. split; [reflexivity|].
  intros category. unfold stored_weight. simpl.
  rewrite lookup_insert_eq, Hr. reflexivity.
Qed.

Lemma C8_dead_zone_noop_witness :
  exists d',
    Prefs.adjust_importance_weights 1
      {| Db.positive_feedback := 2; Db.negative_feedback := 1;
         Db.learned_patterns :=
           [("content_high"%string, {| Db.likes := 2; Db.dislikes := 1 |})] |}
      (Sample.store Sample.default_row) = Db.Ok tt d'
    /\ forall category,
         stored_weight d' 1 category
         = stored_weight (Sample.store Sample.default_row) 1 category.
Proof.
  apply (C8_dead_zone_noop (Sample.store Sample.default_row) 1
           Sample.default_row); [reflexivity | reflexivity |].
  intros key c Hin _. apply list_elem_of_singleton in Hin.
  injection Hin as _ ->. split; vm_compute; reflexivity.
Defined.

(** C9: the weight-adjustment pass returns when every learned-pattern
    category is a key of the weight map; with the default weights and a
    [commerce] pattern it raises [KeyError] as soon as that pattern counts
    three likes, and the feedback update that called it is aborted: the
    persisted preferences keep the tally of two. *)
Theorem C9_missing_category_key_error :
  (forall (d : Db.t) (user_id : Z) (row : Db.prefs_row) (l : Db.learning),
      Db.lock_held d = false ->
      Db.user_preferences d !! user_id = Some row ->
      (forall key c, (key, c) ∈ Db.learned_patterns l ->
         is_Some (Db.pr_importance_weights row !! Prefs.key_category key)) ->
      exists d', Prefs.adjust_importance_weights user_id l d = Db.Ok tt d')
  /\ Prefs.adjust_importance_weights 1
       {| Db.positive_feedback := 3; Db.negative_feedback := 0;
          Db.learned_patterns :=
            [("commerce_high"%string, {| Db.likes := 3; Db.dislikes := 0 |})] |}
       (Sample.store Sample.default_row)
     = Db.Raise (Py.KeyError "commerce") (Sample.store Sample.default_row)
  /\ exists d',
       Prefs.record_feedback 1 "1_1700000000.0" "like" Sample.commerce_high
         (Sample.store Sample.commerce_row)
       = Db.Raise (Py.KeyError "commerce") d'
       /\ Db.user_preferences d'
          = Db.user_preferences (Sample.store Sample.commerce_row).
Proof.
  split; [|split].
  - intros d user_id row l Hl Hr Hk.
    rewrite (adjust_importance_weights_row d user_id row l Hl Hr).
    destruct (adjust_all_keys (Db.learned_patterns l) (Db.pr_importance_weights row))
      as [w ->].
    + intros key c Hin _. apply (Hk key c Hin).
    + eexists. reflexivity.
  - vm_compute. reflexivity.
  - eexists. split; [vm_compute; reflexivity | reflexivity].
Qed.

(** C1 does not hold: [update_learning_model] writes back the preferences
    it read before the adjustment pass, so a feedback event leaves the
    persisted weights as they were.  After five likes on (content, high)
    from a content weight of 0.7 the tally is five and the persisted weight
    is still 0.7. *)
Theorem C1_five_likes_keep_weight :
  exists d',
    feed_all 1 (replicate 5 (Sample.like Sample.content_high))
      (Sample.store Sample.row_0_7) = Some d'
    /\ stored_weight d' 1 "content" = Some F64.c0_7
    /\ (Db.pr_learning_data <$> Db.user_preferences d' !! 1)
       = Some {| Db.positive_feedback := 5; Db.negative_feedback := 0;
                 Db.learned_patterns :=
                   [("content_high"%string,
                     {| Db.likes := 5; Db.dislikes := 0 |})] |}.
Proof.
  eexists. split; [vm_compute; reflexivity|].
  split; vm_compute; reflexivity.
Qed.

(** C6: from a store in which every weight of the user lies in
    [[0.1, 1.0]], every finite sequence of feedback events runs to its end
    and leaves every persisted weight of the user in [[0.1, 1.0]]. *)
Theorem C6_weights_stay_in_range (evs : list feedback_event) (d : Db.t)
    (user_id : Z) (row : Db.prefs_row) :
  Db.lock_held d = false ->
  Db.user_preferences d !! user_id = Some row ->
  (forall k w, Db.pr_importance_weights row !! k = Some w -> in_range w) ->
  exists d' row',
    feed_all user_id evs d = Some d'
    /\ Db.user_preferences d' !! user_id = Some row'
    /\ forall k w, Db.pr_importance_weights row' !! k = Some w -> in_range w.
Proof.
  revert d row. induction evs as [|ev rest IH]; intros d row Hl Hr Hw.
  - exists d, row. split; [reflexivity|]. split; assumption.
  - destruct (record_feedback_weights d user_id row (fe_notification_id ev)
                (fe_feedback_type ev) (fe_change_data ev) Hl Hr)
      as (d1 & row1 & Hrun & Hl1 & Hr1 & Hw1).
    assert (Hfeed : feed user_id ev d = Some d1).
    { unfold feed. destruct Hrun as [-> | [e ->]]; reflexivity. }
    cbn [feed_all]. rewrite Hfeed.
    apply (IH d1 row1 Hl1 Hr1). rewrite Hw1. exact Hw.
Qed.

Lemma C6_weights_stay_in_range_witness :
  exists d' row',
    feed_all 1 (replicate 5 (Sample.like Sample.content_high))
      (Sample.store Sample.default_row) = Some d'
    /\ Db.user_preferences d' !! 1 = Some row'
    /\ forall k w, Db.pr_importance_weights row' !! k = Some w -> in_range w.
Proof.
  apply (C6_weights_stay_in_range _ (Sample.store Sample.default_row) 1
           Sample.default_row); [reflexivity | reflexivity |].
  intros k w. unfold Sample.default_row, Prefs.row_of_prefs, Prefs.default_prefs.
  simpl. intros H.
  destruct (decide (k = "content"%string)) as [->|];
    [rewrite lookup_insert_eq in H; injection H as <-; split; reflexivity|].
  rewrite lookup_insert_ne in H by congruence.
  destruct (decide (k = "design"%string)) as [->|];
    [rewrite lookup_insert_eq in H; injection H as <-; split; reflexivity|].
  rewrite lookup_insert_ne in H by congruence.
  destruct (decide (k = "technical"%string)) as [->|];
    [rewrite lookup_insert_eq in H; injection H as <-; split; reflexivity|].
  rewrite lookup_insert_ne in H by congruence.
  rewrite lookup_empty in H. discriminate.
Defined.

(** C2 does not hold for the importance of a summary: [max] compares the
    importance strings by their characters, so that [low] is larger than
    [high].  A queue holding a high and a low notification of one category
    and site is flushed into one summary of two details whose importance
    is [low]. *)
Theorem C2_summary_importance_is_string_max :
  exists summary,
    Grouper.get_grouped_notifications "1700000001.5" 1700000001 1
      Sample.queue_high_low
    = (inr [summary], <[1 := []]> Sample.queue_high_low)
    /\ Grouper.is_summary summary = true
    /\ Grouper.detailed_changes summary = ["first change"; "second change"]%string
    /\ Grouper.title summary = "🔔 2 обновлений на example.com"%string
    /\ Grouper.importance summary = "low"%string.
Proof.
  eexists. split; [vm_compute; reflexivity|].
  repeat split.
Qed.

Lemma C4_first_check_baseline_witness :
  exists d' site',
    Monitor.check_site Sample.digest Sample.no_diff Sample.site
      (Monitor.PageText Sample.page) 1700000000 Sample.site_store
      = Db.Ok [] d'
    /\ Db.check_errors d' = Db.check_errors Sample.site_store
    /\ Db.monitored_sites d' !! Db.ms_id Sample.site = Some site'
    /\ Db.ms_last_hash site' = Some (Sample.digest Sample.page)
    /\ Db.ms_last_checked site' = Some 1700000000.
Proof.
  apply (C4_first_check_baseline Sample.digest Sample.no_diff Sample.site_store
           Sample.site Sample.page 1700000000);
    [reflexivity | reflexivity | reflexivity | vm_compute; lia].
Defined.

Lemma C10_short_text_frame_witness :
  Monitor.check_site Sample.digest Sample.no_diff Sample.site
    (Monitor.PageText Sample.cyrillic_page) 1700000000 Sample.site_store
  = Db.Ok [] Sample.site_store
  /\ exists sites,
       Monitor.get_all_monitored_sites 1700000600 Sample.site_store
         = Db.Ok sites Sample.site_store
       /\ Sample.site ∈ sites.
Proof.
  destruct (C10_short_text_frame Sample.digest Sample.no_diff Sample.site_store
              Sample.site Sample.cyrillic_page 1700000000) as [H1 H2].
  - vm_compute. lia.
  - split; [exact H1|].
    apply (H2 1700000000 1700000600); [reflexivity | reflexivity | reflexivity | lia].
Defined.

(** *** The adjustment pass keeps the weights in range *)

Section RangeLemmas.
Import Db Prefs.

Lemma adjust_one_ok weights entry weights' :
  (forall k w, weights !! k = Some w -> weight_ok w) ->
  adjust_one weights entry = inr weights' ->
  forall k w, weights' !! k = Some w -> weight_ok w.
Proof.
  intros Hok. unfold adjust_one.
  destruct (3 <=? _); [|intros [= <-]; exact Hok].
  destruct (F64.truediv _ _) as [like_ratio|]; [|discriminate].
  assert (Hins : forall c w0 v, weights !! c = Some w0 -> weight_ok v ->
                   forall k w, <[c := v]> weights !! k = Some w -> weight_ok w).
  { intros c w0 v _ Hv k w. destruct (decide (c = k)) as [->|Hne].
    - rewrite lookup_insert_eq. intros [= <-]. exact Hv.
    - rewrite lookup_insert_ne by exact Hne. apply Hok. }
  destruct (F64.ltb F64.c0_7 like_ratio).
  - destruct (weights !! key_category entry.1) as [w0|] eqn:Hw; [|discriminate].
    intros [= <-]. apply (Hins _ w0); [exact Hw|].
    apply step_up. apply (Hok _ _ Hw).
  - destruct (F64.ltb like_ratio F64.c0_3).
    + destruct (weights !! key_category entry.1) as [w0|] eqn:Hw; [|discriminate].
      intros [= <-]. apply (Hins _ w0); [exact Hw|].
      apply step_down. apply (Hok _ _ Hw).
    + intros [= <-]. exact Hok.
Qed.

Lemma adjust_all_ok patterns : forall weights weights',
  (forall k w, weights !! k = Some w -> weight_ok w) ->
  adjust_all weights patterns = inr weights' ->
  forall k w, weights' !! k = Some w -> weight_ok w.
Proof.
  induction patterns as [|entry rest IH]; intros weights weights' Hok.
  - intros [= <-]. exact Hok.
  - cbn [adjust_all].
    destruct (adjust_one weights entry) as [e|w1] eqn:H1; [discriminate|].
    apply IH. exact (adjust_one_ok weights entry w1 Hok H1).
Qed.

(** Whatever the learned tallies, the weights that the adjustment pass
    persists are binary64 values in [[0.1, 1.0]] when those it read were. *)
Lemma adjust_importance_weights_in_range d user_id row l r :
  lock_held d = false ->
  user_preferences d !! user_id = Some row ->
  (forall k w, pr_importance_weights row !! k = Some w -> weight_ok w) ->
  adjust_importance_weights user_id l d = r ->
  match r with
  | Ok _ d' =>
      exists row', user_preferences d' !! user_id = Some row'
        /\ forall k w, pr_importance_weights row' !! k = Some w -> weight_ok w
  | Raise _ d' => d' = d
  | Hang => False
  end.
Proof.
  intros Hl Hr Hok <-.
  rewrite (adjust_importance_weights_row d user_id row l Hl Hr).
  destruct (adjust_all _ _) as [e|weights] eqn:Ha; [reflexivity|].
  eexists. split; [cbn; apply lookup_insert_eq|].
  cbn. exact (adjust_all_ok _ _ _ Hok Ha).
Qed.

End RangeLemmas.

(** The third like on (content, high) from a content weight of 0.7: the
    pass itself persists 0.7 + 0.1, which in binary64 is
    0.7999999999999999 and not the literal 0.8. *)
Example adjust_pass_third_like :
  exists d',
    Prefs.adjust_importance_weights 1
      {| Db.positive_feedback := 3; Db.negative_feedback := 0;
         Db.learned_patterns :=
           [("content_high"%string, {| Db.likes := 3; Db.dislikes := 0 |})] |}
      (Sample.store Sample.row_0_7) = Db.Ok tt d'
    /\ stored_weight d' 1 "content"
       = Some (S754_finite false 7205759403792793 (-53))
    /\ F64.lit 8 10 = S754_finite false 7205759403792794 (-53).
Proof.
  eexists. split; [vm_compute; reflexivity|]. split; vm_compute; reflexivity.
Qed.

(** A user without a stored row: the first read of the preferences writes
    the defaults from inside the connection block, where the lock is
    already held, and the feedback call never returns. *)
Example record_feedback_without_row_hangs :
  Prefs.record_feedback 2 "2_1700000000.0" "like" Sample.content_high
    (Sample.store Sample.default_row) = Db.Hang.
Proof. vm_compute. reflexivity. Qed.

(** *** The summary of a group *)

Section GrouperLemmas.
Import Grouper.

Lemma summaries_length notifications details :
  summaries notifications = inr details ->
  length details = length notifications.
Proof.
  revert details. induction notifications as [|n rest IH]; intros details.
  - intros [= <-]. reflexivity.
  - cbn [summaries]. destruct (personalized_summary n); [|discriminate].
    destruct (summaries rest) as [e|l]; [discriminate|].
    intros [= <-]. cbn [length]. rewrite (IH l eq_refl). reflexivity.
Qed.

(** A summary states the size of its group in the title and carries one
    detail per member; its importance is the largest string. *)
Lemma create_summary_notification_shape stamp now main rest summary :
  create_summary_notification stamp now (main :: rest) = inr summary ->
  is_summary summary = true
  /\ length (detailed_changes summary) = S (length rest)
  /\ title summary
     = ("🔔 " +:+ pretty (S (length rest)) +:+ " обновлений на "
          +:+ site_name main)%string
  /\ importance summary = max_importance (main :: rest).
Proof.
  unfold create_summary_notification.
  destruct (summaries (main :: rest)) as [e|details] eqn:Hs; [discriminate|].
  intros [= <-]. cbn.
  repeat split. apply (summaries_length _ _ Hs).
Qed.

End GrouperLemmas.

(** The two ends of the dead zone: seven likes out of ten give exactly the
    literal 0.7, and three out of ten the literal 0.3. *)
Example dead_zone_ends :
  like_ratio {| Db.likes := 7; Db.dislikes := 3 |} = F64.c0_7
  /\ like_ratio {| Db.likes := 3; Db.dislikes := 7 |} = F64.c0_3.
Proof. split; vm_compute; reflexivity. Qed.

(** The group key is the text [category_site]: two notifications of
    different categories and sites whose keys read the same are merged into
    one summary. *)
Example group_key_collision :
  let n1 :=
    {| Grouper.notification_id := "1_1"; Grouper.site_name := "c";
       Grouper.category := "a_b"; Grouper.importance := "high";
       Grouper.title := "t1"; Grouper.message := "m1";
       Grouper.personalized_summary := Some "first"%string;
       Grouper.is_summary := false; Grouper.detailed_changes := [];
       Grouper.timestamp := 1 |} in
  let n2 :=
    {| Grouper.notification_id := "1_2"; Grouper.site_name := "b_c";
       Grouper.category := "a"; Grouper.importance := "high";
       Grouper.title := "t2"; Grouper.message := "m2";
       Grouper.personalized_summary := Some "second"%string;
       Grouper.is_summary := false; Grouper.detailed_changes := [];
       Grouper.timestamp := 2 |} in
  exists summary,
    fst (Grouper.get_grouped_notifications "3.0" 3 1
           (Grouper.add_notification 1 n2 (Grouper.add_notification 1 n1 ∅)))
    = inr [summary]
    /\ Grouper.detailed_changes summary = ["first"; "second"]%string.
Proof. eexists. split; vm_compute; reflexivity. Qed.

(** *** Monotonicity of the threshold *)

Section MonotoneLemmas.
Import Db Prefs.

(** With each base score of the table, a product that reaches the
    threshold still reaches it for a larger weight. *)
Lemma score_monotone importance base w w' :
  base_importance_score importance = Some base ->
  F64.valid w = true -> F64.valid w' = true ->
  F64.ltb w w' = true ->
  F64.leb threshold (F64.mul base w) = true ->
  F64.leb threshold (F64.mul base w') = true.
Proof.
  unfold base_importance_score. intros Hb.
  assert (Hc : base = F64.c1_0 \/ base = F64.c0_5 \/ base = F64.c0_2).
  { destruct (String.eqb importance "high"); [left; congruence|].
    destruct (String.eqb importance "medium"); [right; left; congruence|].
    destruct (String.eqb importance "low"); [right; right; congruence|].
    discriminate. }
  unfold threshold, F64.c0_3, F64.leb, F64.mul, F64.ltb, F64.valid,
    F64.prec, F64.emax.
  destruct Hc as [-> | [-> | ->]];
    apply leb_mul_monotone; vm_compute; intuition discriminate.
Qed.
End MonotoneLemmas.

(** C7: [should_send_notification] is monotone in a weight: when it
    accepts an analysis with weight [w] for a category, it accepts the same
    analysis once that weight is replaced by any larger [w'], the preferred
    categories and the importance being what they were. *)
Theorem C7_should_notify_monotone (d : Db.t) (user_id : Z) (row : Db.prefs_row)
    (analysis : Prefs.change_data) (category : string) (w w' : F64.t) :
  Db.lock_held d = false ->
  Db.user_preferences d !! user_id = Some row ->
  Db.pr_importance_weights row !! category = Some w ->
  F64.valid w = true ->
  F64.valid w' = true ->
  F64.ltb w w' = true ->
  Prefs.should_send_notification user_id analysis d = Db.Ok true d ->
  let d' :=
    Db.set_user_preferences
      (<[user_id := with_row_weight category w' row]> (Db.user_preferences d)) d in
  Prefs.should_send_notification user_id analysis d' = Db.Ok true d'.
Proof.
  intros Hl Hr Hw Hv Hv' Hlt Hacc d'.
  assert (Hr' : Db.user_preferences d' !! user_id
                = Some (with_row_weight category w' row)).
  { unfold d'. simpl. apply lookup_insert_eq. }
  destruct (Prefs.cd_category analysis) as [c0|] eqn:Hc.
  - rewrite (should_send_notification_row d user_id row analysis c0 Hl Hr Hc) in Hacc.
    rewrite (should_send_notification_row d' user_id _ analysis c0 Hl Hr' Hc).
    cbn [with_row_weight Db.pr_preferred_categories Db.pr_importance_weights].
    destruct (negb _); [discriminate Hacc|].
    cbv zeta in *.
    destruct (Prefs.base_importance_score _) as [base|] eqn:Hb;
      [|discriminate Hacc].
    destruct (decide (category = c0)) as [->|Hne].
    + rewrite lookup_insert_eq. rewrite Hw in Hacc.
      unfold default in *. cbn [from_option id] in *.
      injection Hacc as Hacc.
      rewrite (score_monotone _ base w w' Hb Hv Hv' Hlt Hacc). reflexivity.
    + rewrite lookup_insert_ne by exact Hne.
      injection Hacc as Hacc. rewrite Hacc. reflexivity.
  - unfold Prefs.should_send_notification, Db.bind in Hacc.
    rewrite (get_user_preferences_row d user_id row Hl Hr), Hc in Hacc.
    cbn [Py.mem negb] in Hacc. discriminate Hacc.
Qed.

Lemma C7_should_notify_monotone_witness :
  let d := Sample.store Sample.row_0_7 in
  let d' :=
    Db.set_user_preferences
      (<[1 := with_row_weight "content" F64.c1_0 Sample.row_0_7]>
         (Db.user_preferences d)) d in
  Prefs.should_send_notification 1 Sample.content_high d = Db.Ok true d
  /\ Prefs.should_send_notification 1 Sample.content_high d' = Db.Ok true d'.
Proof.
  split; [reflexivity|].
  apply (C7_should_notify_monotone (Sample.store Sample.row_0_7) 1
           Sample.row_0_7 Sample.content_high "content" F64.c0_7 F64.c1_0);
    reflexivity.
Defined.

(** * Further properties of the code *)

(** ** Insertion-ordered dictionaries *)

Section DictLemmas.
Context {V : Type}.
Implicit Types (d : list (string * V)) (k : string) (v : V).

Lemma dict_get_None k d : Py.get k d = None <-> k ∉ map fst d.
Proof.
  induction d as [|[k' v'] rest IH]; cbn [Py.get map fst].
  - split; [intros _; apply not_elem_of_nil | reflexivity].
  - rewrite not_elem_of_cons. destruct (String.eqb_spec k k') as [->|Hne].
    + split; [discriminate | intros [H _]; congruence].
    + rewrite IH. tauto.
Qed.

Lemma dict_set_absent k v d :
  Py.get k d = None -> Py.set k v d = d ++ [(k, v)].
Proof.
  induction d as [|[k' v'] rest IH]; cbn [Py.get Py.set app]; [reflexivity|].
  destruct (String.eqb k k'); [discriminate|].
  intros H. rewrite (IH H). reflexivity.
Qed.

Lemma dict_set_keys k v v0 d :
  Py.get k d = Some v0 -> map fst (Py.set k v d) = map fst d.
Proof.
  induction d as [|[k' v'] rest IH]; cbn [Py.get Py.set map fst]; [discriminate|].
  destruct (String.eqb k k'); [reflexivity|].
  intros H. cbn [map fst]. rewrite (IH H). reflexivity.
Qed.

Lemma dict_get_set_eq k v d : Py.get k (Py.set k v d) = Some v.
Proof.
  induction d as [|[k' v'] rest IH]; cbn [Py.get Py.set].
  - rewrite String.eqb_refl. reflexivity.
  - destruct (String.eqb_spec k k') as [->|Hne]; cbn [Py.get].
    + rewrite String.eqb_refl. reflexivity.
    + destruct (String.eqb_spec k k'); [congruence | exact IH].
Qed.

Lemma dict_get_set_ne k k' v d :
  k <> k' -> Py.get k' (Py.set k v d) = Py.get k' d.
Proof.
  intros Hne. induction d as [|[k0 v0] rest IH]; cbn [Py.get Py.set].
  - destruct (String.eqb_spec k' k); [congruence | reflexivity].
  - destruct (String.eqb_spec k k0) as [->|H0]; cbn [Py.get].
    + destruct (String.eqb_spec k' k0); [congruence | reflexivity].
    + destruct (String.eqb k' k0); [reflexivity | exact IH].
Qed.

End DictLemmas.

(** ** The grouper *)

Section GroupingLemmas.
Import Grouper.

Lemma group_append_new grouped n :
  group_key n ∉ map fst grouped ->
  group_append grouped n = grouped ++ [(group_key n, [n])].
Proof.
  intros H. apply dict_get_None in H. unfold group_append.
  rewrite H. cbn [default from_option app]. apply dict_set_absent. exact H.
Qed.

Lemma fold_group_same_key k ns : forall g,
  Forall (fun n => group_key n = k) ns ->
  fold_left group_append ns [(k, g)] = [(k, g ++ ns)].
Proof.
  induction ns as [|n rest IH]; intros g Hall; cbn [fold_left].
  - rewrite app_nil_r. reflexivity.
  - apply Forall_cons in Hall. destruct Hall as [Hk Hrest].
    unfold group_append at 2. rewrite Hk. cbn [Py.get Py.set].
    rewrite String.eqb_refl. cbn [default from_option id].
    rewrite (IH _ Hrest). rewrite <- app_assoc. reflexivity.
Qed.

Lemma fold_group_distinct ns : forall grouped,
  NoDup (map fst grouped ++ map group_key ns) ->
  fold_left group_append ns grouped
  = grouped ++ map (fun n => (group_key n, [n])) ns.
Proof.
  induction ns as [|n rest IH]; intros grouped Hnd; cbn [fold_left map].
  - rewrite app_nil_r. reflexivity.
  - cbn [map] in Hnd. apply NoDup_app in Hnd. destruct Hnd as (Hg & Hdis & Hns).
    apply NoDup_cons in Hns. destruct Hns as [Hn Hrest].
    rewrite group_append_new
      by (intros Hin; apply (Hdis _ Hin); apply list_elem_of_here).
    rewrite IH.
    + rewrite <- app_assoc. reflexivity.
    + rewrite map_app. cbn [map fst]. rewrite <- app_assoc. cbn [app].
      apply NoDup_app. split; [exact Hg|]. split.
      * intros x Hx Hx'. apply (Hdis x Hx). exact Hx'.
      * apply NoDup_cons. split; assumption.
Qed.

Lemma summarize_singles stamp now ns :
  summarize stamp now (map (fun n => (group_key n, [n])) ns) = inr ns.
Proof.
  induction ns as [|n rest IH]; cbn [map summarize]; [reflexivity|].
  rewrite IH. reflexivity.
Qed.

Lemma summarize_length stamp now groups l :
  summarize stamp now groups = inr l -> length l = length groups.
Proof.
  revert l. induction groups as [|[k g] rest IH]; intros l; cbn [summarize].
  - intros [= <-]. reflexivity.
  - destruct (match g with [single] => inr single | _ => _ end) as [e|n];
      [discriminate|].
    destruct (summarize stamp now rest) as [e|l']; [discriminate|].
    intros [= <-]. cbn [length]. rewrite (IH l' eq_refl). reflexivity.
Qed.

(** The keys of the groups are the keys seen, each once. *)
Lemma fold_group_keys ns : forall grouped,
  NoDup (map fst grouped) ->
  NoDup (map fst (fold_left group_append ns grouped))
  /\ forall k, k ∈ map fst (fold_left group_append ns grouped)
               <-> k ∈ map fst grouped \/ k ∈ map group_key ns.
Proof.
  induction ns as [|n rest IH]; intros grouped Hnd; cbn [fold_left map].
  - split; [exact Hnd|]. intros k. rewrite elem_of_nil. tauto.
  - assert (Hstep : NoDup (map fst (group_append grouped n))
                    /\ forall k, k ∈ map fst (group_append grouped n)
                                 <-> k ∈ map fst grouped \/ k = group_key n).
    { unfold group_append.
      destruct (Py.get (group_key n) grouped) as [g|] eqn:Hg.
      - rewrite (dict_set_keys _ _ g _ Hg). split; [exact Hnd|].
        intros k. split; [tauto|]. intros [H| ->]; [exact H|].
        destruct (decide (group_key n ∈ map fst grouped)) as [Hin|Hout];
          [exact Hin|]. apply dict_get_None in Hout. congruence.
      - rewrite (dict_set_absent _ _ _ Hg). rewrite map_app. cbn [map fst].
        split.
        + apply NoDup_app. split; [exact Hnd|]. split.
          * intros x Hx Hx'. apply list_elem_of_singleton in Hx'. subst x.
            apply dict_get_None in Hg. contradiction.
          * apply NoDup_singleton.
        + intros k. rewrite elem_of_app, list_elem_of_singleton. tauto. }
    destruct Hstep as [Hnd1 Hk1].
    destruct (IH _ Hnd1) as [Hnd2 Hk2]. split; [exact Hnd2|].
    intros k. rewrite Hk2, Hk1, elem_of_cons. tauto.
Qed.

Lemma flush_nonempty stamp now user_id (p : pending) n ns :
  p !! user_id = Some (n :: ns) ->
  get_grouped_notifications stamp now user_id p
  = match summarize stamp now (group_all (n :: ns)) with
    | inl e => (inl e, p)
    | inr l => (inr l, <[user_id := []]> p)
    end.
Proof.
  intros Hp. unfold get_grouped_notifications. rewrite Hp. reflexivity.
Qed.

End GroupingLemmas.

(** X1.  A flush that returns empties the queue of the user and no other
    queue: a second flush right after it returns the empty list and
    changes nothing. *)
Theorem flush_drains (stamp : string) (now : Z) (user_id : Z)
    (p p' : Grouper.pending) (l : list Grouper.notification) :
  Grouper.get_grouped_notifications stamp now user_id p = (inr l, p') ->
  (forall stamp' now',
      Grouper.get_grouped_notifications stamp' now' user_id p' = (inr [], p'))
  /\ forall other, other <> user_id -> p' !! other = p !! other.
Proof.
  unfold Grouper.get_grouped_notifications, Grouper.pending in *.
  destruct (default [] (p !! user_id)) as [|n ns] eqn:Hq.
  - intros [= <- <-]. split; [|reflexivity].
    intros stamp' now'. rewrite Hq. reflexivity.
  - destruct (Grouper.summarize _ _ _) as [e|l']; [discriminate|].
    intros [= <- <-]. split.
    + intros stamp' now'. rewrite lookup_insert_eq. reflexivity.
    + intros other Hne. apply lookup_insert_ne. congruence.
Qed.

Lemma flush_drains_witness :
  exists l p',
    Grouper.get_grouped_notifications "1700000001.5" 1700000001 1
      Sample.queue_high_low = (inr l, p')
    /\ Grouper.get_grouped_notifications "1700000002.5" 1700000002 1 p'
       = (inr [], p').
Proof.
  destruct (Grouper.get_grouped_notifications "1700000001.5" 1700000001 1
              Sample.queue_high_low) as [[e|l] p'] eqn:H;
    [vm_compute in H; discriminate H|].
  exists l, p'. split; [reflexivity|].
  apply (flush_drains _ _ _ _ _ _ H).
Defined.

(** X2.  When the pending notifications of a user have pairwise different
    group keys, the flush returns them unchanged and in the order in which
    they were added. *)
Theorem flush_distinct_keys (stamp : string) (now : Z) (user_id : Z)
    (p : Grouper.pending) (n : Grouper.notification)
    (ns : list Grouper.notification) :
  p !! user_id = Some (n :: ns) ->
  NoDup (map Grouper.group_key (n :: ns)) ->
  Grouper.get_grouped_notifications stamp now user_id p
  = (inr (n :: ns), <[user_id := []]> p).
Proof.
  intros Hp Hnd. rewrite (flush_nonempty _ _ _ _ _ _ Hp).
  unfold Grouper.group_all.
  rewrite (fold_group_distinct (n :: ns) []) by exact Hnd.
  cbn [app]. rewrite summarize_singles. reflexivity.
Qed.

Lemma flush_distinct_keys_witness :
  Grouper.get_grouped_notifications "1700000001.5" 1700000001 1
    Fixtures.queue_content_design
  = (inr [Sample.notice "1_1" "high" "first change"; Fixtures.design_notice],
     <[1 := []]> Fixtures.queue_content_design).
Proof.
  apply (flush_distinct_keys "1700000001.5" 1700000001 1
           Fixtures.queue_content_design
           (Sample.notice "1_1" "high" "first change")
           [Fixtures.design_notice]).
  - reflexivity.
  - apply (bool_decide_unpack _). vm_compute. reflexivity.
Defined.

(** X3.  When two or more pending notifications all have the group key of
    the first, the flush returns exactly one notification, a summary: it
    carries the site and the category of the first, the size of the group
    in its title and the personalized summaries of the group in order. *)
Theorem flush_same_key (stamp : string) (now : Z) (user_id : Z)
    (p : Grouper.pending) (n1 n2 : Grouper.notification)
    (rest : list Grouper.notification) (details : list string) :
  p !! user_id = Some (n1 :: n2 :: rest) ->
  Forall (fun n => Grouper.group_key n = Grouper.group_key n1) (n2 :: rest) ->
  map Grouper.personalized_summary (n1 :: n2 :: rest) = map Some details ->
  exists summary,
    Grouper.get_grouped_notifications stamp now user_id p
    = (inr [summary], <[user_id := []]> p)
    /\ Grouper.is_summary summary = true
    /\ Grouper.detailed_changes summary = details
    /\ Grouper.site_name summary = Grouper.site_name n1
    /\ Grouper.category summary = Grouper.category n1
    /\ Grouper.notification_id summary = ("summary_" +:+ stamp)%string
    /\ Grouper.title summary
       = ("🔔 " +:+ pretty (length (n1 :: n2 :: rest)) +:+ " обновлений на "
            +:+ Grouper.site_name n1)%string.
Proof.
  intros Hp Hkey Hsum. rewrite (flush_nonempty _ _ _ _ _ _ Hp).
  unfold Grouper.group_all.
  change (fold_left Grouper.group_append (n1 :: n2 :: rest) [])
    with (fold_left Grouper.group_append (n2 :: rest)
            (Grouper.group_append [] n1)).
  rewrite (group_append_new [] n1) by apply not_elem_of_nil. cbn [app].
  rewrite (fold_group_same_key _ (n2 :: rest) [n1] Hkey). cbn [app].
  assert (Hs : Grouper.summaries (n1 :: n2 :: rest) = inr details).
  { revert details Hsum. generalize (n1 :: n2 :: rest).
    induction l as [|n l IH]; intros details Hsum.
    - destruct details; [reflexivity | discriminate].
    - destruct details as [|s details]; [discriminate|].
      cbn [map] in Hsum. injection Hsum as Hn Hl.
      cbn [Grouper.summaries]. rewrite Hn, (IH details Hl). reflexivity. }
  cbn [Grouper.summarize]. unfold Grouper.create_summary_notification.
  rewrite Hs. eexists. split; [reflexivity|]. cbn. repeat split.
Qed.

Lemma flush_same_key_witness :
  exists summary,
    Grouper.get_grouped_notifications "1700000001.5" 1700000001 1
      Sample.queue_high_low
    = (inr [summary], <[1 := []]> Sample.queue_high_low)
    /\ Grouper.detailed_changes summary = ["first change"; "second change"]%string.
Proof.
  destruct (flush_same_key "1700000001.5" 1700000001 1 Sample.queue_high_low
              (Sample.notice "1_1" "high" "first change")
              (Sample.notice "1_2" "low" "second change") []
              ["first change"; "second change"]%string)
    as (summary & H & _ & Hd & _).
  - reflexivity.
  - repeat constructor.
  - reflexivity.
  - exists summary. split; [exact H | exact Hd].
Defined.

(** X4.  A flush that returns hands back one notification per distinct
    group key of the queue. *)
Theorem flush_one_per_key (stamp : string) (now : Z) (user_id : Z)
    (p p' : Grouper.pending) (ns l : list Grouper.notification) :
  p !! user_id = Some ns ->
  Grouper.get_grouped_notifications stamp now user_id p = (inr l, p') ->
  length l = length (remove_dups (map Grouper.group_key ns)).
Proof.
  intros Hp. destruct ns as [|n ns].
  - unfold Grouper.get_grouped_notifications. rewrite Hp.
    intros [= <- _]. reflexivity.
  - rewrite (flush_nonempty _ _ _ _ _ _ Hp).
    destruct (Grouper.summarize _ _ _) as [e|l'] eqn:Hs; [discriminate|].
    intros [= <- _]. rewrite (summarize_length _ _ _ _ Hs).
    destruct (fold_group_keys (n :: ns) [] (NoDup_nil_2)) as [Hnd Hk].
    fold (Grouper.group_all (n :: ns)) in Hnd, Hk.
    rewrite <- (length_map fst (Grouper.group_all (n :: ns))).
    apply Permutation_length. apply NoDup_Permutation.
    + exact Hnd.
    + apply NoDup_remove_dups.
    + intros k. rewrite Hk, elem_of_remove_dups, elem_of_nil. tauto.
Qed.

Lemma flush_one_per_key_witness :
  exists l p',
    Grouper.get_grouped_notifications "1700000001.5" 1700000001 1
      Sample.queue_high_low = (inr l, p')
    /\ length l = 1%nat.
Proof.
  destruct (Grouper.get_grouped_notifications "1700000001.5" 1700000001 1
              Sample.queue_high_low) as [[e|l] p'] eqn:H;
    [vm_compute in H; discriminate H|].
  exists l, p'. split; [reflexivity|].
  apply (flush_one_per_key "1700000001.5" 1700000001 1 Sample.queue_high_low p'
           [Sample.notice "1_1" "high" "first change";
            Sample.notice "1_2" "low" "second change"] l eq_refl H).
Defined.

(** ** Splitting and joining *)

Section SplitLemmas.

Lemma append_nil_l (s : string) : EmptyString +:+ s = s.
Proof. reflexivity. Qed.

Lemma append_cons (c : ascii) (a b : string) :
  String c a +:+ b = String c (a +:+ b).
Proof. reflexivity. Qed.

Lemma split_on_nonempty sep s : Py.split_on sep s <> [].
Proof.
  destruct s as [|c s']; cbn [Py.split_on]; [discriminate|].
  destruct (Ascii.eqb c sep); [discriminate|].
  destruct (Py.split_on sep s'); discriminate.
Qed.

Lemma join_cons_nonempty sep x y l :
  Py.join sep (x :: y :: l) = x +:+ sep +:+ Py.join sep (y :: l).
Proof. reflexivity. Qed.

Lemma join_split sep s :
  Py.join (String sep EmptyString) (Py.split_on sep s) = s.
Proof.
  induction s as [|c s' IH]; [reflexivity|].
  cbn [Py.split_on]. destruct (Ascii.eqb_spec c sep) as [->|Hne].
  - destruct (Py.split_on sep s') as [|h t] eqn:Hs;
      [exfalso; exact (split_on_nonempty _ _ Hs)|].
    rewrite join_cons_nonempty, IH. reflexivity.
  - destruct (Py.split_on sep s') as [|h t] eqn:Hs;
      [exfalso; exact (split_on_nonempty _ _ Hs)|].
    rewrite <- IH. destruct t; reflexivity.
Qed.

Lemma split_on_plain sep x :
  contains_char sep x = false -> Py.split_on sep x = [x].
Proof.
  induction x as [|c x' IH]; cbn [contains_char Py.split_on]; [reflexivity|].
  intros H. apply orb_false_iff in H. destruct H as [Hc Hx].
  rewrite Hc, (IH Hx). reflexivity.
Qed.

Lemma split_on_app sep x rest :
  contains_char sep x = false ->
  Py.split_on sep (x +:+ String sep rest) = x :: Py.split_on sep rest.
Proof.
  induction x as [|c x' IH]; cbn [contains_char].
  - intros _. rewrite append_nil_l. cbn [Py.split_on].
    rewrite Ascii.eqb_refl. reflexivity.
  - intros H. apply orb_false_iff in H. destruct H as [Hc Hx].
    rewrite append_cons. cbn [Py.split_on]. rewrite Hc, (IH Hx). reflexivity.
Qed.

Lemma split_join sep x l :
  Forall (fun y => contains_char sep y = false) (x :: l) ->
  Py.split_on sep (Py.join (String sep EmptyString) (x :: l)) = x :: l.
Proof.
  revert x. induction l as [|y l IH]; intros x Hall.
  - apply Forall_cons in Hall. apply split_on_plain, Hall.
  - apply Forall_cons in Hall. destruct Hall as [Hx Hl].
    rewrite join_cons_nonempty.
    change (String sep EmptyString +:+ Py.join (String sep EmptyString) (y :: l))
      with (String sep (Py.join (String sep EmptyString) (y :: l))).
    rewrite (split_on_app sep x _ Hx), (IH y Hl). reflexivity.
Qed.

Lemma split_once_prefix sep x rest :
  contains_char sep x = false ->
  split_once sep (x +:+ String sep rest) = [x; rest].
Proof.
  induction x as [|c x' IH]; cbn [contains_char].
  - intros _. rewrite append_nil_l. cbn [split_once].
    rewrite Ascii.eqb_refl. reflexivity.
  - intros H. apply orb_false_iff in H. destruct H as [Hc Hx].
    rewrite append_cons. cbn [split_once]. rewrite Hc, (IH Hx). reflexivity.
Qed.

Lemma key_category_app x rest :
  contains_char "_" x = false ->
  Prefs.key_category (x +:+ String "_" rest) = x.
Proof.
  intros H. unfold Prefs.key_category. rewrite (split_on_app _ _ _ H).
  reflexivity.
Qed.

Lemma app_assoc_string (a b c : string) : (a +:+ b) +:+ c = a +:+ (b +:+ c).
Proof.
  induction a as [|x a IH]; [reflexivity|].
  rewrite !append_cons, IH. reflexivity.
Qed.

Lemma take_nat_length s : forall n, (Py.len (Py.take_nat n s) <= n)%nat.
Proof.
  induction s as [|c s' IH]; intros n; cbn [Py.take_nat Py.len]; [lia|].
  destruct (Py.is_continuation c) eqn:Hc.
  - cbn [Py.len]. rewrite Hc. apply IH.
  - destruct n as [|n']; cbn [Py.len]; [lia|].
    rewrite Hc. specialize (IH n'). lia.
Qed.

Lemma take_length n s : 0 <= n -> Z.of_nat (Py.len (Py.take n s)) <= n.
Proof.
  intros Hn. unfold Py.take. pose proof (take_nat_length s (Z.to_nat n)). lia.
Qed.

Lemma take_short n s :
  Z.of_nat (Py.len s) <= n -> Py.take n s = s.
Proof.
  unfold Py.take. intros H.
  assert (Hn : (Py.len s <= Z.to_nat n)%nat) by lia.
  clear H. revert Hn. generalize (Z.to_nat n). intros k. revert k.
  induction s as [|c s' IH]; intros k Hk; cbn [Py.take_nat Py.len] in *;
    [reflexivity|].
  destruct (Py.is_continuation c).
  - rewrite IH by exact Hk. reflexivity.
  - destruct k as [|k]; [lia|]. rewrite IH by lia. reflexivity.
Qed.

End SplitLemmas.

(** ** Preferences: persistence round trips *)

Section PrefsRoundTrip.
Import Db Prefs.

Lemma row_roundtrip row : row_of_prefs (prefs_of_row row) = row.
Proof.
  destruct row as [cats w f l]. unfold row_of_prefs, prefs_of_row. cbn.
  rewrite (join_split "," cats). reflexivity.
Qed.

Lemma set_user_preferences_same d :
  set_user_preferences (user_preferences d) d = d.
Proof. destruct d; reflexivity. Qed.

End PrefsRoundTrip.

(** X5.  Reading the preferences of a user and writing them back changes
    nothing that the program reads: the call returns with the lock free,
    a read after it returns the preferences that were read before it, and
    the rows of the other users and the other tables are as they were.
    (The row is replaced all the same, and its two time stamps, which are
    not part of the row here, are set anew.) *)
Theorem read_write_preferences (d : Db.t) (user_id : Z) (row : Db.prefs_row) :
  Db.lock_held d = false ->
  Db.user_preferences d !! user_id = Some row ->
  exists d',
    (do prefs <~ Prefs.get_user_preferences user_id;
     Prefs.update_user_preferences user_id prefs) d = Db.Ok tt d'
    /\ Db.lock_held d' = false
    /\ Prefs.get_user_preferences user_id d' = Db.Ok (Prefs.prefs_of_row row) d'
    /\ (forall other, other <> user_id ->
          Db.user_preferences d' !! other = Db.user_preferences d !! other)
    /\ Db.users d' = Db.users d
    /\ Db.monitored_sites d' = Db.monitored_sites d
    /\ Db.user_feedback d' = Db.user_feedback d
    /\ Db.notification_history d' = Db.notification_history d
    /\ Db.check_errors d' = Db.check_errors d.
Proof.
  intros Hl Hr. unfold Db.bind.
  rewrite (get_user_preferences_row d user_id row Hl Hr).
  rewrite (update_user_preferences_idle d user_id _ Hl).
  eexists. split; [reflexivity|].
  cbn [Db.lock_held Db.users Db.monitored_sites Db.user_feedback
       Db.notification_history Db.check_errors Db.user_preferences
       Db.set_user_preferences].
  split; [exact Hl|]. split.
  - erewrite get_user_preferences_row; [| exact Hl |].
    + reflexivity.
    + cbn [Db.user_preferences Db.set_user_preferences].
      rewrite lookup_insert_eq, row_roundtrip. reflexivity.
  - split; [intros other Hne; apply lookup_insert_ne; congruence|].
    repeat split.
Qed.

Lemma read_write_preferences_witness :
  exists d',
    (do prefs <~ Prefs.get_user_preferences 1;
     Prefs.update_user_preferences 1 prefs) (Sample.store Sample.commerce_row)
    = Db.Ok tt d'
    /\ Prefs.get_user_preferences 1 d'
       = Db.Ok (Prefs.prefs_of_row Sample.commerce_row) d'.
Proof.
  destruct (read_write_preferences (Sample.store Sample.commerce_row) 1
              Sample.commerce_row eq_refl eq_refl) as (d' & H & _ & Hg & _).
  exists d'. split; [exact H | exact Hg].
Defined.

(** X6.  Writing preferences and reading them back returns them when the
    list of preferred categories is not empty and no category contains a
    comma; an empty list is read back as the list of one empty string. *)
Theorem write_read_preferences (d : Db.t) (user_id : Z) (p : Prefs.preferences) :
  Db.lock_held d = false ->
  exists d' p',
    (do _ <~ Prefs.update_user_preferences user_id p;
     Prefs.get_user_preferences user_id) d = Db.Ok p' d'
    /\ Prefs.importance_weights p' = Prefs.importance_weights p
    /\ Prefs.learning_data p' = Prefs.learning_data p
    /\ Prefs.notification_frequency p' = Prefs.notification_frequency p
    /\ (Prefs.preferred_categories p <> [] ->
        Forall (fun c => contains_char "," c = false) (Prefs.preferred_categories p) ->
        p' = p)
    /\ (Prefs.preferred_categories p = [] ->
        Prefs.preferred_categories p' = [EmptyString]).
Proof.
  intros Hl. unfold Db.bind.
  rewrite (update_user_preferences_idle d user_id p Hl).
  erewrite get_user_preferences_row;
    [|exact Hl | cbn; apply lookup_insert_eq].
  eexists. eexists. split; [reflexivity|].
  destruct p as [cats w f l].
  unfold Prefs.prefs_of_row, Prefs.row_of_prefs.
  cbn [Prefs.preferred_categories Prefs.importance_weights
       Prefs.notification_frequency Prefs.learning_data
       Db.pr_preferred_categories Db.pr_importance_weights
       Db.pr_notification_frequency Db.pr_learning_data].
  repeat split.
  - intros Hne Hall. destruct cats as [|x rest]; [congruence|].
    rewrite (split_join "," x rest Hall). reflexivity.
  - intros ->. reflexivity.
Qed.

Lemma write_read_preferences_witness :
  exists d',
    (do _ <~ Prefs.update_user_preferences 5 Prefs.default_prefs;
     Prefs.get_user_preferences 5) (Sample.store Sample.default_row)
    = Db.Ok Prefs.default_prefs d'.
Proof.
  destruct (write_read_preferences (Sample.store Sample.default_row) 5
              Prefs.default_prefs eq_refl)
    as (d' & p' & H & _ & _ & _ & Hp & _).
  exists d'. rewrite H. f_equal. apply Hp; [discriminate|].
  repeat constructor.
Defined.

(** X7.  The category that the adjustment pass reads back from a pattern
    key is the category of the feedback when that has no underscore;
    otherwise it is the part before its first underscore.  A missing
    category is read back as the text [None]. *)
Theorem pattern_key_category (cd : Prefs.change_data) :
  (forall c, Prefs.cd_category cd = Some c ->
     contains_char "_" c = false ->
     Prefs.key_category (Prefs.pattern_key cd) = c)
  /\ (forall a b, Prefs.cd_category cd = Some (a +:+ String "_" b) ->
        contains_char "_" a = false ->
        Prefs.key_category (Prefs.pattern_key cd) = a)
  /\ (Prefs.cd_category cd = None ->
      Prefs.key_category (Prefs.pattern_key cd) = "None"%string).
Proof.
  unfold Prefs.pattern_key. split; [|split].
  - intros c -> Hc. cbn [Py.str].
    change ("_" +:+ Py.str (Prefs.cd_importance cd))
      with (String "_" (Py.str (Prefs.cd_importance cd))).
    apply key_category_app. exact Hc.
  - intros a b -> Ha. cbn [Py.str].
    rewrite app_assoc_string, append_cons.
    apply key_category_app. exact Ha.
  - intros ->. cbn [Py.str].
    change ("_" +:+ Py.str (Prefs.cd_importance cd))
      with (String "_" (Py.str (Prefs.cd_importance cd))).
    apply key_category_app. reflexivity.
Qed.

(** ** Feedback: what an event records *)

Section LearnLemmas.
Import Db Prefs.

Lemma learn_patterns feedback_type cd l :
  learned_patterns (learn feedback_type cd l)
  = Py.set (pattern_key cd)
      (bump_tally feedback_type
         (default zero_tally (Py.get (pattern_key cd) (learned_patterns l))))
      (match Py.get (pattern_key cd) (learned_patterns l) with
       | Some _ => learned_patterns l
       | None => Py.set (pattern_key cd) zero_tally (learned_patterns l)
       end).
Proof.
  unfold learn, count_pattern, ensure_pattern.
  assert (Hc : learned_patterns (count_feedback feedback_type l)
               = learned_patterns l).
  { unfold count_feedback. destruct (is_like _); [reflexivity|].
    destruct (is_negative _); reflexivity. }
  rewrite Hc.
  destruct (Py.get (pattern_key cd) (learned_patterns l)) as [c|] eqn:Hg.
  - rewrite Hc, Hg. reflexivity.
  - cbn [learned_patterns]. rewrite dict_get_set_eq. reflexivity.
Qed.

Lemma learn_get_own feedback_type cd l :
  Py.get (pattern_key cd) (learned_patterns (learn feedback_type cd l))
  = Some (bump_tally feedback_type
            (default zero_tally (Py.get (pattern_key cd) (learned_patterns l)))).
Proof. rewrite learn_patterns. apply dict_get_set_eq. Qed.

Lemma learn_get_other feedback_type cd l k :
  k <> pattern_key cd ->
  Py.get k (learned_patterns (learn feedback_type cd l))
  = Py.get k (learned_patterns l).
Proof.
  intros Hne. rewrite learn_patterns.
  rewrite dict_get_set_ne by congruence.
  destruct (Py.get (pattern_key cd) (learned_patterns l)); [reflexivity|].
  apply dict_get_set_ne. congruence.
Qed.

Lemma sum_likes_set k v d :
  sum_likes (Py.set k v d)
  = sum_likes d + likes v - likes (default zero_tally (Py.get k d)).
Proof.
  induction d as [|[k' v'] rest IH]; cbn [Py.set Py.get sum_likes fold_right snd].
  - cbn. lia.
  - destruct (String.eqb k k'); cbn [sum_likes fold_right snd default from_option id].
    + lia.
    + fold (sum_likes rest). fold (sum_likes (Py.set k v rest)). rewrite IH. lia.
Qed.

Lemma sum_dislikes_set k v d :
  sum_dislikes (Py.set k v d)
  = sum_dislikes d + dislikes v - dislikes (default zero_tally (Py.get k d)).
Proof.
  induction d as [|[k' v'] rest IH]; cbn [Py.set Py.get sum_dislikes fold_right snd].
  - cbn. lia.
  - destruct (String.eqb k k'); cbn [sum_dislikes fold_right snd default from_option id].
    + lia.
    + fold (sum_dislikes rest). fold (sum_dislikes (Py.set k v rest)).
      rewrite IH. lia.
Qed.

Lemma learn_counters feedback_type cd l :
  counters_agree l -> counters_agree (learn feedback_type cd l).
Proof.
  unfold counters_agree. intros [Hp Hn].
  rewrite learn_patterns.
  assert (Hpos : positive_feedback (learn feedback_type cd l)
                 = positive_feedback l + (if is_like feedback_type then 1 else 0)).
  { unfold learn, count_pattern, ensure_pattern, count_feedback.
    destruct (is_like feedback_type); [|destruct (is_negative feedback_type)];
      repeat (destruct (Py.get _ _); cbn); lia. }
  assert (Hneg : negative_feedback (learn feedback_type cd l)
                 = negative_feedback l
                   + (if is_like feedback_type then 0
                      else if is_negative feedback_type then 1 else 0)).
  { unfold learn, count_pattern, ensure_pattern, count_feedback.
    destruct (is_like feedback_type); [|destruct (is_negative feedback_type)];
      repeat (destruct (Py.get _ _); cbn); lia. }
  rewrite Hpos, Hneg, sum_likes_set, sum_dislikes_set.
  destruct (Py.get (pattern_key cd) (learned_patterns l)) as [c|] eqn:Hg.
  - rewrite Hg. cbn [default from_option id]. unfold bump_tally.
    destruct (is_like feedback_type); [|destruct (is_negative feedback_type)];
      cbn [likes dislikes]; lia.
  - rewrite dict_get_set_eq, sum_likes_set, sum_dislikes_set, Hg.
    cbn [default from_option id]. unfold bump_tally, zero_tally.
    destruct (is_like feedback_type); [|destruct (is_negative feedback_type)];
      cbn [likes dislikes]; lia.
Qed.

End LearnLemmas.

(** X8.  A feedback event always lands in the feedback table and marks
    its notification as answered, whether or not the learning update that
    follows raises: the first block is committed before the update
    starts. *)
Theorem record_feedback_always_logs (d : Db.t) (user_id : Z) (row : Db.prefs_row)
    (notification_id feedback_type : string) (cd : Prefs.change_data) :
  Db.lock_held d = false ->
  Db.user_preferences d !! user_id = Some row ->
  exists d',
    (Prefs.record_feedback user_id notification_id feedback_type cd d = Db.Ok tt d'
     \/ exists e, Prefs.record_feedback user_id notification_id feedback_type cd d
                  = Db.Raise e d')
    /\ Db.user_feedback d'
       = Db.user_feedback d ++
           [{| Db.fb_user_id := user_id; Db.fb_notification_id := notification_id;
               Db.fb_feedback_type := feedback_type;
               Db.fb_change_category := Prefs.cd_category cd;
               Db.fb_importance_level := Prefs.cd_importance cd |}]
    /\ Db.notification_history d'
       = map (Prefs.mark_feedback_received notification_id user_id)
           (Db.notification_history d).
Proof.
  intros Hl Hr.
  rewrite (record_feedback_row d user_id row _ _ _ Hl Hr). cbv zeta.
  destruct (Prefs.adjust_all _ _) as [e|w].
  - eexists. split; [right; eexists; reflexivity|]. split; reflexivity.
  - eexists. split; [left; reflexivity|]. split; reflexivity.
Qed.

Lemma record_feedback_always_logs_witness :
  exists d',
    Prefs.record_feedback 1 "1_1700000000.0" "like" Sample.commerce_high
      (Sample.store Sample.commerce_row)
    = Db.Raise (Py.KeyError "commerce") d'
    /\ length (Db.user_feedback d') = 1%nat.
Proof.
  destruct (record_feedback_always_logs (Sample.store Sample.commerce_row) 1
              Sample.commerce_row "1_1700000000.0" "like" Sample.commerce_high
              eq_refl eq_refl) as (d' & [H | [e H]] & Hf & _).
  - exfalso. vm_compute in H. discriminate H.
  - exists d'. split; [|rewrite Hf; reflexivity].
    rewrite H. f_equal. vm_compute in H. injection H as <- _. reflexivity.
Defined.

(** X9.  A feedback event that completes adds one like (for [like]) or one
    dislike (for [dislike] and [dismiss]) to the tally of its own pattern,
    counted from zero when the pattern is new, and leaves the tally of every
    other pattern as it was; any other feedback type adds nothing. *)
Theorem record_feedback_tally (d d' : Db.t) (user_id : Z) (row : Db.prefs_row)
    (notification_id feedback_type : string) (cd : Prefs.change_data) :
  Db.lock_held d = false ->
  Db.user_preferences d !! user_id = Some row ->
  Prefs.record_feedback user_id notification_id feedback_type cd d = Db.Ok tt d' ->
  exists row' new,
    Db.user_preferences d' !! user_id = Some row'
    /\ let patterns := Db.learned_patterns (Db.pr_learning_data row) in
       let patterns' := Db.learned_patterns (Db.pr_learning_data row') in
       let old := default zero_tally (Py.get (Prefs.pattern_key cd) patterns) in
       Py.get (Prefs.pattern_key cd) patterns' = Some new
       /\ (feedback_type = "like"%string ->
           Db.likes new = Db.likes old + 1 /\ Db.dislikes new = Db.dislikes old)
       /\ (feedback_type = "dislike"%string \/ feedback_type = "dismiss"%string ->
           Db.likes new = Db.likes old /\ Db.dislikes new = Db.dislikes old + 1)
       /\ (feedback_type <> "like"%string -> feedback_type <> "dislike"%string ->
           feedback_type <> "dismiss"%string -> new = old)
       /\ forall k, k <> Prefs.pattern_key cd ->
            Py.get k patterns' = Py.get k patterns.
Proof.
  intros Hl Hr. rewrite (record_feedback_row d user_id row _ _ _ Hl Hr). cbv zeta.
  destruct (Prefs.adjust_all _ _) as [e|w]; [discriminate|].
  intros [= <-]. eexists. eexists. split; [cbn; apply lookup_insert_eq|].
  cbn [Prefs.row_of_prefs Prefs.with_learning Prefs.learning_data
       Db.pr_learning_data].
  split; [apply learn_get_own|].
  unfold Prefs.bump_tally, Prefs.is_like, Prefs.is_negative.
  repeat split.
  - subst feedback_type. reflexivity.
  - subst feedback_type. reflexivity.
  - destruct H as [-> | ->]; reflexivity.
  - destruct H as [-> | ->]; reflexivity.
  - intros H1 H2 H3.
    destruct (String.eqb_spec feedback_type "like"); [contradiction|].
    destruct (String.eqb_spec feedback_type "dislike"); [contradiction|].
    destruct (String.eqb_spec feedback_type "dismiss"); [contradiction|].
    reflexivity.
  - intros k Hk. apply learn_get_other. exact Hk.
Qed.

Lemma record_feedback_tally_witness :
  exists d' row' new,
    Prefs.record_feedback 1 "1_1700000000.0" "like" Sample.content_high
      (Sample.store Sample.row_0_7) = Db.Ok tt d'
    /\ Db.user_preferences d' !! 1 = Some row'
    /\ Py.get "content_high"
         (Db.learned_patterns (Db.pr_learning_data row')) = Some new
    /\ Db.likes new = 1.
Proof.
  destruct (Prefs.record_feedback 1 "1_1700000000.0" "like" Sample.content_high
              (Sample.store Sample.row_0_7)) as [[] d'| |] eqn:H;
    try (vm_compute in H; discriminate H).
  destruct (record_feedback_tally (Sample.store Sample.row_0_7) d' 1
              Sample.row_0_7 "1_1700000000.0" "like" Sample.content_high
              eq_refl eq_refl H) as (row' & new & Hr & Hg & Hlike & _).
  exists d', row', new. split; [reflexivity|]. split; [exact Hr|].
  split; [exact Hg|]. destruct (Hlike eq_refl) as [Hl _]. exact Hl.
Defined.

(** X10.  When the two feedback counters of a user equal the sums of the
    likes and of the dislikes over the learned patterns, they still do
    after any sequence of feedback events. *)
Theorem feedback_counters_agree (evs : list feedback_event) (d : Db.t)
    (user_id : Z) (row : Db.prefs_row) :
  Db.lock_held d = false ->
  Db.user_preferences d !! user_id = Some row ->
  counters_agree (Db.pr_learning_data row) ->
  exists d' row',
    feed_all user_id evs d = Some d'
    /\ Db.user_preferences d' !! user_id = Some row'
    /\ counters_agree (Db.pr_learning_data row').
Proof.
  revert d row. induction evs as [|ev rest IH]; intros d row Hl Hr Hc.
  - exists d, row. split; [reflexivity|]. split; assumption.
  - cbn [feed_all]. unfold feed.
    rewrite (record_feedback_row d user_id row _ _ _ Hl Hr). cbv zeta.
    destruct (Prefs.adjust_all _ _) as [e|w].
    + apply (IH _ row); [exact Hl | exact Hr | exact Hc].
    + eapply IH; [exact Hl | cbn; apply lookup_insert_eq |].
      cbn. apply learn_counters. exact Hc.
Qed.

Lemma feedback_counters_agree_witness :
  exists d' row',
    feed_all 1 (replicate 5 (Sample.like Sample.content_high))
      (Sample.store Sample.row_0_7) = Some d'
    /\ Db.user_preferences d' !! 1 = Some row'
    /\ counters_agree (Db.pr_learning_data row').
Proof.
  apply (feedback_counters_agree _ (Sample.store Sample.row_0_7) 1
           Sample.row_0_7); [reflexivity | reflexivity |].
  split; reflexivity.
Defined.



(** ** The adjustment pass: what it leaves alone *)

Section AdjustFrame.
Import Db Prefs.

Lemma adjust_one_frame weights entry weights' :
  adjust_one weights entry = inr weights' ->
  dom weights' = dom weights
  /\ forall c, c <> key_category (fst entry) -> weights' !! c = weights !! c.
Proof.
  unfold adjust_one.
  destruct (3 <=? _); [|intros [= <-]; split; reflexivity].
  destruct (F64.truediv _ _) as [r|]; [|discriminate].
  assert (Hins : forall v w0, weights !! key_category entry.1 = Some w0 ->
            dom (<[key_category entry.1 := v]> weights) = dom weights
            /\ forall c, c <> key_category entry.1 ->
                 <[key_category entry.1 := v]> weights !! c = weights !! c).
  { intros v w0 Hw. split.
    - apply dom_insert_lookup_L. rewrite Hw. eauto.
    - intros c Hc. apply lookup_insert_ne. congruence. }
  destruct (F64.ltb F64.c0_7 r).
  - destruct (weights !! key_category entry.1) as [w0|] eqn:Hw; [|discriminate].
    intros [= <-]. exact (Hins _ w0 eq_refl).
  - destruct (F64.ltb r F64.c0_3).
    + destruct (weights !! key_category entry.1) as [w0|] eqn:Hw; [|discriminate].
      intros [= <-]. exact (Hins _ w0 eq_refl).
    + intros [= <-]. split; reflexivity.
Qed.

Lemma adjust_all_frame patterns : forall weights weights',
  adjust_all weights patterns = inr weights' ->
  dom weights' = dom weights
  /\ forall c, (forall key t, (key, t) ∈ patterns -> key_category key <> c) ->
       weights' !! c = weights !! c.
Proof.
  induction patterns as [|[key t] rest IH]; intros weights weights'.
  - intros [= <-]. split; reflexivity.
  - cbn [adjust_all].
    destruct (adjust_one weights (key, t)) as [e|w1] eqn:H1; [discriminate|].
    intros H2. destruct (adjust_one_frame _ _ _ H1) as [Hd1 Hf1].
    destruct (IH _ _ H2) as [Hd2 Hf2]. split; [congruence|].
    intros c Hc. rewrite Hf2, Hf1.
    + reflexivity.
    + cbn [fst]. intros ->. apply (Hc key t); [apply list_elem_of_here | reflexivity].
    + intros k t' Hin. apply (Hc k t'). apply elem_of_cons. right. exact Hin.
Qed.

End AdjustFrame.

(** X12.  An adjustment pass that completes neither adds nor removes a
    category of the weight map, and it leaves the weight of every category
    that no learned pattern names as it was. *)
Theorem adjust_pass_frame (d d' : Db.t) (user_id : Z) (row : Db.prefs_row)
    (l : Db.learning) :
  Db.lock_held d = false ->
  Db.user_preferences d !! user_id = Some row ->
  Prefs.adjust_importance_weights user_id l d = Db.Ok tt d' ->
  exists row',
    Db.user_preferences d' !! user_id = Some row'
    /\ dom (Db.pr_importance_weights row') = dom (Db.pr_importance_weights row)
    /\ (forall c,
          (forall key t, (key, t) ∈ Db.learned_patterns l ->
             Prefs.key_category key <> c) ->
          Db.pr_importance_weights row' !! c = Db.pr_importance_weights row !! c)
    /\ Db.pr_learning_data row' = Db.pr_learning_data row
    /\ forall other, other <> user_id ->
         Db.user_preferences d' !! other = Db.user_preferences d !! other.
Proof.
  intros Hl Hr. rewrite (adjust_importance_weights_row d user_id row l Hl Hr).
  destruct (Prefs.adjust_all _ _) as [e|w] eqn:Ha; [discriminate|].
  intros [= <-]. destruct (adjust_all_frame _ _ _ Ha) as [Hd Hf].
  eexists. split; [cbn; apply lookup_insert_eq|]. cbn.
  split; [exact Hd|]. split; [exact Hf|]. split; [reflexivity|].
  intros other Hne. apply lookup_insert_ne. congruence.
Qed.

Lemma adjust_pass_frame_witness :
  exists d' row',
    Prefs.adjust_importance_weights 1
      {| Db.positive_feedback := 3; Db.negative_feedback := 0;
         Db.learned_patterns :=
           [("content_high"%string, {| Db.likes := 3; Db.dislikes := 0 |})] |}
      (Sample.store Sample.row_0_7) = Db.Ok tt d'
    /\ Db.user_preferences d' !! 1 = Some row'
    /\ Db.pr_importance_weights row' !! "design"%string = Some F64.c0_7.
Proof.
  destruct (Prefs.adjust_importance_weights 1
      {| Db.positive_feedback := 3; Db.negative_feedback := 0;
         Db.learned_patterns :=
           [("content_high"%string, {| Db.likes := 3; Db.dislikes := 0 |})] |}
      (Sample.store Sample.row_0_7)) as [[] d'| |] eqn:H;
    try (vm_compute in H; discriminate H).
  destruct (adjust_pass_frame (Sample.store Sample.row_0_7) d' 1 Sample.row_0_7
              _ eq_refl eq_refl H)
    as (row' & Hr & _ & Hf & _).
  exists d', row'. split; [reflexivity|]. split; [exact Hr|].
  rewrite (Hf "design"%string); [reflexivity|].
  intros key t Hin. apply list_elem_of_singleton in Hin. injection Hin as -> _.
  vm_compute. discriminate.
Defined.

(** ** The threshold: defaults *)

(** X13.  A preferred category without an entry in the weight map is
    weighed 0.5: an analysis of high importance is accepted, one of medium
    or low importance, or without importance (taken as medium), is
    rejected, and any other importance raises [KeyError]. *)
Theorem unweighted_category_default (d : Db.t) (user_id : Z) (row : Db.prefs_row)
    (analysis : Prefs.change_data) (category : string) :
  Db.lock_held d = false ->
  Db.user_preferences d !! user_id = Some row ->
  Prefs.cd_category analysis = Some category ->
  category ∈ Py.split_on "," (Db.pr_preferred_categories row) ->
  Db.pr_importance_weights row !! category = None ->
  (Prefs.cd_importance analysis = Some "high"%string ->
   Prefs.should_send_notification user_id analysis d = Db.Ok true d)
  /\ (Prefs.cd_importance analysis = Some "medium"%string
      \/ Prefs.cd_importance analysis = Some "low"%string
      \/ Prefs.cd_importance analysis = None ->
      Prefs.should_send_notification user_id analysis d = Db.Ok false d)
  /\ (forall importance,
        Prefs.cd_importance analysis = Some importance ->
        importance ∉ ["high"; "medium"; "low"]%string ->
        Prefs.should_send_notification user_id analysis d
        = Db.Raise (Py.KeyError importance) d).
Proof.
  intros Hl Hr Hc Hin Hw.
  rewrite (should_send_notification_row d user_id row analysis category Hl Hr Hc).
  rewrite bool_decide_eq_true_2 by exact Hin. rewrite Hw. cbn [negb].
  split; [|split].
  - intros ->. reflexivity.
  - intros [-> | [-> | ->]]; reflexivity.
  - intros importance -> Hout. cbn [default from_option id].
    unfold Prefs.base_importance_score.
    destruct (String.eqb_spec importance "high") as [->|_];
      [exfalso; apply Hout; set_solver|].
    destruct (String.eqb_spec importance "medium") as [->|_];
      [exfalso; apply Hout; set_solver|].
    destruct (String.eqb_spec importance "low") as [->|_];
      [exfalso; apply Hout; set_solver|].
    reflexivity.
Qed.

Lemma unweighted_category_default_witness :
  Prefs.should_send_notification 1
    {| Prefs.cd_category := Some "technical"%string;
       Prefs.cd_importance := Some "high"%string |}
    (Sample.store Fixtures.row_without_weights)
  = Db.Ok true (Sample.store Fixtures.row_without_weights).
Proof.
  destruct (unweighted_category_default
              (Sample.store Fixtures.row_without_weights) 1
              Fixtures.row_without_weights
              {| Prefs.cd_category := Some "technical"%string;
                 Prefs.cd_importance := Some "high"%string |} "technical"
              eq_refl eq_refl eq_refl) as [H _].
  - set_solver.
  - reflexivity.
  - apply H. reflexivity.
Defined.

(** X14.  With the default categories and weights and without credentials
    the two stages compose into a size filter: the change is analysed by
    the local heuristic and accepted exactly when its diff is longer than
    500 characters. *)
Theorem default_preferences_size_filter (d : Db.t) (user_id : Z)
    (row : Db.prefs_row) (api_key : option string)
    (remote : option Filter.analysis) (cd : Filter.change_record)
    (diff site : string) :
  Db.lock_held d = false ->
  Db.user_preferences d !! user_id = Some row ->
  Db.pr_preferred_categories row = "content,design,technical"%string ->
  Db.pr_importance_weights row = Prefs.importance_weights Prefs.default_prefs ->
  Filter.no_api_key api_key = true ->
  Filter.cr_diff cd = Some diff ->
  Filter.cr_site_name cd = Some site ->
  exists a,
    Filter.analyze_change_importance api_key remote cd = inr a
    /\ Prefs.should_send_notification user_id (System.analysis_view a) d
       = Db.Ok (500 <? Z.of_nat (Py.len diff)) d.
Proof.
  intros Hl Hr Hcat Hw Hk Hd Hs.
  unfold Filter.analyze_change_importance, Filter.basic_analysis.
  rewrite Hk, Hd, Hs.
  destruct (2000 <? Z.of_nat (Py.len diff)) eqn:H1;
    [|destruct (500 <? Z.of_nat (Py.len diff)) eqn:H2];
    eexists; (split; [reflexivity|]);
    erewrite should_send_notification_row; try eassumption; try reflexivity;
    rewrite Hcat, Hw.
  - replace (500 <? Z.of_nat (Py.len diff)) with true
      by (symmetry; apply Z.ltb_lt; apply Z.ltb_lt in H1; lia).
    reflexivity.
  - reflexivity.
  - reflexivity.
Qed.

Lemma default_preferences_size_filter_witness :
  exists a,
    Filter.analyze_change_importance (Some ""%string) None
      (System.record_of_event Fixtures.cyrillic_change) = inr a
    /\ Prefs.should_send_notification 1 (System.analysis_view a)
         (Sample.store Sample.default_row)
       = Db.Ok false (Sample.store Sample.default_row).
Proof.
  apply (default_preferences_size_filter (Sample.store Sample.default_row) 1
           Sample.default_row (Some ""%string) None
           (System.record_of_event Fixtures.cyrillic_change)
           (Sample.letters 300) "example.com");
    reflexivity.
Defined.

(** ** Users without a stored row *)

Section NoRowLemmas.
Import Db Prefs.

Lemma should_send_notification_absent d user_id analysis :
  lock_held d = false ->
  user_preferences d !! user_id = None ->
  should_send_notification user_id analysis d = Hang.
Proof.
  intros Hl Hr. unfold should_send_notification, bind.
  rewrite (get_user_preferences_absent d user_id Hl Hr). reflexivity.
Qed.

Lemma adjust_importance_weights_absent d user_id l :
  lock_held d = false ->
  user_preferences d !! user_id = None ->
  adjust_importance_weights user_id l d = Hang.
Proof.
  intros Hl Hr. unfold adjust_importance_weights, bind.
  rewrite (get_user_preferences_absent d user_id Hl Hr). reflexivity.
Qed.

Lemma update_learning_model_absent d user_id feedback_type cd :
  lock_held d = false ->
  user_preferences d !! user_id = None ->
  update_learning_model user_id feedback_type cd d = Hang.
Proof.
  intros Hl Hr. unfold update_learning_model, bind.
  rewrite (get_user_preferences_absent d user_id Hl Hr). reflexivity.
Qed.

Lemma record_feedback_absent d user_id notification_id feedback_type cd :
  lock_held d = false ->
  user_preferences d !! user_id = None ->
  record_feedback user_id notification_id feedback_type cd d = Hang.
Proof.
  intros Hl Hr. unfold record_feedback, bind.
  rewrite get_connection_idle by exact Hl.
  rewrite update_learning_model_absent; [reflexivity | reflexivity |].
  destruct d; exact Hr.
Qed.

End NoRowLemmas.

(** X15.  For a user who has no row in [user_preferences] none of the
    operations that read the preferences returns: the read finds no row
    and writes the defaults from inside its own connection block, taking
    again the lock it holds. *)
Theorem no_row_blocks (d : Db.t) (user_id : Z) :
  Db.lock_held d = false ->
  Db.user_preferences d !! user_id = None ->
  Prefs.get_user_preferences user_id d = Db.Hang
  /\ (forall analysis,
        Prefs.should_send_notification user_id analysis d = Db.Hang)
  /\ (forall l, Prefs.adjust_importance_weights user_id l d = Db.Hang)
  /\ (forall feedback_type cd,
        Prefs.update_learning_model user_id feedback_type cd d = Db.Hang)
  /\ (forall notification_id feedback_type cd,
        Prefs.record_feedback user_id notification_id feedback_type cd d
        = Db.Hang).
Proof.
  intros Hl Hr.
  split; [apply get_user_preferences_absent; assumption|].
  split; [intros analysis; apply should_send_notification_absent; assumption|].
  split; [intros l; apply adjust_importance_weights_absent; assumption|].
  split; [intros feedback_type cd; apply update_learning_model_absent;
          assumption|].
  intros notification_id feedback_type cd.
  apply record_feedback_absent; assumption.
Qed.

Lemma no_row_blocks_witness :
  Prefs.should_send_notification 2 Sample.content_high
    (Sample.store Sample.default_row) = Db.Hang.
Proof.
  destruct (no_row_blocks (Sample.store Sample.default_row) 2 eq_refl eq_refl)
    as (_ & H & _).
  apply H.
Defined.

(** X16.  Reading the preferences, deciding on a notification, adjusting
    the weights and recording feedback never create a row of
    [user_preferences]: whenever one of them returns or raises, the users
    that have a row are those that had one. *)
Theorem preferences_rows_never_created (d : Db.t) (user_id : Z) :
  Db.lock_held d = false ->
  forall d',
    (final_store (Prefs.get_user_preferences user_id d) = Some d'
     \/ (exists analysis,
           final_store (Prefs.should_send_notification user_id analysis d) = Some d')
     \/ (exists l,
           final_store (Prefs.adjust_importance_weights user_id l d) = Some d')
     \/ (exists notification_id feedback_type cd,
           final_store (Prefs.record_feedback user_id notification_id
                          feedback_type cd d) = Some d')) ->
    dom (Db.user_preferences d') = dom (Db.user_preferences d).
Proof.
  intros Hl d' H.
  destruct (Db.user_preferences d !! user_id) as [row|] eqn:Hr.
  - assert (Hdom : forall r,
              dom (<[user_id := r]> (Db.user_preferences d))
              = dom (Db.user_preferences d)).
    { intros r. apply dom_insert_lookup_L. rewrite Hr. eauto. }
    destruct H as [H | [[a H] | [[l H] | (nid & ft & cd & H)]]].
    + rewrite (get_user_preferences_row d user_id row Hl Hr) in H.
      injection H as <-. reflexivity.
    + destruct (Prefs.cd_category a) as [c|] eqn:Hc.
      * rewrite (should_send_notification_row d user_id row a c Hl Hr Hc) in H.
        destruct (negb _); [injection H as <-; reflexivity|].
        cbv zeta in H. destruct (Prefs.base_importance_score _);
          injection H as <-; reflexivity.
      * unfold Prefs.should_send_notification, Db.bind in H.
        rewrite (get_user_preferences_row d user_id row Hl Hr), Hc in H.
        injection H as <-. reflexivity.
    + rewrite (adjust_importance_weights_row d user_id row l Hl Hr) in H.
      destruct (Prefs.adjust_all _ _); injection H as <-; [reflexivity|].
      apply Hdom.
    + rewrite (record_feedback_row d user_id row nid ft cd Hl Hr) in H.
      cbv zeta in H.
      destruct (Prefs.adjust_all _ _); injection H as <-; [reflexivity|].
      apply Hdom.
  - destruct H as [H | [[a H] | [[l H] | (nid & ft & cd & H)]]].
    + rewrite get_user_preferences_absent in H by assumption. discriminate H.
    + rewrite should_send_notification_absent in H by assumption.
      discriminate H.
    + rewrite adjust_importance_weights_absent in H by assumption.
      discriminate H.
    + rewrite record_feedback_absent in H by assumption. discriminate H.
Qed.

Lemma preferences_rows_never_created_witness :
  exists d',
    final_store (Prefs.record_feedback 1 "1_1700000000.0" "like"
                   Sample.content_high (Sample.store Sample.row_0_7)) = Some d'
    /\ dom (Db.user_preferences d')
       = dom (Db.user_preferences (Sample.store Sample.row_0_7)).
Proof.
  destruct (final_store (Prefs.record_feedback 1 "1_1700000000.0" "like"
              Sample.content_high (Sample.store Sample.row_0_7)))
    as [d'|] eqn:H; [|vm_compute in H; discriminate H].
  exists d'. split; [reflexivity|].
  apply (preferences_rows_never_created (Sample.store Sample.row_0_7) 1 eq_refl).
  right. right. right.
  exists "1_1700000000.0"%string, "like"%string, Sample.content_high. exact H.
Defined.

(** ** The per-site check *)

Section CheckLemmas.
Import Db Monitor.

Lemma record_error_idle d site_id error_type error_message :
  lock_held d = false ->
  record_error site_id error_type error_message d =
    Ok tt (set_check_errors
             (check_errors d ++
                [{| ce_site_id := site_id; ce_error_type := error_type;
                    ce_error_message := Py.take 500 error_message |}]) d).
Proof.
  intros Hl. unfold record_error.
  rewrite get_connection_idle by assumption.
  destruct d; simpl in *; subst; reflexivity.
Qed.

Lemma check_site_failed md5 unified_diff site obs now d :
  lock_held d = false ->
  failed obs = true ->
  exists error_type error_message,
    check_site md5 unified_diff site obs now d =
      Ok [] (set_check_errors
               (check_errors d ++
                  [{| ce_site_id := ms_id site; ce_error_type := error_type;
                      ce_error_message := Py.take 500 error_message |}]) d)
    /\ error_type ∈ ["http_error"; "timeout"; "connection_error";
                     "general_error"; "parsing_error"]%string.
Proof.
  intros Hl Hf.
  destruct obs; try discriminate Hf; unfold check_site, bind;
    rewrite record_error_idle by exact Hl; do 2 eexists;
    (split; [reflexivity | set_solver]).
Qed.

Lemma check_site_page md5 unified_diff site text now d :
  lock_held d = false ->
  (50 <= Py.len text)%nat ->
  exists events,
    check_site md5 unified_diff site (PageText text) now d =
      Ok events (set_monitored_sites
                   (alter (set_site_state (md5 text) text now) (ms_id site)
                      (monitored_sites d)) d)
    /\ events =
       if truthy (ms_last_hash site)
          && negb (String.eqb (md5 text) (default ""%string (ms_last_hash site)))
       then [{| ev_user_id := ms_user_id site;
                ev_site_name := ms_site_name site;
                ev_url := ms_url site;
                ev_diff := changes_diff unified_diff
                             (default ""%string (ms_last_content site)) text;
                ev_old_content := default ""%string (ms_last_content site);
                ev_new_content := text;
                ev_change_type := "content_update" |}]
       else [].
Proof.
  intros Hl Hlen. unfold check_site.
  rewrite (long_text_not_short text Hlen). cbv zeta. unfold bind.
  rewrite update_site_hash_idle by exact Hl.
  eexists. split; reflexivity.
Qed.

Lemma changes_diff_length unified_diff old_content text :
  Z.of_nat (Py.len (changes_diff unified_diff old_content text)) <= 5000.
Proof.
  unfold changes_diff. destruct (unified_diff old_content text).
  - apply take_length. lia.
  - vm_compute. discriminate.
Qed.

End CheckLemmas.

(** X17.  A check that fails (the fetch or the parser raised) reports no
    change and appends exactly one row to [check_errors]: it names the
    site, one of the five error types and a message of at most 500
    characters.  Nothing else of the store changes, so the site is due at
    a later scan exactly as it was before. *)
Theorem failed_check_logged (md5 : string -> string)
    (unified_diff : string -> string -> option string)
    (d : Db.t) (site : Db.site_row) (obs : Monitor.observation) (now : Z) :
  Db.lock_held d = false ->
  failed obs = true ->
  exists row,
    Monitor.check_site md5 unified_diff site obs now d
    = Db.Ok [] (Db.set_check_errors (Db.check_errors d ++ [row]) d)
    /\ Db.ce_site_id row = Db.ms_id site
    /\ Db.ce_error_type row ∈ ["http_error"; "timeout"; "connection_error";
                                "general_error"; "parsing_error"]%string
    /\ Z.of_nat (Py.len (Db.ce_error_message row)) <= 500
    /\ forall t other,
         Monitor.due (Db.set_check_errors (Db.check_errors d ++ [row]) d) t other
         = Monitor.due d t other.
Proof.
  intros Hl Hf.
  destruct (check_site_failed md5 unified_diff site obs now d Hl Hf)
    as (ty & msg & -> & Hty).
  eexists. split; [reflexivity|]. cbn [Db.ce_site_id Db.ce_error_type
                                       Db.ce_error_message].
  split; [reflexivity|]. split; [exact Hty|].
  split; [apply take_length; lia | reflexivity].
Qed.

Lemma failed_check_logged_witness :
  exists row,
    Monitor.check_site Sample.digest Sample.no_diff Sample.site
      (Monitor.OtherError (Sample.letters 600)) 1700000000 Sample.site_store
    = Db.Ok [] (Db.set_check_errors
                  (Db.check_errors Sample.site_store ++ [row]) Sample.site_store)
    /\ Db.ce_site_id row = 7
    /\ Z.of_nat (Py.len (Db.ce_error_message row)) <= 500.
Proof.
  destruct (failed_check_logged Sample.digest Sample.no_diff Sample.site_store
              Sample.site (Monitor.OtherError (Sample.letters 600)) 1700000000
              eq_refl eq_refl)
    as (row & H & Hid & _ & Hlen & _).
  exists row. split; [exact H|]. split; [exact Hid | exact Hlen].
Defined.

(** X18.  A page of at least 50 characters whose digest differs from the
    stored, non-empty fingerprint is reported once: the check hands one
    change to [process_change], for the owner of the site, with the new
    text, the stored text as old content and a diff of at most 5000
    characters; the row then stores at most 100000 characters of the text,
    and a check of the stored row that finds the same text again reports
    nothing. *)
Theorem changed_page_reported_once (md5 : string -> string)
    (unified_diff : string -> string -> option string)
    (d : Db.t) (site : Db.site_row) (text h : string) (now : Z) :
  Db.lock_held d = false ->
  Db.monitored_sites d !! Db.ms_id site = Some site ->
  Db.ms_last_hash site = Some h ->
  h <> ""%string ->
  h <> md5 text ->
  (50 <= Py.len text)%nat ->
  exists ev d' site' content',
    Monitor.check_site md5 unified_diff site (Monitor.PageText text) now d
    = Db.Ok [ev] d'
    /\ Monitor.ev_user_id ev = Db.ms_user_id site
    /\ Monitor.ev_new_content ev = text
    /\ Monitor.ev_old_content ev = default ""%string (Db.ms_last_content site)
    /\ Z.of_nat (Py.len (Monitor.ev_diff ev)) <= 5000
    /\ Db.monitored_sites d' !! Db.ms_id site = Some site'
    /\ Db.ms_last_content site' = Some content'
    /\ Z.of_nat (Py.len content') <= 100000
    /\ forall now',
         exists d'',
           Monitor.check_site md5 unified_diff site' (Monitor.PageText text)
             now' d' = Db.Ok [] d''.
Proof.
  intros Hl Hs Hh Hne Hdiff Hlen.
  destruct (check_site_page md5 unified_diff site text now d Hl Hlen)
    as (events & -> & ->).
  rewrite Hh. cbn [Monitor.truthy default from_option id].
  destruct (String.eqb_spec h "") as [->|_]; [contradiction|].
  destruct (String.eqb_spec (md5 text) h) as [Heq|_]; [congruence|].
  cbn [negb andb].
  eexists. eexists.
  exists (Monitor.set_site_state (md5 text) text now site).
  exists (Py.take 100000 text).
  split; [reflexivity|]. cbn [Monitor.ev_user_id Monitor.ev_new_content
                                Monitor.ev_old_content Monitor.ev_diff].
  split; [reflexivity|]. split; [reflexivity|]. split; [reflexivity|].
  split; [apply changes_diff_length|].
  split; [cbn [Db.monitored_sites Db.set_monitored_sites];
          rewrite lookup_alter_eq, Hs; reflexivity|].
  split; [reflexivity|].
  split; [apply take_length; lia|].
  intros now'.
  destruct (check_site_page md5 unified_diff
              (Monitor.set_site_state (md5 text) text now site) text now'
              (Db.set_monitored_sites
                 (alter (Monitor.set_site_state (md5 text) text now)
                    (Db.ms_id site) (Db.monitored_sites d)) d))
    as (events & -> & ->); [destruct d; exact Hl | exact Hlen |].
  cbn [Monitor.set_site_state Db.ms_last_hash default from_option id].
  rewrite String.eqb_refl. rewrite andb_false_r.
  eexists. reflexivity.
Qed.

Lemma changed_page_reported_once_witness :
  exists ev d',
    Monitor.check_site Sample.digest Sample.no_diff Fixtures.checked_site
      (Monitor.PageText Sample.page) 1700000000 Fixtures.checked_store
    = Db.Ok [ev] d'
    /\ Monitor.ev_new_content ev = Sample.page.
Proof.
  destruct (changed_page_reported_once Sample.digest Sample.no_diff
              Fixtures.checked_store Fixtures.checked_site Sample.page
              "d41d8cd98f00b204e9800998ecf8427e" 1700000000
              eq_refl eq_refl eq_refl)
    as (ev & d' & _ & _ & H & _ & Hn & _).
  - discriminate.
  - discriminate.
  - vm_compute. lia.
  - exists ev, d'. split; [exact H | exact Hn].
Defined.

(** X19.  After a check that read a page of at least 50 characters at time
    [now], the stored row of the site is due at time [t] exactly when its
    owner is subscribed, the site is enabled, its [check_interval] is not
    negative and [t] lies more than [check_interval] minutes after
    [now]. *)
Theorem checked_site_rests (md5 : string -> string)
    (unified_diff : string -> string -> option string)
    (d : Db.t) (site : Db.site_row) (text : string) (now : Z) :
  Db.lock_held d = false ->
  Db.monitored_sites d !! Db.ms_id site = Some site ->
  (50 <= Py.len text)%nat ->
  exists events d' site',
    Monitor.check_site md5 unified_diff site (Monitor.PageText text) now d
    = Db.Ok events d'
    /\ Db.monitored_sites d' !! Db.ms_id site = Some site'
    /\ forall t,
         Monitor.due d' t site' = true
         <-> (exists u, Db.users d !! Db.ms_user_id site = Some u
                        /\ Db.u_subscribed u = true)
             /\ Db.ms_enabled site = true
             /\ 0 <= Db.ms_check_interval site
             /\ now + 60 * Db.ms_check_interval site < t.
Proof.
  intros Hl Hs Hlen.
  destruct (check_site_page md5 unified_diff site text now d Hl Hlen)
    as (events & -> & _).
  eexists. eexists. exists (Monitor.set_site_state (md5 text) text now site).
  split; [reflexivity|].
  split; [cbn [Db.monitored_sites Db.set_monitored_sites];
          rewrite lookup_alter_eq, Hs; reflexivity|].
  intros t. unfold Monitor.due.
  cbn [Db.users Db.set_monitored_sites Monitor.set_site_state Db.ms_user_id
       Db.ms_enabled Db.ms_last_checked Db.ms_check_interval].
  destruct (Db.users d !! Db.ms_user_id site) as [u|].
  - rewrite !andb_true_iff, Z.ltb_lt, Z.leb_le. split.
    + intros [[Hu He] [Hi Ht]].
      split; [exists u; split; [reflexivity | exact Hu]|].
      repeat split; assumption.
    + intros [(u' & [= <-] & Hu) (He & Hi & Ht)]. repeat split; assumption.
  - split; [discriminate|]. intros [(u' & Hu & _) _]. discriminate Hu.
Qed.

Lemma checked_site_rests_witness :
  exists events d' site',
    Monitor.check_site Sample.digest Sample.no_diff Sample.site
      (Monitor.PageText Sample.page) 1700000000 Sample.site_store
    = Db.Ok events d'
    /\ Db.monitored_sites d' !! 7 = Some site'
    /\ Monitor.due d' 1700000600 site' = false.
Proof.
  destruct (checked_site_rests Sample.digest Sample.no_diff Sample.site_store
              Sample.site Sample.page 1700000000 eq_refl eq_refl)
    as (events & d' & site' & H & Hs & Hdue).
  - vm_compute. lia.
  - exists events, d', site'. split; [exact H|]. split; [exact Hs|].
    destruct (Monitor.due d' 1700000600 site') eqn:E; [|reflexivity].
    apply Hdue in E. destruct E as (_ & _ & _ & E). vm_compute in E.
    discriminate E.
Defined.

Section CheckEffect.
Import Db Monitor.

Lemma check_site_effect md5 unified_diff d site obs now :
  lock_held d = false ->
  exists events d',
    check_site md5 unified_diff site obs now d = Ok events d'
    /\ lock_held d' = false
    /\ users d' = users d
    /\ user_preferences d' = user_preferences d
    /\ user_feedback d' = user_feedback d
    /\ notification_history d' = notification_history d
    /\ dom (monitored_sites d') = dom (monitored_sites d)
    /\ (forall other,
          other <> ms_id site ->
          monitored_sites d' !! other = monitored_sites d !! other)
    /\ forall ev, ev ∈ events ->
                  ev_user_id ev = ms_user_id site
                  /\ ev_site_name ev = ms_site_name site.
Proof.
  intros Hl.
  destruct (failed obs) eqn:Hf.
  - destruct (check_site_failed md5 unified_diff site obs now d Hl Hf)
      as (ty & msg & -> & _).
    eexists. eexists. split; [reflexivity|].
    cbn [lock_held users user_preferences user_feedback
         notification_history monitored_sites set_check_errors].
    repeat split; try reflexivity; try exact Hl; inversion H.
  - destruct obs as [| | | | |text]; try discriminate Hf.
    destruct (String.eqb text "" || (Py.len text <? 50)%nat) eqn:Hshort.
    + unfold check_site. rewrite Hshort.
      eexists. eexists. split; [reflexivity|].
      repeat split; try reflexivity; try exact Hl; inversion H.
    + assert (Hlen : (50 <= Py.len text)%nat).
      { apply orb_false_iff in Hshort. destruct Hshort as [_ H].
        apply Nat.ltb_ge in H. exact H. }
      destruct (check_site_page md5 unified_diff site text now d Hl Hlen)
        as (events & -> & Hev).
      eexists. eexists. split; [reflexivity|].
      cbn [lock_held users user_preferences user_feedback
           notification_history monitored_sites set_monitored_sites].
      split; [exact Hl|]. do 4 (split; [reflexivity|]).
      split; [apply dom_alter_L|].
      split; [intros other Hne; apply lookup_alter_ne; congruence|].
      intros ev Hin. rewrite Hev in Hin.
      destruct (truthy _ && negb _); [|inversion Hin].
      apply list_elem_of_singleton in Hin. subst ev. split; reflexivity.
Qed.

End CheckEffect.

(** X20.  Whatever a check observes, with the lock free it returns, leaves
    the lock free and changes at most the row of its own site and the error
    table: no site row is added or removed, every other site row and the
    user, preference, feedback and history tables stay as they were. *)
Theorem check_site_frame (md5 : string -> string)
    (unified_diff : string -> string -> option string)
    (d : Db.t) (site : Db.site_row) (obs : Monitor.observation) (now : Z) :
  Db.lock_held d = false ->
  exists events d',
    Monitor.check_site md5 unified_diff site obs now d = Db.Ok events d'
    /\ Db.lock_held d' = false
    /\ Db.users d' = Db.users d
    /\ Db.user_preferences d' = Db.user_preferences d
    /\ Db.user_feedback d' = Db.user_feedback d
    /\ Db.notification_history d' = Db.notification_history d
    /\ dom (Db.monitored_sites d') = dom (Db.monitored_sites d)
    /\ forall other,
         other <> Db.ms_id site ->
         Db.monitored_sites d' !! other = Db.monitored_sites d !! other.
Proof.
  intros Hl.
  destruct (check_site_effect md5 unified_diff d site obs now Hl)
    as (events & d' & H & Hl' & Hu & Hp & Hf & Hh & Hd & Ho & _).
  exists events, d'. repeat split; assumption.
Qed.

Lemma check_site_frame_witness :
  exists events d',
    Monitor.check_site Sample.digest Sample.no_diff Fixtures.checked_site
      Monitor.Timeout 1700000000 Fixtures.checked_store = Db.Ok events d'
    /\ Db.monitored_sites d' !! 7 = Some Fixtures.checked_site.
Proof.
  destruct (check_site_frame Sample.digest Sample.no_diff Fixtures.checked_store
              Fixtures.checked_site Monitor.Timeout 1700000000 eq_refl)
    as (events & d' & H & _ & _ & _ & _ & _ & _ & _).
  exists events, d'. split; [exact H|].
  vm_compute in H. injection H as _ <-. reflexivity.
Defined.

(** ** Users and sites *)

Section RegistryLemmas.
Import Db Registry.

Lemma set_users_same d : set_users (users d) d = d.
Proof. destruct d; reflexivity. Qed.

Lemma set_monitored_sites_same d : set_monitored_sites (monitored_sites d) d = d.
Proof. destruct d; reflexivity. Qed.

Lemma create_user_idle d user_id username first_name :
  lock_held d = false ->
  create_user user_id username first_name d =
    Ok tt (match users d !! user_id with
           | Some _ => d
           | None =>
               set_users
                 (<[user_id := {| u_username := username;
                                  u_first_name := first_name;
                                  u_subscribed := false |}]> (users d)) d
           end).
Proof.
  intros Hl. unfold create_user.
  rewrite get_connection_idle by assumption. cbn [users set_lock].
  destruct (users d !! user_id); destruct d; simpl in *; subst; reflexivity.
Qed.

Lemma set_subscribed_idle b d user_id :
  lock_held d = false ->
  get_connection (fun d =>
    Ok tt (set_users (alter (set_subscribed b) user_id (users d)) d)) d
  = Ok tt (set_users (alter (set_subscribed b) user_id (users d)) d).
Proof.
  intros Hl. rewrite get_connection_idle by assumption.
  destruct d; simpl in *; subst; reflexivity.
Qed.

Lemma same_site_exists d user_id url :
  existsb (same_site user_id url) (snd <$> map_to_list (monitored_sites d)) = true
  <-> site_exists d user_id url.
Proof.
  rewrite existsb_exists. unfold site_exists, same_site. split.
  - intros (site & Hin & Hs). apply list_elem_of_In in Hin.
    apply list_elem_of_fmap in Hin. destruct Hin as ([id site'] & -> & Hin).
    apply elem_of_map_to_list in Hin. cbn [snd] in *.
    apply andb_true_iff in Hs. destruct Hs as [Hu Hurl].
    apply Z.eqb_eq in Hu. apply String.eqb_eq in Hurl.
    exists id, site'. auto.
  - intros (id & site & Hs & Hu & Hurl). exists site. split.
    + apply list_elem_of_In. apply list_elem_of_fmap. exists (id, site).
      split; [reflexivity|]. apply elem_of_map_to_list. exact Hs.
    + apply andb_true_iff. split; [apply Z.eqb_eq | apply String.eqb_eq];
        assumption.
Qed.

Lemma add_monitored_site_dup d new_id user_id url site_name css_selector :
  lock_held d = false ->
  site_exists d user_id url ->
  add_monitored_site new_id user_id url site_name css_selector d = Ok false d.
Proof.
  intros Hl He. unfold add_monitored_site.
  rewrite get_connection_idle by assumption. cbn [monitored_sites set_lock].
  apply same_site_exists in He. rewrite He.
  rewrite set_lock_idle by assumption. reflexivity.
Qed.

Lemma add_monitored_site_new d new_id user_id url site_name css_selector :
  lock_held d = false ->
  ~ site_exists d user_id url ->
  add_monitored_site new_id user_id url site_name css_selector d =
    Ok true (set_monitored_sites
               (<[new_id := new_site new_id user_id url site_name css_selector]>
                  (monitored_sites d)) d).
Proof.
  intros Hl He. unfold add_monitored_site.
  rewrite get_connection_idle by assumption. cbn [monitored_sites set_lock].
  destruct (existsb _ _) eqn:Hex.
  - exfalso. apply He. apply same_site_exists. exact Hex.
  - destruct d; simpl in *; subst; reflexivity.
Qed.

Lemma get_user_sites_idle d user_id :
  lock_held d = false ->
  get_user_sites user_id d =
    Ok (filter (fun site => Is_true (Z.eqb (ms_user_id site) user_id
                                      && ms_enabled site))
          (snd <$> map_to_list (monitored_sites d))) d.
Proof.
  intros Hl. unfold get_user_sites.
  rewrite get_connection_idle by assumption.
  destruct d; simpl in *; subst; reflexivity.
Qed.

Lemma delete_site_idle d user_id site_id :
  lock_held d = false ->
  delete_site user_id site_id d =
    match monitored_sites d !! site_id with
    | Some site =>
        if Z.eqb (ms_user_id site) user_id
        then Ok true (set_monitored_sites (delete site_id (monitored_sites d)) d)
        else Ok false d
    | None => Ok false d
    end.
Proof.
  intros Hl. unfold delete_site.
  rewrite get_connection_idle by assumption. cbn [monitored_sites set_lock].
  destruct (monitored_sites d !! site_id) as [site|];
    [destruct (Z.eqb _ _)|]; destruct d; simpl in *; subst; reflexivity.
Qed.

End RegistryLemmas.

(** X21.  A site that its owner does not monitor yet is added with the
    defaults (never checked, enabled, every 10 minutes) and is listed
    among the sites of its owner, and from then on every further attempt to add the same URL for the same owner, under
    whatever name or selector, answers [False] and leaves the store
    unchanged. *)
Theorem add_site_once (d : Db.t) (new_id user_id : Z) (url site_name : string)
    (css_selector : option string) :
  Db.lock_held d = false ->
  ~ Registry.site_exists d user_id url ->
  exists d' site,
    Registry.add_monitored_site new_id user_id url site_name css_selector d
    = Db.Ok true d'
    /\ Db.monitored_sites d' !! new_id = Some site
    /\ Db.ms_user_id site = user_id /\ Db.ms_url site = url
    /\ Db.ms_last_hash site = None /\ Db.ms_last_checked site = None
    /\ Db.ms_enabled site = true /\ Db.ms_check_interval site = 10
    /\ (exists sites, Registry.get_user_sites user_id d' = Db.Ok sites d'
                      /\ site ∈ sites)
    /\ forall id' site_name' css_selector',
         Registry.add_monitored_site id' user_id url site_name' css_selector' d'
         = Db.Ok false d'.
Proof.
  intros Hl He.
  rewrite (add_monitored_site_new d new_id user_id url site_name css_selector
             Hl He).
  eexists. eexists. split; [reflexivity|].
  cbn [Db.monitored_sites Db.set_monitored_sites].
  split; [apply lookup_insert_eq|].
  cbn [Registry.new_site Db.ms_user_id Db.ms_url Db.ms_last_hash
       Db.ms_last_checked Db.ms_enabled Db.ms_check_interval].
  do 6 (split; [reflexivity|]).
  split.
  { rewrite get_user_sites_idle by (destruct d; exact Hl).
    eexists. split; [reflexivity|].
    apply list_elem_of_filter. split.
    - cbn [Db.ms_user_id Db.ms_enabled]. rewrite Z.eqb_refl. exact I.
    - apply list_elem_of_fmap. eexists (new_id, _). split; [reflexivity|].
      apply elem_of_map_to_list.
      cbn [Db.monitored_sites Db.set_monitored_sites Db.set_lock].
      apply lookup_insert_eq. }
  intros id' site_name' css_selector'.
  apply add_monitored_site_dup; [destruct d; exact Hl|].
  eexists new_id, _. cbn [Db.monitored_sites Db.set_monitored_sites].
  split; [apply lookup_insert_eq|]. split; reflexivity.
Qed.

Lemma add_site_once_witness :
  exists d',
    Registry.add_monitored_site 1 1 "https://example.com" "example.com" None
      (Sample.store Sample.default_row) = Db.Ok true d'
    /\ Registry.add_monitored_site 2 1 "https://example.com" "again" None d'
       = Db.Ok false d'.
Proof.
  destruct (add_site_once (Sample.store Sample.default_row) 1 1
              "https://example.com" "example.com" None eq_refl)
    as (d' & site & H & _ & _ & _ & _ & _ & _ & _ & _ & Hdup).
  - intros (id & site & Hs & _). vm_compute in Hs. discriminate Hs.
  - exists d'. split; [exact H | apply Hdup].
Defined.

(** X22.  After [/start], [/subscribe] and [/monitor] for a URL that the
    user does not monitor yet, whatever the store held before, the new
    site is selected by every scan from then on until it is checked. *)
Theorem new_site_due_at_once (d : Db.t) (new_id user_id : Z)
    (username first_name url site_name : string) :
  Db.lock_held d = false ->
  ~ Registry.site_exists d user_id url ->
  exists d',
    Registry.start_subscribe_monitor new_id user_id username first_name url
      site_name d = Db.Ok true d'
    /\ forall now,
         exists sites,
           Monitor.get_all_monitored_sites now d' = Db.Ok sites d'
           /\ Registry.new_site new_id user_id url site_name None ∈ sites.
Proof.
  intros Hl He. unfold Registry.start_subscribe_monitor, Db.bind.
  rewrite (create_user_idle d user_id username first_name Hl).
  set (d1 := match Db.users d !! user_id with Some _ => d | None => _ end).
  assert (Hl1 : Db.lock_held d1 = false)
    by (unfold d1; destruct (Db.users d !! user_id); destruct d; exact Hl).
  assert (Hs1 : Db.monitored_sites d1 = Db.monitored_sites d)
    by (unfold d1; destruct (Db.users d !! user_id); reflexivity).
  assert (Hu1 : exists u, Db.users d1 !! user_id = Some u).
  { unfold d1. destruct (Db.users d !! user_id) as [u|] eqn:Hu.
    - exists u. exact Hu.
    - eexists. cbn [Db.users Registry.set_users]. apply lookup_insert_eq. }
  destruct Hu1 as [u Hu1].
  unfold Registry.subscribe_user.
  rewrite (set_subscribed_idle true d1 user_id Hl1).
  set (d2 := Registry.set_users _ d1).
  assert (Hl2 : Db.lock_held d2 = false) by exact Hl1.
  assert (He2 : ~ Registry.site_exists d2 user_id url).
  { intros (id & site & Hs & Hrest). apply He. exists id, site.
    split; [|exact Hrest]. rewrite <- Hs1. exact Hs. }
  rewrite (add_monitored_site_new d2 new_id user_id url site_name None Hl2 He2).
  eexists. split; [reflexivity|]. intros now.
  rewrite get_all_monitored_sites_idle by exact Hl2.
  eexists. split; [reflexivity|].
  apply list_elem_of_filter. split.
  - unfold Monitor.due, d2.
    cbn [Db.users Db.set_monitored_sites Registry.set_users Registry.new_site
         Db.ms_user_id Db.ms_enabled Db.ms_last_checked].
    rewrite lookup_alter_eq, Hu1. exact I.
  - apply list_elem_of_fmap.
    exists (new_id, Registry.new_site new_id user_id url site_name None).
    split; [reflexivity|]. apply elem_of_map_to_list.
    cbn [Db.monitored_sites Db.set_monitored_sites]. apply lookup_insert_eq.
Qed.

Lemma new_site_due_at_once_witness :
  exists d' sites,
    Registry.start_subscribe_monitor 1 5 "ann" "Ann" "https://example.com"
      "example.com" Fixtures.empty_store = Db.Ok true d'
    /\ Monitor.get_all_monitored_sites 1700000000 d' = Db.Ok sites d'
    /\ Registry.new_site 1 5 "https://example.com" "example.com" None ∈ sites.
Proof.
  destruct (new_site_due_at_once Fixtures.empty_store 1 5 "ann" "Ann"
              "https://example.com" "example.com" eq_refl)
    as (d' & H & Hdue).
  - intros (id & site & Hs & _). vm_compute in Hs. discriminate Hs.
  - destruct (Hdue 1700000000) as (sites & Hg & Hin).
    exists d', sites. split; [exact H|]. split; [exact Hg | exact Hin].
Defined.

(** X23.  [/subscribe] and [/monitor] without [/start]: for a user who has
    no row in [users] the subscription changes nothing, the site is stored
    all the same, and no scan ever selects a site of this user. *)
Theorem subscribe_without_start (d : Db.t) (new_id user_id : Z)
    (url site_name : string) :
  Db.lock_held d = false ->
  Db.users d !! user_id = None ->
  Registry.subscribe_user user_id d = Db.Ok tt d
  /\ exists b d',
       Registry.subscribe_monitor new_id user_id url site_name d = Db.Ok b d'
       /\ forall now,
            exists sites,
              Monitor.get_all_monitored_sites now d' = Db.Ok sites d'
              /\ forall site, site ∈ sites -> Db.ms_user_id site <> user_id.
Proof.
  intros Hl Hu.
  assert (Hsub : Registry.subscribe_user user_id d = Db.Ok tt d).
  { unfold Registry.subscribe_user. rewrite set_subscribed_idle by exact Hl.
    replace (alter (Registry.set_subscribed true) user_id (Db.users d))
      with (Db.users d).
    - rewrite set_users_same. reflexivity.
    - apply map_eq. intros k. destruct (decide (k = user_id)) as [->|Hne].
      + rewrite lookup_alter_eq, Hu. reflexivity.
      + rewrite lookup_alter_ne by congruence. reflexivity. }
  split; [exact Hsub|].
  unfold Registry.subscribe_monitor, Db.bind. rewrite Hsub.
  assert (Hadd : exists b d',
             Registry.add_monitored_site new_id user_id url site_name None d
             = Db.Ok b d'
             /\ Db.lock_held d' = false /\ Db.users d' = Db.users d).
  { destruct (existsb (Registry.same_site user_id url)
                (snd <$> map_to_list (Db.monitored_sites d))) eqn:Hex.
    - apply same_site_exists in Hex.
      rewrite (add_monitored_site_dup d new_id user_id url site_name None Hl Hex).
      eexists. eexists. split; [reflexivity|]. split; [exact Hl | reflexivity].
    - rewrite (add_monitored_site_new d new_id user_id url site_name None Hl).
      + eexists. eexists. split; [reflexivity|]. split; [exact Hl | reflexivity].
      + intros He. apply same_site_exists in He. congruence. }
  destruct Hadd as (b & d' & -> & Hl' & Hu').
  exists b, d'. split; [reflexivity|]. intros now.
  rewrite (get_all_monitored_sites_idle d' now Hl').
  eexists. split; [reflexivity|].
  intros site Hin Howner. apply list_elem_of_filter in Hin.
  destruct Hin as [Hdue _]. unfold Monitor.due in Hdue.
  rewrite Howner, Hu', Hu in Hdue. exact Hdue.
Qed.

Lemma subscribe_without_start_witness :
  Registry.subscribe_user 5 Fixtures.empty_store = Db.Ok tt Fixtures.empty_store.
Proof.
  destruct (subscribe_without_start Fixtures.empty_store 1 5
              "https://example.com" "example.com" eq_refl eq_refl) as [H _].
  exact H.
Defined.

(** X24.  [delete_site] answers [True] exactly when the row with this id
    exists and belongs to the caller, and then the row is gone; it never
    removes or changes a row with another id or of another owner. *)
Theorem delete_site_owner_only (d : Db.t) (user_id site_id : Z) :
  Db.lock_held d = false ->
  exists b d',
    Registry.delete_site user_id site_id d = Db.Ok b d'
    /\ (b = true <-> exists site, Db.monitored_sites d !! site_id = Some site
                                  /\ Db.ms_user_id site = user_id)
    /\ (b = true -> Db.monitored_sites d' !! site_id = None)
    /\ forall id site,
         Db.monitored_sites d !! id = Some site ->
         id <> site_id \/ Db.ms_user_id site <> user_id ->
         Db.monitored_sites d' !! id = Some site.
Proof.
  intros Hl. rewrite (delete_site_idle d user_id site_id Hl).
  destruct (Db.monitored_sites d !! site_id) as [site|] eqn:Hs.
  - destruct (Z.eqb_spec (Db.ms_user_id site) user_id) as [Hu|Hu].
    + eexists. eexists. split; [reflexivity|].
      cbn [Db.monitored_sites Db.set_monitored_sites].
      split; [split; [intros _; exists site; auto | reflexivity]|].
      split; [intros _; apply lookup_delete_eq|].
      intros id site' Hs' [Hne|Hne].
      * rewrite lookup_delete_ne by congruence. exact Hs'.
      * destruct (decide (id = site_id)) as [->|Hid].
        -- rewrite Hs in Hs'. injection Hs' as <-. contradiction.
        -- rewrite lookup_delete_ne by congruence. exact Hs'.
    + eexists. eexists. split; [reflexivity|].
      split; [split; [discriminate|]|].
      * intros (site' & [= <-] & Hu'). contradiction.
      * split; [discriminate|]. intros id site' Hs' _. exact Hs'.
  - eexists. eexists. split; [reflexivity|].
    split; [split; [discriminate|]|].
    + intros (site' & Hs' & _). discriminate Hs'.
    + split; [discriminate|]. intros id site' Hs' _. exact Hs'.
Qed.

Lemma delete_site_owner_only_witness :
  exists d',
    Registry.delete_site 2 7 Sample.site_store = Db.Ok false d'
    /\ Db.monitored_sites d' !! 7 = Some Sample.site.
Proof.
  destruct (delete_site_owner_only Sample.site_store 2 7 eq_refl)
    as (b & d' & H & _ & _ & Hkeep).
  exists d'. split.
  - rewrite H. vm_compute in H. injection H as <- _. reflexivity.
  - apply Hkeep; [reflexivity|]. right. discriminate.
Defined.

(** X25.  After [/unsubscribe] no scan selects a site of the user, the
    sites of the other users are selected as before, and the site table is
    untouched, so a later [/subscribe] resumes the monitoring. *)
Theorem unsubscribe_stops_scans (d : Db.t) (user_id : Z) :
  Db.lock_held d = false ->
  exists d',
    Registry.unsubscribe_user user_id d = Db.Ok tt d'
    /\ Db.monitored_sites d' = Db.monitored_sites d
    /\ (forall now site,
          Db.ms_user_id site = user_id -> Monitor.due d' now site = false)
    /\ (forall now site,
          Db.ms_user_id site <> user_id ->
          Monitor.due d' now site = Monitor.due d now site)
    /\ exists d'',
         Registry.subscribe_user user_id d' = Db.Ok tt d''
         /\ forall now site,
              Db.users d !! user_id <> None ->
              Db.ms_user_id site = user_id ->
              Monitor.due d'' now site
              = Db.ms_enabled site
                && match Db.ms_last_checked site with
                   | None => true
                   | Some checked =>
                       (0 <=? Db.ms_check_interval site)
                       && (checked + 60 * Db.ms_check_interval site <? now)
                   end.
Proof.
  intros Hl. unfold Registry.unsubscribe_user.
  rewrite set_subscribed_idle by exact Hl.
  eexists. split; [reflexivity|]. split; [reflexivity|].
  split; [|split].
  - intros now site Ho. unfold Monitor.due.
    cbn [Db.users Registry.set_users]. rewrite Ho, lookup_alter_eq.
    destruct (Db.users d !! user_id); reflexivity.
  - intros now site Ho. unfold Monitor.due.
    cbn [Db.users Registry.set_users]. rewrite lookup_alter_ne by congruence.
    reflexivity.
  - unfold Registry.subscribe_user.
    rewrite set_subscribed_idle by (destruct d; exact Hl).
    eexists. split; [reflexivity|].
    intros now site Hu Ho. unfold Monitor.due.
    cbn [Db.users Registry.set_users]. rewrite Ho, !lookup_alter_eq.
    destruct (Db.users d !! user_id); [reflexivity | contradiction].
Qed.

Lemma unsubscribe_stops_scans_witness :
  exists d',
    Registry.unsubscribe_user 1 Sample.site_store = Db.Ok tt d'
    /\ Monitor.due d' 1700000000 Sample.site = false.
Proof.
  destruct (unsubscribe_stops_scans Sample.site_store 1 eq_refl)
    as (d' & H & _ & Hdue & _).
  exists d'. split; [exact H|]. apply Hdue. reflexivity.
Defined.

(** ** The notification system *)

Section SystemLemmas.
Import Db System.

Lemma with_db_same s : with_db (db s) s = s.
Proof. destruct s; reflexivity. Qed.

Lemma find_notification_idle d notification_id user_id :
  lock_held d = false ->
  find_notification notification_id user_id d =
    Ok (List.find
          (fun h => String.eqb (nh_notification_id h) notification_id
                    && Z.eqb (nh_user_id h) user_id)
          (notification_history d)) d.
Proof.
  intros Hl. unfold find_notification.
  rewrite get_connection_idle by assumption.
  destruct d; simpl in *; subst; reflexivity.
Qed.

Lemma save_notification_history_idle d user_id n :
  lock_held d = false ->
  save_notification_history user_id n d =
    Ok tt (set_notification_history
             (notification_history d ++
                [{| nh_user_id := user_id;
                    nh_notification_id := Grouper.notification_id n;
                    nh_site_name := Grouper.site_name n;
                    nh_change_category := Some (Grouper.category n);
                    nh_importance_level := Some (Grouper.importance n);
                    nh_feedback_received := false |}]) d).
Proof.
  intros Hl. unfold save_notification_history.
  rewrite get_connection_idle by assumption.
  destruct d; simpl in *; subst; reflexivity.
Qed.

Lemma prefix_app p : forall s,
  String.prefix p s = true -> exists rest, s = (p +:+ rest)%string.
Proof.
  induction p as [|a p' IH]; intros s H.
  - exists s. rewrite append_nil_l. reflexivity.
  - destruct s as [|b s']; [discriminate H|]. cbn [String.prefix] in H.
    destruct (ascii_dec a b) as [->|_]; [|discriminate H].
    destruct (IH s' H) as [rest ->]. exists rest.
    rewrite append_cons. reflexivity.
Qed.

Lemma parse_callback_data kind notification_id :
  kind ∈ ["like"; "dislike"; "dismiss"]%string ->
  parse_feedback_callback (callback_data kind notification_id)
  = Some (kind, notification_id).
Proof.
  intros Hk. set_unfold in Hk.
  destruct Hk as [-> | [-> | [-> | []]]]; destruct notification_id; cbv;
    reflexivity.
Qed.

Lemma find_absent {A} (f : A -> bool) l :
  (forall x, x ∈ l -> f x = false) -> List.find f l = None.
Proof.
  induction l as [|x l IH]; intros H; cbn [List.find]; [reflexivity|].
  rewrite (H x) by apply list_elem_of_here.
  apply IH. intros y Hy. apply H. apply list_elem_of_further. exact Hy.
Qed.

Lemma find_fresh {A} (f : A -> bool) l x :
  (forall y, y ∈ l -> f y = false) -> f x = true ->
  List.find f (l ++ [x]) = Some x.
Proof.
  induction l as [|y l IH]; intros H Hx; cbn [List.find app].
  - rewrite Hx. reflexivity.
  - rewrite (H y) by apply list_elem_of_here.
    apply IH; [|exact Hx]. intros z Hz. apply H.
    apply list_elem_of_further. exact Hz.
Qed.

Lemma should_send_store d user_id row a :
  lock_held d = false ->
  user_preferences d !! user_id = Some row ->
  Prefs.should_send_notification user_id (analysis_view a) d = Ok true d
  \/ Prefs.should_send_notification user_id (analysis_view a) d = Ok false d
  \/ exists e,
       Prefs.should_send_notification user_id (analysis_view a) d = Raise e d.
Proof.
  intros Hl Hr.
  rewrite (should_send_notification_row d user_id row (analysis_view a)
             (Filter.category a) Hl Hr eq_refl).
  destruct (negb _); [right; left; reflexivity|]. cbv zeta.
  destruct (Prefs.base_importance_score _) as [base|].
  - destruct (F64.leb _ _); [left | right; left]; reflexivity.
  - right; right. eexists. reflexivity.
Qed.

Section DeliveryLemmas.
Variable strftime : Z -> string.
Variable deliver : Z -> string -> bool.

Lemma send_single_notification_idle d user_id n :
  lock_held d = false ->
  send_single_notification strftime deliver user_id n d =
    let message := format_notification_message strftime n in
    let id := Grouper.notification_id n in
    Ok {| chat_id := user_id; text := message;
          buttons := [callback_data "like" id; callback_data "dislike" id;
                      callback_data "dismiss" id];
          delivered := deliver user_id message |}
       (if deliver user_id message
        then set_notification_history
               (notification_history d ++
                  [{| nh_user_id := user_id;
                      nh_notification_id := Grouper.notification_id n;
                      nh_site_name := Grouper.site_name n;
                      nh_change_category := Some (Grouper.category n);
                      nh_importance_level := Some (Grouper.importance n);
                      nh_feedback_received := false |}]) d
        else d).
Proof.
  intros Hl. unfold send_single_notification. cbv zeta.
  destruct (deliver user_id _); [|reflexivity].
  unfold bind. rewrite save_notification_history_idle by exact Hl.
  reflexivity.
Qed.

(** The three ways in which [process_change] ends for a user who has a
    row and an empty queue: nothing happens (the analysis or the decision
    raised), the change is filtered, or one message goes out. *)
Lemma process_change_cases e ev s row :
  lock_held (db s) = false ->
  user_preferences (db s) !! Monitor.ev_user_id ev = Some row ->
  default [] (grouper s !! Monitor.ev_user_id ev) = [] ->
  process_change strftime deliver e ev s = Some (s, [])
  \/ process_change strftime deliver e ev s
     = Some ({| db := db s; grouper := grouper s;
                counters := count_filtered (counters s) |}, [])
  \/ exists a,
       Filter.analyze_change_importance (api_key e) (remote_analysis e)
         (record_of_event ev) = inr a
       /\ Prefs.should_send_notification (Monitor.ev_user_id ev)
            (analysis_view a) (db s) = Ok true (db s)
       /\ process_change strftime deliver e ev s
          = let user_id := Monitor.ev_user_id ev in
            let n := make_notification e ev a in
            let message := format_notification_message strftime n in
            let id := Grouper.notification_id n in
            Some ({| db :=
                       if deliver user_id message
                       then set_notification_history
                              (notification_history (db s) ++
                                 [{| nh_user_id := user_id;
                                     nh_notification_id := id;
                                     nh_site_name := Grouper.site_name n;
                                     nh_change_category := Some (Grouper.category n);
                                     nh_importance_level :=
                                       Some (Grouper.importance n);
                                     nh_feedback_received := false |}]) (db s)
                       else db s;
                     grouper :=
                       <[user_id := []]>
                         (Grouper.add_notification user_id n (grouper s));
                     counters := count_sent (counters s) |},
                  [{| chat_id := user_id; text := message;
                      buttons := [callback_data "like" id;
                                  callback_data "dislike" id;
                                  callback_data "dismiss" id];
                      delivered := deliver user_id message |}]).
Proof.
  intros Hl Hr Hq. unfold process_change. cbv zeta.
  rewrite (get_user_preferences_row (db s) _ row Hl Hr).
  destruct (Filter.analyze_change_importance _ _ _) as [err|a] eqn:Ha.
  - left. rewrite with_db_same. reflexivity.
  - destruct (should_send_store (db s) (Monitor.ev_user_id ev) row a Hl Hr)
      as [Hs | [Hs | [err Hs]]]; rewrite Hs.
    + right; right. exists a. split; [reflexivity|]. split; [exact Hs|].
      assert (Hp : Grouper.add_notification (Monitor.ev_user_id ev)
                     (make_notification e ev a) (grouper s)
                   !! Monitor.ev_user_id ev
                   = Some [make_notification e ev a]).
      { unfold Grouper.add_notification, Grouper.pending in *.
        rewrite lookup_insert_eq, Hq. reflexivity. }
      rewrite (flush_nonempty _ _ _ _ _ _ Hp).
      unfold Grouper.group_all. cbn [fold_left].
      rewrite (group_append_new [] _) by apply not_elem_of_nil.
      cbn [app Grouper.summarize send_all]. unfold bind.
      rewrite send_single_notification_idle by exact Hl. cbv zeta.
      unfold ret. reflexivity.
    + right; left. reflexivity.
    + left. rewrite with_db_same. reflexivity.
Qed.

End DeliveryLemmas.

End SystemLemmas.

(** X26.  The callback data of the three feedback buttons and the parser
    of [handle_callback] are inverse to each other: the data built for a
    feedback type and a notification id, whatever underscores the id holds,
    is read back as that type and that whole id, and every data that is
    read as feedback is the concatenation of one of the three types, an
    underscore and the id. *)
Theorem callback_round_trip (data kind notification_id : string) :
  (kind ∈ ["like"; "dislike"; "dismiss"]%string ->
   System.parse_feedback_callback (System.callback_data kind notification_id)
   = Some (kind, notification_id))
  /\ (System.parse_feedback_callback data = Some (kind, notification_id) ->
      kind ∈ ["like"; "dislike"; "dismiss"]%string
      /\ data = System.callback_data kind notification_id).
Proof.
  split.
  - apply parse_callback_data.
  - unfold System.parse_feedback_callback.
    destruct (String.prefix "delete_" data); [discriminate|].
    destruct (String.prefix "like_" data) eqn:H1;
      [|destruct (String.prefix "dislike_" data) eqn:H2;
        [|destruct (String.prefix "dismiss_" data) eqn:H3]];
      cbn [orb].
    + apply prefix_app in H1. destruct H1 as [rest ->].
      intros H. cbv in H. injection H as <- <-.
      split; [set_solver | reflexivity].
    + apply prefix_app in H2. destruct H2 as [rest ->].
      intros H. cbv in H. injection H as <- <-.
      split; [set_solver | reflexivity].
    + apply prefix_app in H3. destruct H3 as [rest ->].
      intros H. cbv in H. injection H as <- <-.
      split; [set_solver | reflexivity].
    + discriminate.
Qed.

(** X27.  Feedback on a notification that the history does not hold for
    this user (an unknown id, or the id of a notification sent to someone
    else) changes nothing: no feedback row, no learning, no counter. *)
Theorem feedback_on_unknown_notification (s : System.t) (user_id : Z)
    (notification_id feedback_type : string) :
  Db.lock_held (System.db s) = false ->
  (forall h, h ∈ Db.notification_history (System.db s) ->
             Db.nh_notification_id h = notification_id ->
             Db.nh_user_id h <> user_id) ->
  System.handle_feedback user_id notification_id feedback_type s = Some s.
Proof.
  intros Hl Hh. unfold System.handle_feedback.
  rewrite find_notification_idle by exact Hl.
  rewrite find_absent; [rewrite with_db_same; reflexivity|].
  intros h Hin. apply andb_false_iff.
  destruct (String.eqb_spec (Db.nh_notification_id h) notification_id) as [He|];
    [right | left; reflexivity].
  apply Z.eqb_neq. apply Hh; assumption.
Qed.

Lemma feedback_on_unknown_notification_witness :
  System.handle_feedback 2 "1_1700000000.5" "like"
    (Fixtures.system (Sample.store Sample.default_row))
  = Some (Fixtures.system (Sample.store Sample.default_row)).
Proof.
  apply (feedback_on_unknown_notification
           (Fixtures.system (Sample.store Sample.default_row)) 2
           "1_1700000000.5" "like" eq_refl).
  intros h Hin. vm_compute in Hin. set_solver.
Defined.

(** X28.  [process_change] never groups: for a user who has a preference
    row and whose queue is empty, a call that returns leaves the queue
    empty again and every other queue as it was, and sends at most one
    message, to this user.  The counter of sent notifications grows by the
    number of messages handed to the bot, delivered or not, and the history
    grows by the number of delivered ones. *)
Theorem process_change_sends_alone (strftime : Z -> string)
    (deliver : Z -> string -> bool) (e : System.env)
    (ev : Monitor.change_event) (s s' : System.t) (row : Db.prefs_row)
    (out : list System.sent_message) :
  Db.lock_held (System.db s) = false ->
  Db.user_preferences (System.db s) !! Monitor.ev_user_id ev = Some row ->
  default [] (System.grouper s !! Monitor.ev_user_id ev) = [] ->
  System.process_change strftime deliver e ev s = Some (s', out) ->
  default [] (System.grouper s' !! Monitor.ev_user_id ev) = []
  /\ (forall other, other <> Monitor.ev_user_id ev ->
                    System.grouper s' !! other = System.grouper s !! other)
  /\ (length out <= 1)%nat
  /\ (forall m, m ∈ out -> System.chat_id m = Monitor.ev_user_id ev)
  /\ System.notifications_sent (System.counters s')
     = System.notifications_sent (System.counters s) + Z.of_nat (length out)
  /\ length (Db.notification_history (System.db s'))
     = (length (Db.notification_history (System.db s))
        + length (List.filter System.delivered out))%nat.
Proof.
  intros Hl Hr Hq H.
  destruct (process_change_cases strftime deliver e ev s row Hl Hr Hq)
    as [Hc | [Hc | (a & _ & _ & Hc)]]; rewrite Hc in H; clear Hc;
    cbv zeta in H; injection H as <- <-.
  - split; [exact Hq|]. split; [reflexivity|]. split; [cbn; lia|].
    split; [intros m Hm; inversion Hm|]. cbn [length List.filter]. lia.
  - cbn [System.grouper System.db System.counters System.count_filtered
         System.notifications_sent length List.filter].
    split; [exact Hq|]. split; [reflexivity|]. split; [lia|].
    split; [intros m Hm; inversion Hm|]. lia.
  - cbn [System.grouper System.db System.counters System.count_sent
         System.notifications_sent length List.filter System.delivered].
    unfold Grouper.add_notification, Grouper.pending in *.
    split; [rewrite lookup_insert_eq; reflexivity|].
    split; [intros other Hne; rewrite !lookup_insert_ne by congruence;
            reflexivity|].
    split; [lia|].
    split; [intros m Hm; apply list_elem_of_singleton in Hm; subst m;
            reflexivity|].
    split; [lia|].
    destruct (deliver _ _); cbn [Db.notification_history
                                   Db.set_notification_history length];
      [rewrite length_app; cbn [length]; lia | lia].
Qed.

Lemma process_change_sends_alone_witness :
  exists s' m,
    System.process_change Fixtures.clock Fixtures.offline Fixtures.remote_env
      Fixtures.small_change (Fixtures.system (Sample.store Sample.default_row))
    = Some (s', [m])
    /\ System.notifications_sent (System.counters s') = 1
    /\ Db.notification_history (System.db s') = [].
Proof.
  destruct (System.process_change Fixtures.clock Fixtures.offline
              Fixtures.remote_env Fixtures.small_change
              (Fixtures.system (Sample.store Sample.default_row)))
    as [[s' out]|] eqn:H; [|vm_compute in H; discriminate H].
  destruct (process_change_sends_alone Fixtures.clock Fixtures.offline
              Fixtures.remote_env Fixtures.small_change
              (Fixtures.system (Sample.store Sample.default_row)) s'
              Sample.default_row out eq_refl eq_refl eq_refl H)
    as (_ & _ & _ & _ & Hsent & Hhist).
  destruct out as [|m [|m' out]];
    [vm_compute in H; discriminate H | | vm_compute in H; discriminate H].
  exists s', m. split; [reflexivity|]. split; [exact Hsent|].
  assert (Hd : System.delivered m = false)
    by (vm_compute in H; injection H as _ <-; reflexivity).
  cbn [List.filter] in Hhist. rewrite Hd in Hhist.
  destruct (Db.notification_history (System.db s')); [reflexivity|].
  cbn in Hhist. lia.
Defined.

(** X29.  A delivered notification can be answered: when [process_change]
    hands out a message that the bot delivered, under an id that the
    history did not hold yet, each of its three buttons carries data that
    [handle_callback] reads back as a feedback type and this id, and
    [handle_feedback] with them returns and appends to the feedback table
    one row with that type and with the category and the importance of
    the analysis. *)
Theorem delivered_notification_takes_feedback (strftime : Z -> string)
    (deliver : Z -> string -> bool) (e : System.env)
    (ev : Monitor.change_event) (s s' : System.t) (row : Db.prefs_row)
    (m : System.sent_message) :
  let user_id := Monitor.ev_user_id ev in
  let id := (pretty user_id +:+ "_" +:+ System.stamp e)%string in
  Db.lock_held (System.db s) = false ->
  Db.user_preferences (System.db s) !! user_id = Some row ->
  default [] (System.grouper s !! user_id) = [] ->
  (forall h, h ∈ Db.notification_history (System.db s) ->
             Db.nh_notification_id h <> id) ->
  System.process_change strftime deliver e ev s = Some (s', [m]) ->
  System.delivered m = true ->
  exists a,
    Filter.analyze_change_importance (System.api_key e)
      (System.remote_analysis e) (System.record_of_event ev) = inr a
    /\ length (System.buttons m) = 3%nat
    /\ forall button,
         button ∈ System.buttons m ->
         exists feedback_type s'',
           System.parse_feedback_callback button = Some (feedback_type, id)
           /\ System.handle_feedback user_id id feedback_type s' = Some s''
           /\ Db.user_feedback (System.db s'')
              = Db.user_feedback (System.db s) ++
                  [{| Db.fb_user_id := user_id; Db.fb_notification_id := id;
                      Db.fb_feedback_type := feedback_type;
                      Db.fb_change_category := Some (Filter.category a);
                      Db.fb_importance_level := Some (Filter.importance a) |}].
Proof.
  intros user_id id Hl Hr Hq Hfresh H Hd.
  destruct (process_change_cases strftime deliver e ev s row Hl Hr Hq)
    as [Hc | [Hc | (a & Ha & _ & Hc)]]; rewrite Hc in H; clear Hc;
    cbv zeta in H; try discriminate H.
  injection H as <- <-. cbn [System.delivered] in Hd.
  fold user_id in Hd |- *. rewrite Hd.
  exists a. split; [exact Ha|]. split; [reflexivity|].
  cbn [System.buttons System.make_notification Grouper.notification_id
       Grouper.site_name Grouper.category Grouper.importance].
  fold id.
  assert (Hfb : forall feedback_type,
            feedback_type ∈ ["like"; "dislike"; "dismiss"]%string ->
            exists feedback_type' s'',
              System.parse_feedback_callback
                (System.callback_data feedback_type id)
              = Some (feedback_type', id)
              /\ System.handle_feedback user_id id feedback_type'
                   {| System.db :=
                        Db.set_notification_history
                          (Db.notification_history (System.db s) ++
                             [{| Db.nh_user_id := user_id;
                                 Db.nh_notification_id := id;
                                 Db.nh_site_name := Monitor.ev_site_name ev;
                                 Db.nh_change_category := Some (Filter.category a);
                                 Db.nh_importance_level :=
                                   Some (Filter.importance a);
                                 Db.nh_feedback_received := false |}])
                          (System.db s);
                      System.grouper :=
                        <[user_id := []]>
                          (Grouper.add_notification user_id
                             (System.make_notification e ev a)
                             (System.grouper s));
                      System.counters := System.count_sent (System.counters s) |}
                 = Some s''
              /\ Db.user_feedback (System.db s'')
                 = Db.user_feedback (System.db s) ++
                     [{| Db.fb_user_id := user_id; Db.fb_notification_id := id;
                         Db.fb_feedback_type := feedback_type';
                         Db.fb_change_category := Some (Filter.category a);
                         Db.fb_importance_level := Some (Filter.importance a) |}]).
  { intros ft Hft. exists ft.
    rewrite (parse_callback_data ft id Hft).
    unfold System.handle_feedback. cbn [System.db].
    rewrite find_notification_idle by (destruct (System.db s); exact Hl).
    cbn [Db.notification_history Db.set_notification_history].
    rewrite (find_fresh _ (Db.notification_history (System.db s))).
    - cbn [Db.nh_change_category Db.nh_importance_level].
      rewrite (record_feedback_row _ user_id row id ft _)
        by (destruct (System.db s); assumption).
      cbv zeta. destruct (Prefs.adjust_all _ _);
        eexists; (split; [reflexivity|]); (split; [reflexivity|]);
        reflexivity.
    - intros h Hin. apply andb_false_iff. left.
      apply String.eqb_neq. apply Hfresh. exact Hin.
    - cbn [Db.nh_notification_id Db.nh_user_id].
      rewrite String.eqb_refl, Z.eqb_refl. reflexivity. }
  intros button Hb. set_unfold in Hb.
  destruct Hb as [-> | [-> | [-> | []]]]; apply Hfb; set_solver.
Qed.

Lemma delivered_notification_takes_feedback_witness :
  exists s' m s'',
    System.process_change Fixtures.clock Fixtures.online Fixtures.remote_env
      Fixtures.small_change (Fixtures.system (Sample.store Sample.default_row))
    = Some (s', [m])
    /\ System.handle_feedback 1 "1_1700000000.5" "like" s' = Some s''
    /\ length (Db.user_feedback (System.db s'')) = 1%nat.
Proof.
  destruct (System.process_change Fixtures.clock Fixtures.online
              Fixtures.remote_env Fixtures.small_change
              (Fixtures.system (Sample.store Sample.default_row)))
    as [[s' [|m [|m' out]]]|] eqn:H; try (vm_compute in H; discriminate H).
  assert (Hd : System.delivered m = true)
    by (vm_compute in H; injection H as _ <-; reflexivity).
  destruct (delivered_notification_takes_feedback Fixtures.clock
              Fixtures.online Fixtures.remote_env Fixtures.small_change
              (Fixtures.system (Sample.store Sample.default_row)) s'
              Sample.default_row m eq_refl eq_refl eq_refl)
    as (a & _ & _ & Hb); [intros h Hin; inversion Hin | exact H | exact Hd |].
  assert (Hin : System.callback_data "like" "1_1700000000.5" ∈ System.buttons m)
    by (vm_compute in H; injection H as _ <-; apply list_elem_of_here).
  destruct (Hb _ Hin) as (ft & s'' & Hp & Hh & Hf).
  assert (ft = "like"%string) as -> by (vm_compute in Hp; congruence).
  exists s', m, s''. split; [reflexivity|]. split; [exact Hh|].
  rewrite Hf. reflexivity.
Defined.

(** ** The scan *)

Section ScanLemmas.
Import Db Monitor Scan.
Variable md5 : string -> string.
Variable unified_diff : string -> string -> option string.
Variable observe : site_row -> observation.
Variable clock : site_row -> Z.

Lemma check_each_effect sites : forall d,
  lock_held d = false ->
  exists events d',
    check_each md5 unified_diff observe clock sites d = Ok events d'
    /\ lock_held d' = false
    /\ users d' = users d
    /\ user_preferences d' = user_preferences d
    /\ user_feedback d' = user_feedback d
    /\ notification_history d' = notification_history d
    /\ dom (monitored_sites d') = dom (monitored_sites d)
    /\ (forall id,
          (forall site, site ∈ sites -> ms_id site <> id) ->
          monitored_sites d' !! id = monitored_sites d !! id)
    /\ forall ev, ev ∈ events ->
                  exists site, site ∈ sites
                               /\ ev_user_id ev = ms_user_id site
                               /\ ev_site_name ev = ms_site_name site.
Proof.
  induction sites as [|site rest IH]; intros d Hl.
  - exists [], d. split; [reflexivity|].
    repeat split; try reflexivity; try exact Hl. intros ev Hin. inversion Hin.
  - cbn [check_each].
    destruct (check_site_effect md5 unified_diff d site (observe site)
                (clock site) Hl)
      as (ev1 & d1 & -> & Hl1 & Hu1 & Hp1 & Hf1 & Hh1 & Hd1 & Ho1 & He1).
    destruct (IH d1 Hl1)
      as (ev2 & d2 & -> & Hl2 & Hu2 & Hp2 & Hf2 & Hh2 & Hd2 & Ho2 & He2).
    exists (ev1 ++ ev2), d2. split; [reflexivity|].
    split; [exact Hl2|]. split; [congruence|]. split; [congruence|].
    split; [congruence|]. split; [congruence|]. split; [congruence|].
    split.
    + intros id Hid. rewrite Ho2, Ho1; [reflexivity | |].
      * intros Heq. apply (Hid site); [apply list_elem_of_here | congruence].
      * intros site' Hin. apply Hid. apply list_elem_of_further. exact Hin.
    + intros ev Hin. apply elem_of_app in Hin. destruct Hin as [Hin|Hin].
      * destruct (He1 ev Hin) as [Hu Hn]. exists site.
        split; [apply list_elem_of_here | split; assumption].
      * destruct (He2 ev Hin) as (site' & Hs & Hu & Hn). exists site'.
        split; [apply list_elem_of_further; exact Hs | split; assumption].
Qed.

End ScanLemmas.

(** X30.  A scan of a table whose rows are stored under their own ids
    returns, and it touches the due sites only: a stopped scan does
    nothing; an active one adds or removes no site row, leaves every row
    that was not due at the time of the selection as it was, and hands to
    [process_change] only changes of sites that were due, each for the
    owner of its site. *)
Theorem scan_checks_due_sites_only (md5 : string -> string)
    (unified_diff : string -> string -> option string)
    (observe : Db.site_row -> Monitor.observation) (clock : Db.site_row -> Z)
    (d : Db.t) (now : Z) :
  Db.lock_held d = false ->
  (forall id site, Db.monitored_sites d !! id = Some site -> Db.ms_id site = id) ->
  Scan.check_all_sites md5 unified_diff observe clock false now d = Db.Ok [] d
  /\ exists events d',
       Scan.check_all_sites md5 unified_diff observe clock true now d
       = Db.Ok events d'
       /\ Db.lock_held d' = false
       /\ dom (Db.monitored_sites d') = dom (Db.monitored_sites d)
       /\ (forall id site,
             Db.monitored_sites d !! id = Some site ->
             Monitor.due d now site = false ->
             Db.monitored_sites d' !! id = Some site)
       /\ forall ev,
            ev ∈ events ->
            exists site,
              Db.monitored_sites d !! Db.ms_id site = Some site
              /\ Monitor.due d now site = true
              /\ Monitor.ev_user_id ev = Db.ms_user_id site.
Proof.
  intros Hl Hkey. split; [reflexivity|].
  unfold Scan.check_all_sites. cbn [negb].
  rewrite (get_all_monitored_sites_idle d now Hl).
  assert (Hsel : forall site,
            site ∈ filter (fun site => Is_true (Monitor.due d now site))
                     (snd <$> map_to_list (Db.monitored_sites d)) ->
            Monitor.due d now site = true
            /\ Db.monitored_sites d !! Db.ms_id site = Some site).
  { intros site Hin. apply list_elem_of_filter in Hin. destruct Hin as [Hdue Hin].
    split; [apply Is_true_true; exact Hdue|].
    apply list_elem_of_fmap in Hin. destruct Hin as ([id site'] & -> & Hin).
    apply elem_of_map_to_list in Hin. cbn [snd].
    rewrite (Hkey id site' Hin). exact Hin. }
  destruct (check_each_effect md5 unified_diff observe clock
              (filter (fun site => Is_true (Monitor.due d now site))
                 (snd <$> map_to_list (Db.monitored_sites d))) d Hl)
    as (events & d' & -> & Hl' & _ & _ & _ & _ & Hd & Ho & He).
  exists events, d'. split; [reflexivity|]. split; [exact Hl'|].
  split; [exact Hd|]. split.
  - intros id site Hs Hdue. rewrite Ho; [exact Hs|].
    intros site' Hin Hid. destruct (Hsel site' Hin) as [Hdue' Hs'].
    rewrite Hid, Hs in Hs'. injection Hs' as ->. congruence.
  - intros ev Hin. destruct (He ev Hin) as (site & Hs & Hu & _).
    destruct (Hsel site Hs) as [Hdue Hrow]. exists site. auto.
Qed.

Lemma scan_checks_due_sites_only_witness :
  exists events d',
    Scan.check_all_sites Sample.digest Sample.no_diff Fixtures.sample_page
      Fixtures.at_noon true 1700000000 Sample.site_store = Db.Ok events d'
    /\ dom (Db.monitored_sites d') = dom (Db.monitored_sites Sample.site_store).
Proof.
  destruct (scan_checks_due_sites_only Sample.digest Sample.no_diff
              Fixtures.sample_page Fixtures.at_noon Sample.site_store
              1700000000 eq_refl)
    as (_ & events & d' & H & _ & Hd & _).
  - intros id site Hs.
    change (Db.monitored_sites Sample.site_store)
      with ({[ 7 := Sample.site ]} : gmap Z Db.site_row) in Hs.
    apply lookup_singleton_Some in Hs. destruct Hs as [<- <-]. reflexivity.
  - exists events, d'. split; [exact H | exact Hd].
Defined.
